(** * DavaoWifiLogger: presence reconstruction of the MCP server

    A shallow embedding of the session-reconstruction code of the
    [DavaoWifiMCPServer] tool server ([clampIntervalToDay], [mergeSessions],
    [getEmployeePresence], [getDailyReport] and the [presenceAnalytics]
    tool), of its CSV export and of its database connection, followed by the
    properties of that code.

    Conventions of the embedding.
    - A JavaScript [Date] holding a valid time is its time value: a whole
      number of milliseconds, read on the local wall clock of a zone with a
      fixed offset (the office is in Davao; no daylight saving), so that a
      calendar day is a block of 86400000 ms.
    - A calendar day ['YYYY-MM-DD'] is its day number (days since
      1970-01-01); day 20301 is 2025-08-01.
    - [gapMinutes] is a JavaScript number; it is a rational here, and the
      division by [1000 * 60] of the gap test is exact.
    - The hours are JavaScript numbers: IEEE 754 doubles, with the
      additions and divisions of the code rounded as the standard has them
      ([SpecFloat] at precision 53), and [toFixed(2)] taken on the double.
    - Arrays are lists; an array that the code fills with [push] grows at its
      end.  A [Map] is an association list in insertion order, because the
      code iterates over [entries()]. *)

From Stdlib Require Import ZArith QArith List Bool Lia SpecFloat.
From Stdlib Require Import String Ascii DecimalString.
From Stdlib Require Import Permutation Sorted.
Import ListNotations.

Local Open Scope Z_scope.

(* ================================================================= *)
(** ** Dates                                                          *)
(* ================================================================= *)

(** The time value of a [Date], in local milliseconds. *)
Definition Date : Type := Z.

(** An interval is the two-element array [[start, end]]. *)
Definition Interval : Type := (Date * Date)%type.

Definition msPerDay : Z := 86400000.

(** [new Date(`${dayStr}T00:00:00`)] and [new Date(`${dayStr}T23:59:59`)]. *)
Definition dayStartOf (dayStr : Z) : Date := dayStr * msPerDay.
Definition dayEndOf (dayStr : Z) : Date := dayStr * msPerDay + 86399000.

(** SQLite's [date(ts)]: the calendar day a stored timestamp falls on. *)
Definition sqlDate (ts : Date) : Z := ts / msPerDay.

(** Calendar fields of a day number (proleptic Gregorian calendar). *)
Definition civilOfDays (dayNumber : Z) : Z * Z * Z :=
  let z := dayNumber + 719468 in
  let era := z / 146097 in
  let doe := z - era * 146097 in
  let yoe := (doe - doe / 1460 + doe / 36524 - doe / 146096) / 365 in
  let doy := doe - (365 * yoe + yoe / 4 - yoe / 100) in
  let mp := (5 * doy + 2) / 153 in
  let d := doy - (153 * mp + 2) / 5 + 1 in
  let m := if mp <? 10 then mp + 3 else mp - 9 in
  let y := yoe + era * 400 in
  ((if m <=? 2 then y + 1 else y), m, d).

Definition getFullYear (d : Date) : Z := fst (fst (civilOfDays (d / msPerDay))).
(** [getMonth] counts from 0. *)
Definition getMonth (d : Date) : Z := snd (fst (civilOfDays (d / msPerDay))) - 1.
Definition getDate (d : Date) : Z := snd (civilOfDays (d / msPerDay)).
Definition getHours (d : Date) : Z := (d mod msPerDay) / 3600000.
Definition getMinutes (d : Date) : Z := (d mod 3600000) / 60000.
Definition getSeconds (d : Date) : Z := (d mod 60000) / 1000.

(** [String(n)] for an integer [n]. *)
Definition stringOfZ (n : Z) : string := NilZero.string_of_int (Z.to_int n).

(** [s.padStart(2, '0')]. *)
Definition padStart2 (s : string) : string :=
  match s with
  | EmptyString => "00"
  | String c EmptyString => String "0" (String c EmptyString)
  | _ => s
  end.

Definition pad (n : Z) : string := padStart2 (stringOfZ n).

Definition toLocalISOString (d : Date) : string :=
  (stringOfZ (getFullYear d) ++ "-" ++ pad (getMonth d + 1) ++ "-" ++ pad (getDate d)
   ++ " " ++ pad (getHours d) ++ ":" ++ pad (getMinutes d) ++ ":" ++ pad (getSeconds d))%string.

(* ================================================================= *)
(** ** Array.prototype.sort                                           *)
(* ================================================================= *)

(** [sort] is stable and is only ever given a consistent comparator here
    (a difference of numbers, a string comparison), so its result is the one
    stable ordering of the array; insertion from the right computes it.  An
    element goes in front of the first element it does not compare greater
    than, which keeps equal elements in their original order. *)
Section ArraySort.
Context {A : Type}.
Variable compareFn : A -> A -> Z.

Fixpoint insertSorted (x : A) (sorted : list A) : list A :=
  match sorted with
  | [] => [x]
  | y :: rest =>
      if compareFn x y <=? 0 then x :: sorted else y :: insertSorted x rest
  end.

Fixpoint sort (arr : list A) : list A :=
  match arr with
  | [] => []
  | x :: rest => insertSorted x (sort rest)
  end.
End ArraySort.

(* ================================================================= *)
(** ** clampIntervalToDay and mergeSessions                           *)
(* ================================================================= *)

(** [null] is [None]. *)
Definition clampIntervalToDay (interval : Interval) (dayStr : Z) : option Interval :=
  let '(start, end_) := interval in
  let dayStart := dayStartOf dayStr in
  let dayEnd := dayEndOf dayStr in
  let s := Z.max start dayStart in
  let e := Z.min end_ dayEnd in
  if e <? s then None else Some (s, e).

(** [(s.getTime() - curE.getTime()) / (1000 * 60)], in minutes. *)
Definition gapBetween (s curE : Date) : Q := (inject_Z (s - curE) / inject_Z (1000 * 60))%Q.

(** The test [gap > gapMinutes]. *)
Definition gapExceeds (s curE : Date) (gapMinutes : Q) : bool :=
  negb (Qle_bool (gapBetween s curE) gapMinutes).

(** The [for] loop of [mergeSessions]: [merged] is the array built so far,
    [(curS, curE)] the open session, [rest] the intervals still to visit.
    The value is [merged] after the final [push]. *)
Fixpoint mergeLoop (gapMinutes : Q) (merged : list Interval) (curS curE : Date)
    (rest : list Interval) : list Interval :=
  match rest with
  | [] => merged ++ [(curS, curE)]
  | (s, e) :: rest' =>
      if gapExceeds s curE gapMinutes
      then mergeLoop gapMinutes (merged ++ [(curS, curE)]) s e rest'
      else mergeLoop gapMinutes merged curS (if curE <? e then e else curE) rest'
  end.

(** The comparator [(a, b) => a[0] - b[0]]. *)
Definition byStart (a b : Interval) : Z := fst a - fst b.

(** [intervals.sort] leaves the array non-empty when it was, so the inner
    [[]] case stands for no run of the code. *)
Definition mergeSessions (intervals : list Interval) (gapMinutes : Q) : list Interval :=
  match intervals with
  | [] => []
  | _ :: _ =>
      match sort byStart intervals with
      | [] => []
      | (curS, curE) :: rest => mergeLoop gapMinutes [] curS curE rest
      end
  end.

(* ================================================================= *)
(** ** Strings                                                        *)
(* ================================================================= *)

(** Device labels are taken to be ASCII: [\s], [trim] and [toLowerCase]
    act on the ASCII white space and letters. *)
Definition isSpace (c : ascii) : bool :=
  let n := nat_of_ascii c in
  ((9 <=? n)%nat && (n <=? 13)%nat) || (n =? 32)%nat.

Fixpoint trimStart (s : string) : string :=
  match s with
  | EmptyString => EmptyString
  | String c rest => if isSpace c then trimStart rest else s
  end.

Fixpoint trimEnd (s : string) : string :=
  match s with
  | EmptyString => EmptyString
  | String c rest =>
      match trimEnd rest with
      | EmptyString => if isSpace c then EmptyString else String c EmptyString
      | kept => String c kept
      end
  end.

Definition trim (s : string) : string := trimEnd (trimStart s).

(** After the opening parenthesis and one character that is not [")"]:
    the rest of [[^)]+] and the closing [\)]; the value is what follows the
    match. *)
Fixpoint closeGroup (s : string) : option string :=
  match s with
  | EmptyString => None
  | String c rest => if Ascii.eqb c ")" then Some rest else closeGroup rest
  end.

(** A match of [/\s*\(([^)]+)\)/] that starts at the head of [s]. *)
Definition matchGroupAt (s : string) : option string :=
  match trimStart s with
  | String "(" (String c rest) => if Ascii.eqb c ")" then None else closeGroup rest
  | _ => None
  end.

(** [s.replace(/\s*\(([^)]+)\)/, '')]: the leftmost match is cut out. *)
Fixpoint removeFirstGroup (s : string) : string :=
  match matchGroupAt s with
  | Some after => after
  | None =>
      match s with
      | EmptyString => EmptyString
      | String c rest => String c (removeFirstGroup rest)
      end
  end.

(** [name] is the [Name] column: [None] is SQL [NULL]; [NULL] and [''] are
    the falsy names. *)
Definition normalizeName (name : option string) : string :=
  match name with
  | None => "Unregistered Device"
  | Some EmptyString => "Unregistered Device"
  | Some n => trim (removeFirstGroup n)
  end.

Definition lowerAscii (c : ascii) : ascii :=
  let n := nat_of_ascii c in
  if ((65 <=? n)%nat && (n <=? 90)%nat) then ascii_of_nat (n + 32) else c.

Fixpoint toLowerCase (s : string) : string :=
  match s with
  | EmptyString => EmptyString
  | String c rest => String (lowerAscii c) (toLowerCase rest)
  end.

Fixpoint includes (s searchString : string) : bool :=
  if String.prefix searchString s then true
  else match s with
       | EmptyString => false
       | String _ rest => includes rest searchString
       end.

Definition signOf (c : comparison) : Z :=
  match c with Lt => -1 | Eq => 0 | Gt => 1 end.

(** [a.localeCompare(b)].  It is only applied to [''] and to the stamps of
    [toLocalISOString], on which the locale order is the order of the code
    units. *)
Definition localeCompare (a b : string) : Z := signOf (String.compare a b).

(* ================================================================= *)
(** ** The logs table and its two queries                             *)
(* ================================================================= *)

(** A row of [SELECT Name, FirstSeen, LastSeen FROM logs]; a missing
    [LastSeen] ([NULL] or ['']) is [None]. *)
Record Row : Type := mkRow {
  Name : option string;
  FirstSeen : Date;
  LastSeen : option Date
}.

(** [WHERE date(FirstSeen) = ? OR date(LastSeen) = ?]. *)
Definition onDate (date : Z) (r : Row) : bool :=
  (sqlDate (FirstSeen r) =? date)
  || match LastSeen r with Some l => sqlDate l =? date | None => false end.

(** [ORDER BY FirstSeen]. *)
Definition orderByFirstSeen (a b : Row) : Z := FirstSeen a - FirstSeen b.

(** [ORDER BY Name, FirstSeen]: [NULL] first, then text under the binary
    collation. *)
Definition compareName (a b : option string) : Z :=
  match a, b with
  | None, None => 0
  | None, Some _ => -1
  | Some _, None => 1
  | Some x, Some y => signOf (String.compare x y)
  end.

Definition orderByNameFirstSeen (a b : Row) : Z :=
  let c := compareName (Name a) (Name b) in
  if c =? 0 then FirstSeen a - FirstSeen b else c.

(** The two [db.all] calls; rows that the [ORDER BY] does not tell apart come
    in table order. *)
Definition selectPresenceRows (logs : list Row) (date : Z) : list Row :=
  sort orderByFirstSeen (filter (onDate date) logs).

Definition selectReportRows (logs : list Row) (date : Z) : list Row :=
  sort orderByNameFirstSeen (filter (onDate date) logs).

(** [[new Date(r.FirstSeen), new Date(r.LastSeen || r.FirstSeen)]]. *)
Definition rowInterval (r : Row) : Interval :=
  (FirstSeen r, match LastSeen r with Some l => l | None => FirstSeen r end).

(* ================================================================= *)
(** ** Sessions and hours                                             *)
(* ================================================================= *)

Record SessionView : Type := mkSession { in_time : string; out_time : string }.

Definition sessionView (iv : Interval) : SessionView :=
  {| in_time := toLocalISOString (fst iv); out_time := toLocalISOString (snd iv) |}.

(** A JavaScript number: a double, that is a binary floating-point number
    of precision 53 with exponents below 1024.  [numberOfZ z] is the double
    nearest to the integer [z] (the integer itself up to 2^53), and the
    operations round to nearest, ties to even. *)
Definition Number : Type := spec_float.
Definition numberOfZ (z : Z) : Number := binary_normalize 53 1024 z 0 false.
Definition numberAdd : Number -> Number -> Number := SFadd 53 1024.
Definition numberSub : Number -> Number -> Number := SFsub 53 1024.
Definition numberDiv : Number -> Number -> Number := SFdiv 53 1024.

(** [merged.reduce((acc, [s, e]) => acc + (e - s) / (1000 * 60), 0)]. *)
Definition totalMinutesOf (merged : list Interval) : Number :=
  fold_left (fun acc iv =>
               numberAdd acc (numberDiv (numberSub (numberOfZ (snd iv)) (numberOfZ (fst iv)))
                                        (numberOfZ (1000 * 60))))
            merged (numberOfZ 0).

(** [x.toFixed(2)], held as the number of hundredths it prints: the integer
    [n] for which [n / 100] is nearest to the double [x], the larger of two
    that are as near (the sign being set apart first).  The double
    [m * 2 ^ e] is taken as it is, so that an amount such as 1.005 hours,
    whose double lies below the tie, prints as 1.00.  (The totals of the
    code are finite and far below 1e21, where [toFixed] changes notation;
    the text of an infinity or of a NaN has no hundredths, and is 0 here.) *)
Definition toFixed2 (x : Number) : Z :=
  match x with
  | S754_finite negative m e =>
      let n := if 0 <=? e then 100 * Z.pos m * 2 ^ e
               else (200 * Z.pos m + 2 ^ (- e)) / 2 ^ (1 - e) in
      if negative then - n else n
  | _ => 0
  end.

(** [Number(totalMinutes / 60).toFixed(2)]. *)
Definition hoursOf (totalMinutes : Number) : Z :=
  toFixed2 (numberDiv totalMinutes (numberOfZ 60)).

(** [Number(text)] on the text of a [toFixed(2)]: the double nearest to the
    decimal number that the text writes. *)
Definition numberOfHundredths (hundredths : Z) : Number :=
  numberDiv (numberOfZ hundredths) (numberOfZ 100).

(** [text || null] on a string. *)
Definition orNull (text : option string) : option string :=
  match text with
  | Some EmptyString => None
  | other => other
  end.

(** [sessions[0]?.in_time] and [sessions[sessions.length - 1]?.out_time]. *)
Definition firstInTime (sessions : list SessionView) : option string :=
  option_map in_time (hd_error sessions).
Definition lastOutTime (sessions : list SessionView) : option string :=
  option_map out_time (hd_error (rev sessions)).

(* ================================================================= *)
(** ** getEmployeePresence                                            *)
(* ================================================================= *)

Module Presence.
(** The object that [getEmployeePresence] serialises. *)
Record Result : Type := mkResult {
  employee : option string;
  date : Z;
  sessions : list SessionView;
  total_hours : Z;
  first_in : option string;
  last_out : option string
}.
End Presence.

(** What [getEmployeePresence] returns as its text content: the sentence
    [`No logs found for ${employeeName} on ${date}`] or the result object. *)
Inductive PresenceReply : Type :=
| NoLogsFound (employeeName : string) (date : Z)
| PresenceFound (result : Presence.Result).

(** One turn of the [for (const r of rows)] loop; the state is
    [(canonicalName, intervals)]. *)
Definition presenceStep (target : string) (date : Z)
    (state : option string * list Interval) (r : Row) : option string * list Interval :=
  let '(canonicalName, intervals) := state in
  let norm := normalizeName (Name r) in
  if negb (includes (toLowerCase norm) target) then state
  else
    let canonicalName' :=
      match canonicalName with
      | None | Some EmptyString => Some norm
      | kept => kept
      end in
    match clampIntervalToDay (rowInterval r) date with
    | Some clamped => (canonicalName', intervals ++ [clamped])
    | None => (canonicalName', intervals)
    end.

Definition getEmployeePresence (logs : list Row) (employeeName : string) (date : Z)
    (gapMinutes : Q) : PresenceReply :=
  let rows := selectPresenceRows logs date in
  let target := toLowerCase employeeName in
  let '(canonicalName, intervals) := fold_left (presenceStep target date) rows (None, []) in
  match intervals with
  | [] => NoLogsFound employeeName date
  | _ :: _ =>
      let merged := mergeSessions intervals gapMinutes in
      let sessions := map sessionView merged in
      let totalMinutes := totalMinutesOf merged in
      PresenceFound
        {| Presence.employee := canonicalName;
           Presence.date := date;
           Presence.sessions := sessions;
           Presence.total_hours := hoursOf totalMinutes;
           Presence.first_in := firstInTime sessions;
           Presence.last_out := lastOutTime sessions |}
  end.

(* ================================================================= *)
(** ** getDailyReport                                                 *)
(* ================================================================= *)

Module Daily.
Record Employee : Type := mkEmployee {
  name : string;
  first_in : option string;
  last_out : option string;
  sessions : list SessionView;
  total_hours : Z
}.

Record Report : Type := mkReport {
  date : Z;
  total_employees : Z;
  employees : list Employee
}.
End Daily.

(** [if (!byName.has(k)) byName.set(k, []); byName.get(k).push(v)] on a [Map]
    kept in insertion order. *)
Fixpoint mapPush {V : Type} (k : string) (v : V) (m : list (string * list V))
    : list (string * list V) :=
  match m with
  | [] => [(k, [v])]
  | (k', vs) :: m' =>
      if String.eqb k k' then (k', vs ++ [v]) :: m' else (k', vs) :: mapPush k v m'
  end.

(** One turn of the grouping loop of [getDailyReport]. *)
Definition reportStep (date : Z) (byName : list (string * list Interval)) (r : Row)
    : list (string * list Interval) :=
  let norm := normalizeName (Name r) in
  if includes (toLowerCase norm) "unknown" || includes (toLowerCase norm) "anonymous"
  then byName
  else
    match clampIntervalToDay (rowInterval r) date with
    | None => byName
    | Some clamped => mapPush norm clamped byName
    end.

Definition groupByName (rows : list Row) (date : Z) : list (string * list Interval) :=
  fold_left (reportStep date) rows [].

(** The body of [for (const [name, ivals] of byName.entries())]. *)
Definition employeeOf (gapMinutes : Q) (entry : string * list Interval) : Daily.Employee :=
  let '(name, ivals) := entry in
  let merged := mergeSessions ivals gapMinutes in
  let sessions := map sessionView merged in
  let totalMinutes := totalMinutesOf merged in
  {| Daily.name := name;
     Daily.first_in := orNull (firstInTime sessions);
     Daily.last_out := orNull (lastOutTime sessions);
     Daily.sessions := sessions;
     Daily.total_hours := hoursOf totalMinutes |}.

(** [(a, b) => (a.first_in || '').localeCompare(b.first_in || '')]. *)
Definition orEmpty (text : option string) : string :=
  match text with Some t => t | None => EmptyString end.

Definition byFirstIn (a b : Daily.Employee) : Z :=
  localeCompare (orEmpty (Daily.first_in a)) (orEmpty (Daily.first_in b)).

(** The [employees] array before it is sorted. *)
Definition dailyEntries (logs : list Row) (date : Z) (gapMinutes : Q) : list Daily.Employee :=
  map (employeeOf gapMinutes) (groupByName (selectReportRows logs date) date).

Definition getDailyReport (logs : list Row) (date : Z) (gapMinutes : Q) : Daily.Report :=
  let employees := sort byFirstIn (dailyEntries logs date gapMinutes) in
  {| Daily.date := date;
     Daily.total_employees := Z.of_nat (List.length employees);
     Daily.employees := employees |}.

(* ================================================================= *)
(** ** The presenceAnalytics tool and the tool dispatcher             *)
(* ================================================================= *)

Module RangeDay.
(** An element of a summary's [days]. *)
Record Entry : Type := mkEntry {
  date : Z;
  first_in : option string;
  last_out : option string;
  total_hours : Z
}.
End RangeDay.

Module Range.
Record Summary : Type := mkSummary {
  name : string;
  days_present : Z;
  total_hours : Z;
  days : list RangeDay.Entry
}.

Record Analytics : Type := mkAnalytics {
  startDate : Z;
  endDate : Z;
  employees : list Summary
}.
End Range.

(** The days visited by
    [for (let d = new Date(start); d <= end; d.setDate(d.getDate() + 1))]:
    [start], [start + 1], ... while not after [end]. *)
Definition daysOfRange (startDate endDate : Z) : list Z :=
  map (fun k => startDate + Z.of_nat k) (seq 0 (Z.to_nat (endDate - startDate + 1))).

(** The [days] array: one [{ date, employees }] per visited day. *)
Definition dayReports (logs : list Row) (startDate endDate : Z) (gapMinutes : Q)
    : list (Z * list Daily.Employee) :=
  map (fun dayStr => (dayStr, Daily.employees (getDailyReport logs dayStr gapMinutes)))
      (daysOfRange startDate endDate).

Definition entryOf (date : Z) (e : Daily.Employee) : RangeDay.Entry :=
  {| RangeDay.date := date;
     RangeDay.first_in := Daily.first_in e;
     RangeDay.last_out := Daily.last_out e;
     RangeDay.total_hours := Daily.total_hours e |}.

(** The two nested loops that fill the second [byName] map. *)
Definition collectDay (byName : list (string * list RangeDay.Entry))
    (day : Z * list Daily.Employee) : list (string * list RangeDay.Entry) :=
  fold_left (fun m e => mapPush (Daily.name e) (entryOf (fst day) e) m) (snd day) byName.

Definition collectDays (days : list (Z * list Daily.Employee))
    : list (string * list RangeDay.Entry) :=
  fold_left collectDay days [].

(** [entries.reduce((acc, e) => acc + Number(e.total_hours || 0), 0)] and
    [totalHours.toFixed(2)]; the text of a [toFixed(2)] is never empty, so
    that [|| 0] does not apply. *)
Definition summaryOf (entry : string * list RangeDay.Entry) : Range.Summary :=
  let '(name, entries) := entry in
  let totalHours :=
    fold_left (fun acc e => numberAdd acc (numberOfHundredths (RangeDay.total_hours e)))
              entries (numberOfZ 0) in
  {| Range.name := name;
     Range.days_present := Z.of_nat (List.length entries);
     Range.total_hours := toFixed2 totalHours;
     Range.days := entries |}.

Definition presenceAnalytics (logs : list Row) (startDate endDate : Z) (gapMinutes : Q)
    : Range.Analytics :=
  let days := dayReports logs startDate endDate gapMinutes in
  let byName := collectDays days in
  {| Range.startDate := startDate;
     Range.endDate := endDate;
     Range.employees := map summaryOf byName |}.

(** The requests of [CallToolRequestSchema] that reach the reconstruction
    code, and any other tool name.  A missing [gapMinutes] is [None]. *)
Inductive ToolCall : Type :=
| CallEmployeePresence (employeeName : string) (date : Z) (gapMinutes : option Q)
| CallPresenceAnalytics (startDate endDate : Z) (gapMinutes : option Q)
| CallOther (name : string).

(** The text content of the reply; [ErrorText m] is [`Error: ${m}`], written
    by the [catch] of the handler. *)
Inductive ToolReply : Type :=
| PresenceText (reply : PresenceReply)
| AnalyticsText (payload : Range.Analytics)
| ErrorText (message : string).

(** The default [gapMinutes = 30]. *)
Definition gapOrDefault (gapMinutes : option Q) : Q :=
  match gapMinutes with Some g => g | None => 30%Q end.

Definition callTool (logs : list Row) (request : ToolCall) : ToolReply :=
  match request with
  | CallEmployeePresence employeeName date gapMinutes =>
      PresenceText (getEmployeePresence logs employeeName date (gapOrDefault gapMinutes))
  | CallPresenceAnalytics startDate endDate gapMinutes =>
      AnalyticsText (presenceAnalytics logs startDate endDate (gapOrDefault gapMinutes))
  | CallOther name => ErrorText ("Unknown tool: " ++ name)%string
  end.

(* ================================================================= *)
(** ** The merger of the specification, and the vocabulary of the
       statements                                                     *)
(* ================================================================= *)

(** The reference merger, written after the words of the specification
    (section 4.2), to be compared with [mergeSessions]: sort by start
    ascending, ties broken by end ascending; the current session starts as
    the first interval; an interval whose gap to the current session exceeds
    the tolerance closes it and opens a new one, any other interval extends
    the current end to the larger of the two ends; the open session is
    emitted at the end; no interval, no session. *)
Definition byStartThenEnd (a b : Interval) : Z :=
  if fst a =? fst b then snd a - snd b else fst a - fst b.

Fixpoint specFold (gapMinutes : Q) (current : Interval) (rest : list Interval)
    : list Interval :=
  match rest with
  | [] => [current]
  | i :: rest' =>
      if gapExceeds (fst i) (snd current) gapMinutes
      then current :: specFold gapMinutes i rest'
      else specFold gapMinutes (fst current, Z.max (snd current) (snd i)) rest'
  end.

Definition specRun (gapMinutes : Q) (sorted : list Interval) : list Interval :=
  match sorted with
  | [] => []
  | first :: rest => specFold gapMinutes first rest
  end.


(** The order of that sort, said without a sorting procedure: [a] may stand
    before [b] when it starts earlier, or starts together with [b] and ends
    no later. *)
Definition startThenEndNoLater (a b : Interval) : Prop :=
  fst a < fst b \/ (fst a = fst b /\ snd a <= snd b).

(** [sorted] is [intervals] sorted by start ascending, ties broken by end
    ascending: the same intervals, each before those that follow it in that
    order.  The reference merger folds over this list. *)
Definition specSorted (intervals sorted : list Interval) : Prop :=
  Permutation intervals sorted /\ StronglySorted startThenEndNoLater sorted.

(** The invariant of the specification's [Interval]: [start <= end]. *)
Definition wellFormed (iv : Interval) : Prop := fst iv <= snd iv.

Definition startsNoLater (a b : Interval) : Prop := fst a <= fst b.
Definition endsBefore (a b : Interval) : Prop := snd a < fst b.

(** No instant lies in both intervals. *)
Definition disjoint (a b : Interval) : Prop :=
  forall t : Z, ~ ((fst a <= t <= snd a) /\ (fst b <= t <= snd b)).

(** [b] starts more than the tolerance after [a] ends. *)
Definition apart (gapMinutes : Q) (a b : Interval) : Prop :=
  (gapMinutes < gapBetween (fst b) (snd a))%Q.

(** Two lists of intervals that differ by exchanges of neighbours with the
    same start. *)
Inductive tieSwap : list Interval -> list Interval -> Prop :=
| tieSwap_refl : forall l, tieSwap l l
| tieSwap_swap : forall a b l,
    fst a = fst b -> wellFormed a -> wellFormed b ->
    tieSwap (a :: b :: l) (b :: a :: l)
| tieSwap_skip : forall x l l', tieSwap l l' -> tieSwap (x :: l) (x :: l')
| tieSwap_trans : forall l1 l2 l3, tieSwap l1 l2 -> tieSwap l2 l3 -> tieSwap l1 l3.

(** The keys of a list in the order of their first occurrence. *)
Fixpoint firstOccurrences (keys : list string) : list string :=
  match keys with
  | [] => []
  | k :: rest => k :: filter (fun k' => negb (String.eqb k' k)) (firstOccurrences rest)
  end.

(** The order of the report's sort key. *)
Definition firstInNoLater (a b : Daily.Employee) : Prop := byFirstIn a b <= 0.

(** The entries of a report that share the sort key [key]. *)
Definition withFirstIn (key : option string) (e : Daily.Employee) : bool :=
  String.eqb (orEmpty (Daily.first_in e)) (orEmpty key).

(** A clock reading on a day, for the worked inputs below. *)
Definition at_ (day hours minutes : Z) : Date :=
  day * msPerDay + hours * 3600000 + minutes * 60000.


(** Two replies of [getEmployeePresence] that say the same but for the
    [employee] they name: the same sentence, or results with the same date,
    sessions, hours, first entry and last exit. *)
Definition sameButEmployee (a b : PresenceReply) : Prop :=
  match a, b with
  | NoLogsFound employeeName date, NoLogsFound employeeName' date' =>
      employeeName = employeeName' /\ date = date'
  | PresenceFound x, PresenceFound y =>
      Presence.date x = Presence.date y
      /\ Presence.sessions x = Presence.sessions y
      /\ Presence.total_hours x = Presence.total_hours y
      /\ Presence.first_in x = Presence.first_in y
      /\ Presence.last_out x = Presence.last_out y
  | _, _ => False
  end.

(** The rows that the grouping loop of [getDailyReport] does not skip:
    the identity is not an unknown or anonymous one and the row survives
    clamping to the day. *)
Definition entersReport (date : Z) (r : Row) : bool :=
  let norm := normalizeName (Name r) in
  negb (includes (toLowerCase norm) "unknown" || includes (toLowerCase norm) "anonymous")
  && match clampIntervalToDay (rowInterval r) date with
     | Some _ => true
     | None => false
     end.

(** The identities of the rows that enter the report of a day, in the order
    of the query. *)
Definition identitiesMet (logs : list Row) (date : Z) : list string :=
  map (fun r => normalizeName (Name r))
      (filter (entersReport date) (selectReportRows logs date)).

(** The keys of a [Map] after the keys [keys] have been pushed to, one
    after the other: a key that is new goes to the end. *)
Definition keysAfter (known keys : list string) : list string :=
  fold_left (fun acc k => if existsb (String.eqb k) acc then acc else acc ++ [k])
            keys known.

(** The order of the specification's daily report (section 4.4): by
    [firstIn] ascending, an identity without sessions after those with
    sessions, ties by identity name ascending.  [reportOrderOk a b] tells
    whether [a] may stand before [b]. *)
Definition reportOrderOk (a b : Daily.Employee) : bool :=
  match Daily.first_in a, Daily.first_in b with
  | Some x, Some y =>
      if String.eqb x y then String.leb (Daily.name a) (Daily.name b) else String.ltb x y
  | Some _, None => true
  | None, Some _ => false
  | None, None => String.leb (Daily.name a) (Daily.name b)
  end.

Fixpoint neighboursAll {A : Type} (ok : A -> A -> bool) (l : list A) : bool :=
  match l with
  | a :: (b :: _) as rest => ok a b && neighboursAll ok rest
  | _ => true
  end.

Definition inSpecReportOrder (employees : list Daily.Employee) : bool :=
  neighboursAll reportOrderOk employees.

Definition namesAscending (names : list string) : bool :=
  neighboursAll String.leb names.

(* ================================================================= *)
(** ** Worked inputs                                                  *)
(* ================================================================= *)

(** Point observations at 09:00, 09:15, 09:40 and 12:35 on 2025-08-01,
    given out of order. *)
Definition morningIntervals : list Interval :=
  [ (at_ 20301 9 40, at_ 20301 9 40); (at_ 20301 9 0, at_ 20301 9 0);
    (at_ 20301 12 35, at_ 20301 12 35); (at_ 20301 9 15, at_ 20301 9 15) ].

(** Two intervals that start together and end apart, in both orders. *)
Definition tiedLongFirst : list Interval :=
  [ (at_ 20301 9 0, at_ 20301 11 0); (at_ 20301 9 0, at_ 20301 9 5);
    (at_ 20301 8 0, at_ 20301 8 20) ].
Definition tiedShortFirst : list Interval :=
  [ (at_ 20301 9 0, at_ 20301 9 5); (at_ 20301 9 0, at_ 20301 11 0);
    (at_ 20301 8 0, at_ 20301 8 20) ].

(** Two intervals that start together at 08:00, the longer one first, and
    the same two sorted by start, then end. *)
Definition tiedFromEight : list Interval :=
  [ (at_ 20301 8 0, at_ 20301 8 10); (at_ 20301 8 0, at_ 20301 8 0) ].
Definition tiedFromEightSorted : list Interval :=
  [ (at_ 20301 8 0, at_ 20301 8 0); (at_ 20301 8 0, at_ 20301 8 10) ].

(** Two rows of one device, both first seen at 08:00, one last seen at 08:10
    and one not seen again; a table that holds them in this order, and one
    that holds them in the other. *)
Definition kioskLong : Row := mkRow (Some "Kiosk"%string) (at_ 20301 8 0) (Some (at_ 20301 8 10)).
Definition kioskPoint : Row := mkRow (Some "Kiosk"%string) (at_ 20301 8 0) None.
Definition kioskLongFirst : list Row := [kioskLong; kioskPoint].
Definition kioskPointFirst : list Row := [kioskPoint; kioskLong].

(** Ann's device from 08:00 to 09:00, and a row of the device labelled
    Ann Lee whose [LastSeen], 06:00, precedes its [FirstSeen], 07:00. *)
Definition annRow : Row := mkRow (Some "Ann"%string) (at_ 20301 8 0) (Some (at_ 20301 9 0)).
Definition annLeeReversed : Row :=
  mkRow (Some "Ann Lee"%string) (at_ 20301 7 0) (Some (at_ 20301 6 0)).

(** From 2025-07-31 23:50 to 2025-08-01 00:10. *)
Definition overMidnight : Interval := (at_ 20300 23 50, at_ 20301 0 10).

(** A table for 2025-08-01 and 2025-08-02.  Three devices are first seen at
    08:00 on the first day, one of them without a label; the last row has
    its [LastSeen] an hour before its [FirstSeen]. *)
Definition officeLogs : list Row :=
  [ mkRow (Some "Ann(b)"%string) (at_ 20301 8 0) (Some (at_ 20301 9 0));
    mkRow (Some "Ann Lee"%string) (at_ 20301 8 0) None;
    mkRow None (at_ 20301 8 0) (Some (at_ 20301 8 45));
    mkRow (Some "Zed"%string) (at_ 20301 7 0) (Some (at_ 20301 7 30));
    mkRow (Some "Amy"%string) (at_ 20302 9 0) (Some (at_ 20302 10 0));
    mkRow (Some "Bea"%string) (at_ 20301 9 0) (Some (at_ 20301 8 0)) ].

(** Identity "A" with one session of two hours on 2025-07-02. *)
Definition julyLogs : list Row :=
  [ mkRow (Some "A (laptop)"%string) (at_ 20271 10 0) (Some (at_ 20271 12 0)) ].

(* ================================================================= *)
(** ** exportReport                                                   *)
(* ================================================================= *)

(** The double quote character. *)
Definition doubleQuote : ascii := ascii_of_nat 34.

(** The test of the regular expression that looks for a comma or a double
    quote in [v]. *)
Fixpoint needsQuoting (v : string) : bool :=
  match v with
  | EmptyString => false
  | String c rest =>
      Ascii.eqb c "," || Ascii.eqb c doubleQuote || needsQuoting rest
  end.

(** The [replace] that writes every double quote of [v] twice. *)
Fixpoint doubleQuotes (v : string) : string :=
  match v with
  | EmptyString => EmptyString
  | String c rest =>
      if Ascii.eqb c doubleQuote
      then String doubleQuote (String doubleQuote (doubleQuotes rest))
      else String c (doubleQuotes rest)
  end.

(** The function mapped over a row before it is joined. *)
Definition csvCell (v : string) : string :=
  if needsQuoting v
  then String doubleQuote (doubleQuotes v ++ String doubleQuote EmptyString)
  else v.

(** [arr.join(sep)]. *)
Definition join (sep : string) (arr : list string) : string := String.concat sep arr.

(** The text of a [toFixed(2)] held as hundredths: sign, whole part, point,
    two decimals.  (Below 1e21, past which [toFixed] changes notation.) *)
Definition showFixed2 (hundredths : Z) : string :=
  let sign := if hundredths <? 0 then "-"%string else EmptyString in
  (sign ++ stringOfZ (Z.abs hundredths / 100) ++ "." ++ pad (Z.abs hundredths mod 100))%string.

(** [Math.max(0, ...payload.employees.map(e => e.sessions.length))]. *)
Definition maxSessionsOf (employees : list Daily.Employee) : nat :=
  fold_left Nat.max (map (fun e => List.length (Daily.sessions e)) employees) 0%nat.

(** [['Name', 'In1', 'Out1', ..., 'TotalHours']]. *)
Definition exportHeaders (maxSessions : nat) : list string :=
  "Name"%string
  :: flat_map (fun i => [ ("In" ++ stringOfZ (Z.of_nat i))%string;
                          ("Out" ++ stringOfZ (Z.of_nat i))%string ])
              (seq 1 maxSessions)
  ++ ["TotalHours"%string].

(** [emp.sessions[i]?.in_time || ''] and the same for [out_time]. *)
Definition sessionCells (session : option SessionView) : list string :=
  match session with
  | Some s => [in_time s; out_time s]
  | None => [EmptyString; EmptyString]
  end.

(** The array [row] of an employee, before its cells are quoted. *)
Definition exportRow (maxSessions : nat) (emp : Daily.Employee) : list string :=
  Daily.name emp
  :: flat_map (fun i => sessionCells (nth_error (Daily.sessions emp) i)) (seq 0 maxSessions)
  ++ [showFixed2 (Daily.total_hours emp)].

(** The header line is joined as it is, the rows after their cells went
    through [csvCell]; the lines are joined by a line feed. *)
Definition exportLines (employees : list Daily.Employee) : list string :=
  let maxSessions := maxSessionsOf employees in
  join "," (exportHeaders maxSessions)
  :: map (fun emp => join "," (map csvCell (exportRow maxSessions emp))) employees.

Definition lineFeed : string := String (ascii_of_nat 10) EmptyString.

Definition exportReport (logs : list Row) (date : Z) (gapMinutes : Q) : string :=
  join lineFeed (exportLines (Daily.employees (getDailyReport logs date gapMinutes))).

(** Reading a row back, under the usual rules of comma-separated values:
    a field that opens with a double quote runs to the next double quote
    that is not written twice, a pair of double quotes inside it stands for
    one, and it may hold commas and line breaks; any other field runs to the
    next comma and holds no double quote; a line break outside a quoted
    field ends the record.  [readFields mode s] is the list of the fields of
    [s], the first of them being the rest of the field that the reader is
    in; it is [None] when [s] is not one record: a quoted field is left
    open, a double quote stands where none may, or the record ends before
    [s] does. *)
Inductive ReadMode : Type := FieldStart | InPlain | InQuoted | AfterQuote.

(** A line feed or a carriage return. *)
Definition lineBreak (c : ascii) : bool :=
  Ascii.eqb c (ascii_of_nat 10) || Ascii.eqb c (ascii_of_nat 13).

Fixpoint hasLineBreak (v : string) : bool :=
  match v with
  | EmptyString => false
  | String c rest => lineBreak c || hasLineBreak rest
  end.

(** A cell that [csvCell] leaves without quotes although it holds a line
    break. *)
Definition bareLineBreak (v : string) : bool := negb (needsQuoting v) && hasLineBreak v.

Definition pushChar (c : ascii) (fields : list string) : list string :=
  match fields with
  | [] => [String c EmptyString]
  | f :: rest => String c f :: rest
  end.

Fixpoint readFields (mode : ReadMode) (s : string) : option (list string) :=
  match s with
  | EmptyString =>
      match mode with
      | InQuoted => None
      | _ => Some [EmptyString]
      end
  | String c rest =>
      match mode with
      | FieldStart =>
          if Ascii.eqb c doubleQuote then readFields InQuoted rest
          else if Ascii.eqb c ","
               then option_map (cons EmptyString) (readFields FieldStart rest)
               else if lineBreak c then None
                    else option_map (pushChar c) (readFields InPlain rest)
      | InPlain =>
          if Ascii.eqb c ","
          then option_map (cons EmptyString) (readFields FieldStart rest)
          else if Ascii.eqb c doubleQuote || lineBreak c then None
               else option_map (pushChar c) (readFields InPlain rest)
      | InQuoted =>
          if Ascii.eqb c doubleQuote then readFields AfterQuote rest
          else option_map (pushChar c) (readFields InQuoted rest)
      | AfterQuote =>
          if Ascii.eqb c doubleQuote
          then option_map (pushChar doubleQuote) (readFields InQuoted rest)
          else if Ascii.eqb c ","
               then option_map (cons EmptyString) (readFields FieldStart rest)
               else None
      end
  end.

Definition readRow (line : string) : option (list string) := readFields FieldStart line.

(** What follows a field: nothing, or a comma and more fields.  In both
    cases the reader closes the field it is in and goes on to [fields], the
    fields that follow, if they can be read. *)
Definition closesField (tail : string) (fields : option (list string)) : Prop :=
  forall mode, mode <> InQuoted ->
    readFields mode tail = option_map (cons EmptyString) fields.

(* ================================================================= *)
(** ** The server and its database connection                         *)
(* ================================================================= *)

(** What a connection does when the code awaits [this.db.all(sql, params)]
    with one of its two queries on [logs]: it resolves with rows of the [logs]
    table behind the file, or it rejects with an error.  The second is the
    case of a file that opens without a [logs] table, such as the empty file
    that [open] creates for a path where there was none (the message is then
    [SQLITE_ERROR: no such table: logs]).  The files are taken not to change
    between the calls considered. *)
Inductive Database : Type :=
| Logs (table : list Row)
| Failing (message : string).

(** The two fields of [DavaoWifiMCPServer]; [None] is [null]. *)
Record Server : Type := mkServer {
  db : option Database;
  dbPath : string
}.

(** A call that returns or throws an [Error] with a message. *)
Inductive Outcome (A : Type) : Type :=
| Returned (value : A)
| Thrown (message : string).
Arguments Returned {A} value.
Arguments Thrown {A} message.

(** The tools of the handler that do not read the clock, and any other
    name.  A missing argument is [None]. *)
Inductive ServerCall : Type :=
| ConfigureDatabase (path : option string)
| EmployeePresence (employeeName : string) (date : Z) (gapMinutes : option Q)
| PresenceAnalytics (startDate endDate : Z) (gapMinutes : option Q)
| ExportReport (date : Z) (gapMinutes : option Q)
| OtherTool (name : string).

(** The text content of a reply: the [{ dbPath }] object, one of the
    results, the CSV text, or [`Error: ${message}`]. *)
Inductive ServerReply : Type :=
| DbPathText (path : string)
| PresenceReplyText (reply : PresenceReply)
| AnalyticsReplyText (payload : Range.Analytics)
| CsvText (csv : string)
| ErrorReplyText (message : string).

Section Connections.
(** [open({ filename, driver })]: the connection to the file, or the message
    of the error that [open] throws. *)
Variable openDatabase : string -> Database + string.

(** [customPath || this.dbPath]. *)
Definition pathOr (customPath : option string) (current : string) : string :=
  match customPath with
  | None | Some EmptyString => current
  | Some p => p
  end.

Definition initialize (server : Server) (customPath : option string)
    : Server * Outcome unit :=
  let path := pathOr customPath (dbPath server) in
  match openDatabase path with
  | inl database => ({| db := Some database; dbPath := path |}, Returned tt)
  | inr message => (server, Thrown message)
  end.

Definition ensureDb (server : Server) : Server * Outcome unit :=
  match db server with
  | None => initialize server None
  | Some _ => (server, Returned tt)
  end.

(** [await this.db.all(...)] followed by the rest of the method, [query],
    on the rows: a rejection is thrown on, past the rest of the method. *)
Definition allRows {A : Type} (database : Database) (query : list Row -> A) : Outcome A :=
  match database with
  | Logs table => Returned (query table)
  | Failing message => Thrown message
  end.

(** A method that starts with [await this.ensureDb()], then awaits
    [this.db.all] and computes [query] on the rows; reading a [null]
    connection would throw. *)
Definition withDb {A : Type} (server : Server) (query : list Row -> A)
    : Server * Outcome A :=
  match ensureDb server with
  | (server', Returned _) =>
      match db server' with
      | Some database => (server', allRows database query)
      | None => (server', Thrown "Cannot read properties of null (reading 'all')"%string)
      end
  | (server', Thrown message) => (server', Thrown message)
  end.

Definition configureDatabase (server : Server) (newPath : option string)
    : Server * Outcome string :=
  match newPath with
  | None | Some EmptyString =>
      match ensureDb server with
      | (server', Returned _) => (server', Returned (dbPath server'))
      | (server', Thrown message) => (server', Thrown message)
      end
  | Some _ =>
      match initialize {| db := None; dbPath := dbPath server |} newPath with
      | (server', Returned _) => (server', Returned (dbPath server'))
      | (server', Thrown message) => (server', Thrown message)
      end
  end.

(** The loop of the [presenceAnalytics] case: one [getDailyReport] per day,
    each with its own [ensureDb]; the first throw ends the loop. *)
Fixpoint dayReportsOn (server : Server) (days : list Z) (gapMinutes : Q)
    : Server * Outcome (list (Z * list Daily.Employee)) :=
  match days with
  | [] => (server, Returned [])
  | dayStr :: rest =>
      match withDb server (fun table => getDailyReport table dayStr gapMinutes) with
      | (server', Returned rep) =>
          match dayReportsOn server' rest gapMinutes with
          | (server'', Returned reports) =>
              (server'', Returned ((dayStr, Daily.employees rep) :: reports))
          | (server'', Thrown message) => (server'', Thrown message)
          end
      | (server', Thrown message) => (server', Thrown message)
      end
  end.

Definition analyticsOf (startDate endDate : Z) (days : list (Z * list Daily.Employee))
    : Range.Analytics :=
  {| Range.startDate := startDate;
     Range.endDate := endDate;
     Range.employees := map summaryOf (collectDays days) |}.

(** [exportReport]: [ensureDb], then [getDailyReport] with its own
    [ensureDb]. *)
Definition exportReportOn (server : Server) (date : Z) (gapMinutes : Q)
    : Server * Outcome string :=
  match ensureDb server with
  | (server', Returned _) =>
      withDb server'
        (fun table =>
           join lineFeed (exportLines (Daily.employees (getDailyReport table date gapMinutes))))
  | (server', Thrown message) => (server', Thrown message)
  end.

(** The [try] of the request handler with its [catch]. *)
Definition replyOf {A : Type} (wrap : A -> ServerReply) (result : Server * Outcome A)
    : Server * ServerReply :=
  match result with
  | (server, Returned value) => (server, wrap value)
  | (server, Thrown message) => (server, ErrorReplyText message)
  end.

Definition handleCall (server : Server) (request : ServerCall) : Server * ServerReply :=
  match request with
  | ConfigureDatabase path => replyOf DbPathText (configureDatabase server path)
  | EmployeePresence employeeName date gapMinutes =>
      replyOf PresenceReplyText
        (withDb server
           (fun table => getEmployeePresence table employeeName date (gapOrDefault gapMinutes)))
  | PresenceAnalytics startDate endDate gapMinutes =>
      replyOf (fun days => AnalyticsReplyText (analyticsOf startDate endDate days))
        (dayReportsOn server (daysOfRange startDate endDate) (gapOrDefault gapMinutes))
  | ExportReport date gapMinutes =>
      replyOf CsvText (exportReportOn server date (gapOrDefault gapMinutes))
  | OtherTool name => (server, ErrorReplyText ("Unknown tool: " ++ name)%string)
  end.
End Connections.

(** A disk: the office table under the name office.sqlite; no file named
    new.sqlite, so that opening it creates an empty file, without a [logs]
    table; a directory that does not exist, where nothing opens. *)
Definition noSuchTable : string := "SQLITE_ERROR: no such table: logs".

Definition sampleDisk (path : string) : Database + string :=
  if String.eqb path "office.sqlite" then inl (Logs officeLogs)
  else if String.eqb path "new.sqlite" then inl (Failing noSuchTable)
  else inr "SQLITE_CANTOPEN: unable to open database file"%string.

(** A server connected to the office table, one that has not connected
    yet, one whose file cannot be opened, and one connected to the empty
    file. *)
Definition officeServer : Server :=
  {| db := Some (Logs officeLogs); dbPath := "office.sqlite" |}.
Definition idleServer : Server :=
  {| db := None; dbPath := "office.sqlite" |}.
Definition lostServer : Server :=
  {| db := None; dbPath := "/nowhere/office.sqlite" |}.
Definition emptyFileServer : Server :=
  {| db := Some (Failing noSuchTable); dbPath := "new.sqlite" |}.

(* ================================================================= *)
(** ** Further vocabulary                                             *)
(* ================================================================= *)

(** [c] occurs in [s]. *)
Fixpoint hasChar (c : ascii) (s : string) : bool :=
  match s with
  | EmptyString => false
  | String x rest => Ascii.eqb x c || hasChar c rest
  end.

(** The device label [name (device)]. *)
Definition labelled (name device : string) : string :=
  (name ++ " (" ++ device ++ ")")%string.

(** An interval that lies on the day [date] and does not end before it
    starts. *)
Definition onDay (date : Z) (iv : Interval) : Prop :=
  dayStartOf date <= fst iv /\ fst iv <= snd iv /\ snd iv <= dayEndOf date.

(** The name is not one that [getDailyReport] leaves out. *)
Definition reportable (name : string) : bool :=
  negb (includes (toLowerCase name) "unknown" || includes (toLowerCase name) "anonymous").

(** The state of the loop of [getEmployeePresence]: the intervals lie on the
    day, a name has been picked as soon as there is an interval, and the
    picked name matches the query. *)
Definition presenceInvariant (target : string) (date : Z)
    (state : option string * list Interval) : Prop :=
  Forall (onDay date) (snd state)
  /\ (fst state = None -> snd state = [])
  /\ (forall c, fst state = Some c -> includes (toLowerCase c) target = true).

(** The milliseconds spanned by a list of sessions. *)
Fixpoint totalMs (sessions : list Interval) : Z :=
  match sessions with
  | [] => 0
  | iv :: rest => (snd iv - fst iv) + totalMs rest
  end.

(** One device seen twice over the whole of 2025-08-01. *)
Definition allDayTwice : list Row :=
  [ mkRow (Some "Kiosk"%string) (dayStartOf 20301) (Some (dayEndOf 20301));
    mkRow (Some "Kiosk"%string) (dayStartOf 20301) (Some (dayEndOf 20301)) ].

(** [byName.get(k)], with [[]] for a key that is not in the map. *)
Fixpoint valuesOf {V : Type} (k : string) (m : list (string * list V)) : list V :=
  match m with
  | [] => []
  | (k', vs) :: m' => if String.eqb k k' then vs else valuesOf k m'
  end.

(** The names of the daily report of a day. *)
Definition reportNames (logs : list Row) (date : Z) (gapMinutes : Q) : list string :=
  map Daily.name (Daily.employees (getDailyReport logs date gapMinutes)).

(** Zed's summary over 2025-08-01..2025-08-02 in [officeLogs]. *)
Definition zedSummary : Range.Summary :=
  {| Range.name := "Zed";
     Range.days_present := 1;
     Range.total_hours := 50;
     Range.days :=
       [ {| RangeDay.date := 20301;
            RangeDay.first_in := Some "2025-08-01 07:00:00"%string;
            RangeDay.last_out := Some "2025-08-01 07:30:00"%string;
            RangeDay.total_hours := 50 |} ] |}.

(* ================================================================= *)
(** ** Facts about the gap test                                       *)
(* ================================================================= *)

Lemma gapBetween_le (s c s' c' : Date) :
  (gapBetween s c <= gapBetween s' c')%Q <-> s - c <= s' - c'.
Proof.
  unfold gapBetween, Qle, Qdiv, Qmult, Qinv, inject_Z; simpl. lia.
Qed.

Lemma gapExceeds_true (s c : Date) (g : Q) :
  gapExceeds s c g = true <-> (g < gapBetween s c)%Q.
Proof.
  unfold gapExceeds. rewrite negb_true_iff.
  destruct (Qle_bool (gapBetween s c) g) eqn:E.
  - apply Qle_bool_iff in E. split; [discriminate|].
    intros H. exfalso. exact (Qlt_not_le _ _ H E).
  - split; [intros _|reflexivity].
    apply Qnot_le_lt. intros H. apply Qle_bool_iff in H. congruence.
Qed.

Lemma gapExceeds_mono (s c s' c' : Date) (g : Q) :
  s - c <= s' - c' -> gapExceeds s c g = true -> gapExceeds s' c' g = true.
Proof.
  intros Hle H. apply gapExceeds_true in H. apply gapExceeds_true.
  eapply Qlt_le_trans; [exact H|]. apply gapBetween_le. exact Hle.
Qed.

Lemma gapBetween_nonpos (s c : Date) : s <= c -> (gapBetween s c <= 0)%Q.
Proof.
  intros H. unfold gapBetween, Qle, Qdiv, Qmult, Qinv, inject_Z; simpl. lia.
Qed.

Lemma gapExceeds_after (s c : Date) (g : Q) :
  (0 <= g)%Q -> gapExceeds s c g = true -> c < s.
Proof.
  intros Hg H. apply gapExceeds_true in H.
  destruct (Z_lt_le_dec c s) as [Hlt|Hle]; [exact Hlt|].
  exfalso. apply gapBetween_nonpos in Hle.
  apply (Qlt_irrefl g). eapply Qlt_le_trans; [exact H|].
  eapply Qle_trans; [exact Hle|exact Hg].
Qed.

Lemma gapExceeds_within (s c : Date) (g : Q) :
  (0 <= g)%Q -> s <= c -> gapExceeds s c g = false.
Proof.
  intros Hg Hle. destruct (gapExceeds s c g) eqn:E; [|reflexivity].
  apply gapExceeds_after in E; [lia|exact Hg].
Qed.

(* ================================================================= *)
(** ** Facts about sort                                               *)
(* ================================================================= *)

Section SortFacts.
Context {A : Type}.
Variable compareFn : A -> A -> Z.

Lemma insertSorted_perm (x : A) (l : list A) :
  Permutation (insertSorted compareFn x l) (x :: l).
Proof.
  induction l as [|y l IH]; simpl.
  - apply Permutation_refl.
  - destruct (compareFn x y <=? 0).
    + apply Permutation_refl.
    + eapply perm_trans; [apply perm_skip, IH|apply perm_swap].
Qed.

Lemma sort_perm (l : list A) : Permutation (sort compareFn l) l.
Proof.
  induction l as [|x l IH]; simpl.
  - apply perm_nil.
  - eapply perm_trans; [apply insertSorted_perm|apply perm_skip, IH].
Qed.

Lemma sort_In (l : list A) (x : A) : In x (sort compareFn l) <-> In x l.
Proof.
  split; apply Permutation_in; [|apply Permutation_sym]; apply sort_perm.
Qed.

(** Stability: the elements of one class of equals (a class [keep] on which
    no element compares greater than another) leave [sort] in the order in
    which they came. *)
Lemma insertSorted_filter (keep : A -> bool) (x : A) (l : list A) :
  (forall a b, keep a = true -> keep b = true -> compareFn a b <= 0) ->
  filter keep (insertSorted compareFn x l) = filter keep (x :: l).
Proof.
  intros Hclass. induction l as [|y l IH]; [reflexivity|].
  simpl. destruct (compareFn x y <=? 0) eqn:E; [reflexivity|].
  simpl. rewrite IH. simpl.
  destruct (keep x) eqn:Kx, (keep y) eqn:Ky; try reflexivity.
  apply Z.leb_gt in E. specialize (Hclass x y Kx Ky). lia.
Qed.

Lemma sort_stable (keep : A -> bool) (l : list A) :
  (forall a b, keep a = true -> keep b = true -> compareFn a b <= 0) ->
  filter keep (sort compareFn l) = filter keep l.
Proof.
  intros Hclass. induction l as [|x l IH]; [reflexivity|].
  simpl sort. rewrite insertSorted_filter by exact Hclass.
  simpl. rewrite IH. reflexivity.
Qed.

Hypothesis compareFn_total : forall a b, 0 < compareFn a b -> compareFn b a <= 0.
Hypothesis compareFn_trans :
  forall a b c, compareFn a b <= 0 -> compareFn b c <= 0 -> compareFn a c <= 0.

Lemma insertSorted_sorted (x : A) (l : list A) :
  StronglySorted (fun a b => compareFn a b <= 0) l ->
  StronglySorted (fun a b => compareFn a b <= 0) (insertSorted compareFn x l).
Proof.
  induction l as [|y l IH]; intros Hs; simpl.
  - constructor; constructor.
  - destruct (compareFn x y <=? 0) eqn:E.
    + apply Z.leb_le in E. constructor; [exact Hs|].
      constructor; [exact E|].
      apply StronglySorted_inv in Hs. destruct Hs as [_ Hall].
      eapply Forall_impl; [|exact Hall].
      intros z Hz. eapply compareFn_trans; eassumption.
    + apply Z.leb_gt in E. apply StronglySorted_inv in Hs. destruct Hs as [Hs Hall].
      constructor; [apply IH, Hs|].
      rewrite Forall_forall. intros z Hz.
      apply (Permutation_in _ (insertSorted_perm x l)) in Hz.
      destruct Hz as [<-|Hz].
      * apply compareFn_total. lia.
      * rewrite Forall_forall in Hall. apply Hall, Hz.
Qed.

Lemma sort_sorted (l : list A) :
  StronglySorted (fun a b => compareFn a b <= 0) (sort compareFn l).
Proof.
  induction l as [|x l IH]; simpl.
  - constructor.
  - apply insertSorted_sorted, IH.
Qed.

(** An array sorted with and without one of its elements: the other
    elements come out in the same order. *)
Lemma insertSorted_split (x : A) (l : list A) :
  exists p q, insertSorted compareFn x l = p ++ x :: q /\ l = p ++ q.
Proof.
  induction l as [|y l IH]; cbn [insertSorted].
  - exists [], []. split; reflexivity.
  - destruct (compareFn x y <=? 0).
    + exists [], (y :: l). split; reflexivity.
    + destruct IH as [p [q [H1 H2]]]. exists (y :: p), q.
      rewrite H1, H2 at 1. split; reflexivity.
Qed.

Lemma insertSorted_around (y x : A) (p q : list A) :
  StronglySorted (fun a b => compareFn a b <= 0) (p ++ x :: q) ->
  exists p' q',
    insertSorted compareFn y (p ++ x :: q) = p' ++ x :: q'
    /\ insertSorted compareFn y (p ++ q) = p' ++ q'.
Proof.
  induction p as [|z p IH]; intros Hs.
  - cbn [app insertSorted]. destruct (compareFn y x <=? 0) eqn:E.
    + exists [y], q. split; [reflexivity|].
      destruct q as [|w q]; [reflexivity|]. cbn [insertSorted app].
      apply Z.leb_le in E. apply StronglySorted_inv in Hs. destruct Hs as [_ Hall].
      apply Forall_inv in Hall.
      rewrite (proj2 (Z.leb_le _ _) (compareFn_trans y x w E Hall)). reflexivity.
    + exists [], (insertSorted compareFn y q). split; reflexivity.
  - cbn [app insertSorted]. destruct (compareFn y z <=? 0).
    + exists (y :: z :: p), q. split; reflexivity.
    + apply StronglySorted_inv in Hs. destruct Hs as [Hs _].
      destruct (IH Hs) as [p' [q' [H1 H2]]].
      exists (z :: p'), q'. rewrite H1, H2. split; reflexivity.
Qed.

Lemma sort_without (x : A) (l1 l2 : list A) :
  exists p q,
    sort compareFn (l1 ++ x :: l2) = p ++ x :: q /\ sort compareFn (l1 ++ l2) = p ++ q.
Proof.
  induction l1 as [|y l1 IH].
  - cbn [app sort]. apply insertSorted_split.
  - cbn [app sort]. destruct IH as [p [q [H1 H2]]]. rewrite H1, H2.
    apply insertSorted_around. rewrite <- H1. apply sort_sorted.
Qed.
End SortFacts.

(** The order of strings by their code units. *)
Lemma string_compare_trans (a : string) :
  forall b c,
    String.compare a b <> Gt -> String.compare b c <> Gt -> String.compare a c <> Gt.
Proof.
  induction a as [|x a IH]; intros [|y b] [|z c]; simpl; try congruence.
  unfold Ascii.compare.
  destruct (N.compare_spec (N_of_ascii x) (N_of_ascii y)) as [Hxy|Hxy|Hxy];
    destruct (N.compare_spec (N_of_ascii y) (N_of_ascii z)) as [Hyz|Hyz|Hyz];
    destruct (N.compare_spec (N_of_ascii x) (N_of_ascii z)) as [Hxz|Hxz|Hxz];
    try congruence; try lia.
  apply IH.
Qed.

Lemma string_compare_refl (a : string) : String.compare a a = Eq.
Proof.
  induction a as [|x a IH]; simpl; [reflexivity|].
  unfold Ascii.compare. rewrite N.compare_refl. exact IH.
Qed.

Lemma StronglySorted_weaken {A : Type} (R S : A -> A -> Prop) (l : list A) :
  (forall a b, R a b -> S a b) -> StronglySorted R l -> StronglySorted S l.
Proof.
  intros HRS. induction 1 as [|x l Hs IH Hall]; constructor.
  - exact IH.
  - eapply Forall_impl; [|exact Hall]. intros b. apply HRS.
Qed.

Lemma StronglySorted_remove {A : Type} (R : A -> A -> Prop) (p q : list A) (x : A) :
  StronglySorted R (p ++ x :: q) -> StronglySorted R (p ++ q).
Proof.
  induction p as [|y p IH]; simpl; intros Hs.
  - apply StronglySorted_inv in Hs. apply Hs.
  - apply StronglySorted_inv in Hs. destruct Hs as [Hs Hall].
    constructor; [apply IH, Hs|].
    rewrite Forall_forall in *. intros z Hz. apply Hall.
    apply in_app_or in Hz. apply in_or_app. destruct Hz; [left|right; right]; assumption.
Qed.

Lemma StronglySorted_before {A : Type} (R : A -> A -> Prop) (p q : list A) (x : A) :
  StronglySorted R (p ++ x :: q) -> Forall (fun y => R y x) p.
Proof.
  induction p as [|y p IH]; simpl; intros Hs; [constructor|].
  apply StronglySorted_inv in Hs. destruct Hs as [Hs Hall].
  constructor; [|apply IH, Hs].
  rewrite Forall_forall in Hall. apply Hall. apply in_or_app. right. left. reflexivity.
Qed.

Lemma byStart_sorted (l : list Interval) :
  StronglySorted startsNoLater (sort byStart l).
Proof.
  eapply StronglySorted_weaken; [|apply (sort_sorted byStart)].
  - unfold byStart, startsNoLater. intros a b H. lia.
  - unfold byStart. intros a b H. lia.
  - unfold byStart. intros a b c H1 H2. lia.
Qed.

(* ================================================================= *)
(** ** The merge loop                                                 *)
(* ================================================================= *)

(** The loop with its [merged] array is the fold of the specification. *)
Lemma mergeLoop_specFold (g : Q) (rest : list Interval) :
  forall merged curS curE,
    mergeLoop g merged curS curE rest = merged ++ specFold g (curS, curE) rest.
Proof.
  induction rest as [|[s e] rest IH]; intros merged curS curE; simpl.
  - reflexivity.
  - destruct (gapExceeds s curE g).
    + rewrite IH, <- app_assoc. reflexivity.
    + rewrite IH. replace (if curE <? e then e else curE) with (Z.max curE e).
      * reflexivity.
      * destruct (Z.ltb_spec curE e); lia.
Qed.

Lemma mergeSessions_specRun (l : list Interval) (g : Q) :
  mergeSessions l g = specRun g (sort byStart l).
Proof.
  unfold mergeSessions, specRun. destruct l as [|x l]; [reflexivity|].
  destruct (sort byStart (x :: l)) as [|[curS curE] rest]; [reflexivity|].
  apply mergeLoop_specFold.
Qed.

(** Exchanging neighbours of equal start does not change the fold. *)
Lemma specFold_tieSwap (g : Q) (l l' : list Interval) :
  (0 <= g)%Q -> tieSwap l l' ->
  forall current, specFold g current l = specFold g current l'.
Proof.
  intros Hg H. induction H as [l|a b l Hab Ha Hb|x l l' H IH|l1 l2 l3 H1 IH1 H2 IH2];
    intros current.
  - reflexivity.
  - destruct a as [sa ea], b as [sb eb]. unfold wellFormed in Ha, Hb.
    simpl in Hab, Ha, Hb. subst sb. simpl.
    destruct (gapExceeds sa (snd current) g) eqn:Ea; simpl.
    + rewrite (gapExceeds_within sa ea g Hg Ha), (gapExceeds_within sa eb g Hg Hb).
      rewrite (Z.max_comm ea eb). reflexivity.
    + assert (Hstay : forall e, gapExceeds sa (Z.max (snd current) e) g = false).
      { intros e. destruct (gapExceeds sa (Z.max (snd current) e) g) eqn:E; [|reflexivity].
        rewrite <- Ea. symmetry. eapply gapExceeds_mono; [|exact E]. lia. }
      rewrite !Hstay.
      replace (Z.max (Z.max (snd current) ea) eb)
        with (Z.max (Z.max (snd current) eb) ea) by lia.
      reflexivity.
  - simpl. destruct (gapExceeds (fst x) (snd current) g); rewrite IH; reflexivity.
  - rewrite IH1. apply IH2.
Qed.

Lemma specRun_tieSwap (g : Q) (l l' : list Interval) :
  (0 <= g)%Q -> tieSwap l l' -> specRun g l = specRun g l'.
Proof.
  intros Hg H. induction H as [l|a b l Hab Ha Hb|x l l' H IH|l1 l2 l3 H1 IH1 H2 IH2].
  - reflexivity.
  - destruct a as [sa ea], b as [sb eb]. unfold wellFormed in Ha, Hb.
    simpl in Hab, Ha, Hb. subst sb. simpl.
    rewrite (gapExceeds_within sa ea g Hg Ha), (gapExceeds_within sa eb g Hg Hb).
    rewrite (Z.max_comm ea eb). reflexivity.
  - simpl. apply specFold_tieSwap; assumption.
  - congruence.
Qed.

(** An interval can be moved in front of neighbours that start when it
    does. *)
Lemma tieSwap_bubble (x : Interval) (p q : list Interval) :
  wellFormed x -> Forall (fun y => fst x = fst y /\ wellFormed y) p ->
  tieSwap (x :: p ++ q) (p ++ x :: q).
Proof.
  intros Hx. induction 1 as [|y p [Hxy Hy] Hp IH]; simpl.
  - apply tieSwap_refl.
  - eapply tieSwap_trans.
    + apply tieSwap_swap; eassumption.
    + apply tieSwap_skip, IH.
Qed.

(** Two orderings by start of the same well-formed intervals differ by
    exchanges of ties only. *)
Lemma sorted_perm_tieSwap (l1 : list Interval) :
  forall l2,
    Forall wellFormed l1 -> Permutation l1 l2 ->
    StronglySorted startsNoLater l1 -> StronglySorted startsNoLater l2 ->
    tieSwap l1 l2.
Proof.
  induction l1 as [|x r1 IH]; intros l2 Hwf Hperm Hs1 Hs2.
  - apply Permutation_nil in Hperm. subst. apply tieSwap_refl.
  - assert (Hin : In x l2) by (eapply Permutation_in; [exact Hperm|left; reflexivity]).
    apply in_split in Hin. destruct Hin as [p [q ->]].
    apply Forall_cons_iff in Hwf. destruct Hwf as [Hx Hwf].
    apply StronglySorted_inv in Hs1. destruct Hs1 as [Hs1 Hmin].
    assert (Hrest : Permutation r1 (p ++ q)) by (eapply Permutation_cons_app_inv; exact Hperm).
    eapply tieSwap_trans.
    + apply tieSwap_skip. apply IH; [exact Hwf|exact Hrest|exact Hs1|].
      eapply StronglySorted_remove; exact Hs2.
    + apply tieSwap_bubble; [exact Hx|].
      pose proof (StronglySorted_before _ _ _ _ Hs2) as Hbefore.
      rewrite Forall_forall in *. intros y Hy.
      assert (Hy1 : In y r1).
      { eapply Permutation_in; [apply Permutation_sym; exact Hrest|].
        apply in_or_app. left. exact Hy. }
      specialize (Hbefore y Hy). specialize (Hmin y Hy1). specialize (Hwf y Hy1).
      unfold startsNoLater in *. split; [lia|exact Hwf].
Qed.

(** The fold gives one result on every ordering by start of the same
    well-formed intervals. *)
Lemma specRun_sorted_perm (g : Q) (l1 l2 : list Interval) :
  (0 <= g)%Q -> Forall wellFormed l1 -> Permutation l1 l2 ->
  StronglySorted startsNoLater l1 -> StronglySorted startsNoLater l2 ->
  specRun g l1 = specRun g l2.
Proof.
  intros Hg Hwf Hperm Hs1 Hs2.
  apply specRun_tieSwap; [exact Hg|].
  apply sorted_perm_tieSwap; assumption.
Qed.

Lemma Forall_perm_wellFormed (l1 l2 : list Interval) :
  Permutation l1 l2 -> Forall wellFormed l1 -> Forall wellFormed l2.
Proof.
  intros Hperm H. rewrite Forall_forall in *. intros x Hx. apply H.
  eapply Permutation_in; [apply Permutation_sym; exact Hperm|exact Hx].
Qed.

(** What the fold emits, on intervals ordered by start that start no
    earlier than the current session. *)
Lemma specFold_shape (g : Q) (rest : list Interval) :
  (0 <= g)%Q ->
  forall current,
    Forall (startsNoLater current) rest -> StronglySorted startsNoLater rest ->
    (exists e tl, specFold g current rest = (fst current, e) :: tl)
    /\ Forall (startsNoLater current) (specFold g current rest)
    /\ StronglySorted startsNoLater (specFold g current rest)
    /\ StronglySorted endsBefore (specFold g current rest)
    /\ Sorted (apart g) (specFold g current rest).
Proof.
  intros Hg. induction rest as [|i rest IH]; intros current Hmin Hs.
  - simpl. split; [exists (snd current), []; destruct current; reflexivity|].
    split; [constructor; [unfold startsNoLater; lia|constructor]|].
    repeat split; repeat constructor.
  - apply Forall_cons_iff in Hmin. destruct Hmin as [Hi Hmin].
    apply StronglySorted_inv in Hs. destruct Hs as [Hs Hafter].
    simpl. destruct (gapExceeds (fst i) (snd current) g) eqn:E.
    + destruct (IH i Hafter Hs) as [[e [tl Heq]] [Hall [Hst [Hen Hap]]]].
      assert (Hfrom : Forall (startsNoLater current) (specFold g i rest)).
      { eapply Forall_impl; [|exact Hall]. unfold startsNoLater in *. intros x Hx. lia. }
      split; [exists (snd current), (specFold g i rest); destruct current; reflexivity|].
      split; [constructor; [unfold startsNoLater; lia|exact Hfrom]|].
      split; [constructor; assumption|].
      split.
      * constructor; [exact Hen|].
        apply gapExceeds_after in E; [|exact Hg].
        eapply Forall_impl; [|exact Hall]. unfold startsNoLater, endsBefore. intros x Hx. lia.
      * constructor; [exact Hap|]. rewrite Heq. constructor.
        unfold apart. simpl. apply gapExceeds_true. exact E.
    + apply (IH (fst current, Z.max (snd current) (snd i))).
      * eapply Forall_impl; [|exact Hmin]. unfold startsNoLater. simpl. intros x Hx. exact Hx.
      * exact Hs.
Qed.

Lemma specRun_shape (g : Q) (sorted : list Interval) :
  (0 <= g)%Q -> StronglySorted startsNoLater sorted ->
  StronglySorted startsNoLater (specRun g sorted)
  /\ StronglySorted endsBefore (specRun g sorted)
  /\ Sorted (apart g) (specRun g sorted).
Proof.
  intros Hg Hs. destruct sorted as [|first rest]; simpl.
  - repeat split; constructor.
  - apply StronglySorted_inv in Hs. destruct Hs as [Hs Hmin].
    apply (specFold_shape g rest Hg first Hmin Hs).
Qed.

Lemma endsBefore_disjoint (a b : Interval) : endsBefore a b -> disjoint a b.
Proof. unfold endsBefore, disjoint. intros H t. lia. Qed.

Lemma StronglySorted_pairs {A : Type} (R S : A -> A -> Prop) (l : list A) :
  (forall a b, R a b -> S a b) -> StronglySorted R l -> ForallOrdPairs S l.
Proof.
  intros HRS. induction 1 as [|x l Hs IH Hall]; constructor.
  - eapply Forall_impl; [|exact Hall]. intros b. apply HRS.
  - exact IH.
Qed.

(** The fold never comes back empty-handed. *)
Lemma specFold_nonempty (g : Q) (rest : list Interval) :
  forall current, specFold g current rest <> [].
Proof.
  induction rest as [|i rest IH]; intros current; simpl.
  - discriminate.
  - destruct (gapExceeds (fst i) (snd current) g); [discriminate|apply IH].
Qed.

Lemma mergeSessions_nonempty (l : list Interval) (g : Q) :
  l <> [] -> mergeSessions l g <> [].
Proof.
  intros Hl. rewrite mergeSessions_specRun. unfold specRun.
  destruct (sort byStart l) as [|first rest] eqn:E.
  - exfalso. apply Hl. apply Permutation_nil. rewrite <- E.
    apply sort_perm.
  - apply specFold_nonempty.
Qed.

(* ================================================================= *)
(** ** Clamping                                                       *)
(* ================================================================= *)

Lemma clampIntervalToDay_some (interval clamped : Interval) (dayStr : Z) :
  clampIntervalToDay interval dayStr = Some clamped ->
  clamped = (Z.max (fst interval) (dayStartOf dayStr), Z.min (snd interval) (dayEndOf dayStr))
  /\ wellFormed clamped.
Proof.
  destruct interval as [start end_]. unfold clampIntervalToDay, wellFormed. simpl.
  destruct (Z.ltb_spec (Z.min end_ (dayEndOf dayStr)) (Z.max start (dayStartOf dayStr)));
    [discriminate|].
  intros Heq. injection Heq as <-. simpl. split; [reflexivity|assumption].
Qed.

(** An interval that ends before it starts is dropped, whatever the day. *)
Lemma clampIntervalToDay_reversed (start end_ dayStr : Z) :
  end_ < start -> clampIntervalToDay (start, end_) dayStr = None.
Proof.
  intros H. unfold clampIntervalToDay.
  destruct (Z.ltb_spec (Z.min end_ (dayEndOf dayStr)) (Z.max start (dayStartOf dayStr)));
    [reflexivity|lia].
Qed.

(* ================================================================= *)
(** ** Properties of the session merger                               *)
(* ================================================================= *)

(** C3.  For every list of intervals and every [gapMinutes > 0], the
    sessions returned by [mergeSessions] are sorted by start ascending and
    pairwise disjoint (every session ends before every later one starts, so
    no instant lies in two of them), and the merge is maximal: each session
    starts more than [gapMinutes] minutes after the session before it
    ends. *)
Theorem mergeSessions_sorted_disjoint_maximal (intervals : list Interval) (gapMinutes : Q) :
  (0 < gapMinutes)%Q ->
  StronglySorted startsNoLater (mergeSessions intervals gapMinutes)
  /\ StronglySorted endsBefore (mergeSessions intervals gapMinutes)
  /\ ForallOrdPairs disjoint (mergeSessions intervals gapMinutes)
  /\ Sorted (apart gapMinutes) (mergeSessions intervals gapMinutes).
Proof.
  intros Hg. rewrite mergeSessions_specRun.
  destruct (specRun_shape gapMinutes (sort byStart intervals)) as [Hst [Hen Hap]].
  - apply Qlt_le_weak. exact Hg.
  - apply byStart_sorted.
  - split; [exact Hst|]. split; [exact Hen|]. split; [|exact Hap].
    eapply StronglySorted_pairs; [|exact Hen]. apply endsBefore_disjoint.
Qed.

Lemma mergeSessions_sorted_disjoint_maximal_witness :
  StronglySorted startsNoLater (mergeSessions morningIntervals 30)
  /\ StronglySorted endsBefore (mergeSessions morningIntervals 30)
  /\ ForallOrdPairs disjoint (mergeSessions morningIntervals 30)
  /\ Sorted (apart 30) (mergeSessions morningIntervals 30).
Proof.
  apply (mergeSessions_sorted_disjoint_maximal morningIntervals 30).
  reflexivity.
Defined.

(** The first scenario of the specification: 09:00, 09:15, 09:40 and 12:35
    with a tolerance of 30 minutes give the sessions 09:00-09:40 and
    12:35-12:35. *)
Example mergeSessions_morning :
  map sessionView (mergeSessions morningIntervals 30)
  = [ {| in_time := "2025-08-01 09:00:00"; out_time := "2025-08-01 09:40:00" |};
      {| in_time := "2025-08-01 12:35:00"; out_time := "2025-08-01 12:35:00" |} ].
Proof. vm_compute. reflexivity. Qed.

(** Their total, 40 minutes, prints as "0.67" hours. *)
Example mergeSessions_morning_hours :
  hoursOf (totalMinutesOf (mergeSessions morningIntervals 30)) = 67.
Proof. vm_compute. reflexivity. Qed.

(** The sort of the reference merger yields the sorted list of the
    statement below, so that there is one for every input. *)
Lemma specSorted_sort (intervals : list Interval) :
  specSorted intervals (sort byStartThenEnd intervals).
Proof.
  split; [apply Permutation_sym, sort_perm|].
  eapply StronglySorted_weaken; [|apply sort_sorted].
  - unfold byStartThenEnd, startThenEndNoLater. intros a b.
    destruct (Z.eqb_spec (fst a) (fst b)); lia.
  - unfold byStartThenEnd. intros a b.
    destruct (Z.eqb_spec (fst a) (fst b)), (Z.eqb_spec (fst b) (fst a)); lia.
  - unfold byStartThenEnd. intros a b c.
    destruct (Z.eqb_spec (fst a) (fst b)), (Z.eqb_spec (fst b) (fst c)),
      (Z.eqb_spec (fst a) (fst c)); lia.
Qed.





(** C9, as the code has it.  On intervals with [start <= end] and a
    tolerance that is not negative, [mergeSessions] does not depend on the
    order of its input: a list and any permutation of it give the same
    sessions, also when several intervals share a start and differ in their
    ends. *)
Theorem mergeSessions_permutation (intervals permuted : list Interval) (gapMinutes : Q) :
  (0 <= gapMinutes)%Q -> Forall wellFormed intervals ->
  Permutation intervals permuted ->
  mergeSessions intervals gapMinutes = mergeSessions permuted gapMinutes.
Proof.
  intros Hg Hwf Hperm. rewrite !mergeSessions_specRun.
  apply specRun_sorted_perm.
  - exact Hg.
  - eapply Forall_perm_wellFormed; [apply Permutation_sym, sort_perm|exact Hwf].
  - eapply perm_trans; [apply sort_perm|].
    eapply perm_trans; [exact Hperm|apply Permutation_sym, sort_perm].
  - apply byStart_sorted.
  - apply byStart_sorted.
Qed.

Lemma mergeSessions_permutation_witness :
  mergeSessions tiedLongFirst 30 = mergeSessions tiedShortFirst 30.
Proof.
  apply (mergeSessions_permutation tiedLongFirst tiedShortFirst 30).
  - discriminate.
  - repeat constructor; unfold wellFormed; simpl; discriminate.
  - apply perm_swap.
Defined.

(** Against the claim as it stands, for any tolerance: with
    [gapMinutes = -5] the two orders of the tie at 08:00 give one session
    and two.  The daily report shows it: a device first seen twice at 08:00,
    last seen at 08:10 and not seen again, has one session or two according
    to the order in which the table holds the two rows, which the
    [ORDER BY Name, FirstSeen] of the query does not tell apart.  (The last
    line is why the intervals must not end before they start: with one that
    does, the order shows at a tolerance of zero.) *)
Lemma mergeSessions_order_shows :
  Permutation tiedFromEight tiedFromEightSorted
  /\ Forall wellFormed tiedFromEight
  /\ mergeSessions tiedFromEight (-5) = [(at_ 20301 8 0, at_ 20301 8 10)]
  /\ mergeSessions tiedFromEightSorted (-5)
     = [(at_ 20301 8 0, at_ 20301 8 0); (at_ 20301 8 0, at_ 20301 8 10)]
  /\ mergeSessions tiedFromEight (-5) <> mergeSessions tiedFromEightSorted (-5)
  /\ Permutation kioskLongFirst kioskPointFirst
  /\ map Daily.sessions (Daily.employees (getDailyReport kioskLongFirst 20301 (-5)))
     = [ [ {| in_time := "2025-08-01 08:00:00"; out_time := "2025-08-01 08:10:00" |} ] ]
  /\ map Daily.sessions (Daily.employees (getDailyReport kioskPointFirst 20301 (-5)))
     = [ [ {| in_time := "2025-08-01 08:00:00"; out_time := "2025-08-01 08:00:00" |};
           {| in_time := "2025-08-01 08:00:00"; out_time := "2025-08-01 08:10:00" |} ] ]
  /\ mergeSessions [(100, 200); (100, 0)] 0 <> mergeSessions [(100, 0); (100, 200)] 0.
Proof.
  split; [apply perm_swap|].
  split; [repeat constructor; unfold wellFormed; simpl; discriminate|].
  split; [vm_compute; reflexivity|]. split; [vm_compute; reflexivity|].
  split; [vm_compute; discriminate|]. split; [apply perm_swap|].
  split; [vm_compute; reflexivity|]. split; [vm_compute; reflexivity|].
  vm_compute. discriminate.
Qed.

(** The hypothesis on the intervals is the invariant of the specification's
    [Interval], and holds of all that the code hands to the merger, the
    results of [clampIntervalToDay].  An interval that ends before it starts
    would let the order of a tie show even with a tolerance of zero. *)
Example mergeSessions_reversed_interval_order :
  mergeSessions [(100, 200); (100, 0)] 0 = [(100, 200)]
  /\ mergeSessions [(100, 0); (100, 200)] 0 = [(100, 0); (100, 200)].
Proof. split; vm_compute; reflexivity. Qed.

(* ================================================================= *)
(** ** Properties of clamping                                         *)
(* ================================================================= *)

(** C8.  Clamping is idempotent: when clamping an interval to a day gives an
    interval, clamping that interval to the same day gives it back. *)
Theorem clampIntervalToDay_idempotent (interval clamped : Interval) (dayStr : Z) :
  clampIntervalToDay interval dayStr = Some clamped ->
  clampIntervalToDay clamped dayStr = Some clamped.
Proof.
  intros H. apply clampIntervalToDay_some in H. destruct H as [-> Hwf].
  unfold wellFormed in Hwf. cbn [fst snd] in Hwf. unfold clampIntervalToDay.
  destruct (Z.ltb_spec
              (Z.min (Z.min (snd interval) (dayEndOf dayStr)) (dayEndOf dayStr))
              (Z.max (Z.max (fst interval) (dayStartOf dayStr)) (dayStartOf dayStr)))
    as [Hlt|Hge].
  - lia.
  - rewrite Z.max_l by lia. rewrite Z.min_l by lia. reflexivity.
Qed.

Lemma clampIntervalToDay_idempotent_witness :
  clampIntervalToDay (at_ 20300 23 50, dayEndOf 20300) 20300
  = Some (at_ 20300 23 50, dayEndOf 20300).
Proof.
  apply (clampIntervalToDay_idempotent overMidnight _ 20300).
  reflexivity.
Defined.

(** The second scenario of the specification: the interval from
    2025-07-31 23:50 to 2025-08-01 00:10 on each of its two days. *)
Example clampIntervalToDay_over_midnight :
  option_map sessionView (clampIntervalToDay overMidnight 20300)
  = Some {| in_time := "2025-07-31 23:50:00"; out_time := "2025-07-31 23:59:59" |}
  /\ option_map sessionView (clampIntervalToDay overMidnight 20301)
     = Some {| in_time := "2025-08-01 00:00:00"; out_time := "2025-08-01 00:10:00" |}.
Proof. split; vm_compute; reflexivity. Qed.

(* ================================================================= *)
(** ** Rows that end before they start                                *)
(* ================================================================= *)

(** The intervals collected by [getEmployeePresence] do not depend on the
    name it has picked so far. *)
Lemma presenceStep_intervals (target : string) (date : Z) (r : Row)
    (c c' : option string) (intervals : list Interval) :
  snd (presenceStep target date (c, intervals) r)
  = snd (presenceStep target date (c', intervals) r).
Proof.
  unfold presenceStep.
  destruct (negb (includes (toLowerCase (normalizeName (Name r))) target)); [reflexivity|].
  destruct (clampIntervalToDay (rowInterval r) date); reflexivity.
Qed.

Lemma presenceFold_intervals (target : string) (date : Z) (rows : list Row) :
  forall st st', snd st = snd st' ->
    snd (fold_left (presenceStep target date) rows st)
    = snd (fold_left (presenceStep target date) rows st').
Proof.
  induction rows as [|r rows IH]; intros [c iv] [c' iv'] Heq; simpl in Heq; subst iv'.
  - reflexivity.
  - simpl. apply IH. apply presenceStep_intervals.
Qed.

Lemma rowInterval_reversed (r : Row) (last : Date) (date : Z) :
  LastSeen r = Some last -> last < FirstSeen r ->
  clampIntervalToDay (rowInterval r) date = None.
Proof.
  intros Hlast Hlt. unfold rowInterval. rewrite Hlast.
  apply clampIntervalToDay_reversed. exact Hlt.
Qed.

(** The two [ORDER BY] are consistent orders. *)
Lemma orderByFirstSeen_total (a b : Row) :
  0 < orderByFirstSeen a b -> orderByFirstSeen b a <= 0.
Proof. unfold orderByFirstSeen. lia. Qed.

Lemma orderByFirstSeen_trans (a b c : Row) :
  orderByFirstSeen a b <= 0 -> orderByFirstSeen b c <= 0 -> orderByFirstSeen a c <= 0.
Proof. unfold orderByFirstSeen. lia. Qed.

Lemma compareName_eq (a b : option string) : compareName a b = 0 <-> a = b.
Proof.
  destruct a as [x|], b as [y|]; simpl; split; intros H;
    try discriminate; try reflexivity.
  - f_equal. apply String.compare_eq_iff. destruct (String.compare x y); try discriminate.
    reflexivity.
  - injection H as ->. rewrite string_compare_refl. reflexivity.
Qed.

Lemma compareName_antisym (a b : option string) : compareName b a = - compareName a b.
Proof.
  destruct a as [x|], b as [y|]; simpl; try reflexivity.
  rewrite (String.compare_antisym x y). destruct (String.compare y x); reflexivity.
Qed.

Lemma compareName_trans (a b c : option string) :
  compareName a b <= 0 -> compareName b c <= 0 -> compareName a c <= 0.
Proof.
  destruct a as [x|], b as [y|], c as [z|]; simpl; try lia.
  intros H1 H2.
  assert (Hxy : String.compare x y <> Gt) by (destruct (String.compare x y); simpl in H1; [discriminate|discriminate|lia]).
  assert (Hyz : String.compare y z <> Gt) by (destruct (String.compare y z); simpl in H2; [discriminate|discriminate|lia]).
  pose proof (string_compare_trans x y z Hxy Hyz) as Hxz.
  destruct (String.compare x z); simpl; try lia. congruence.
Qed.

Lemma orderByNameFirstSeen_total (a b : Row) :
  0 < orderByNameFirstSeen a b -> orderByNameFirstSeen b a <= 0.
Proof.
  unfold orderByNameFirstSeen. rewrite (compareName_antisym (Name a) (Name b)).
  destruct (Z.eqb_spec (compareName (Name a) (Name b)) 0),
    (Z.eqb_spec (- compareName (Name a) (Name b)) 0); lia.
Qed.

Lemma orderByNameFirstSeen_trans (a b c : Row) :
  orderByNameFirstSeen a b <= 0 -> orderByNameFirstSeen b c <= 0 ->
  orderByNameFirstSeen a c <= 0.
Proof.
  unfold orderByNameFirstSeen.
  destruct (Z.eqb_spec (compareName (Name a) (Name b)) 0) as [Eab|Nab].
  - apply compareName_eq in Eab. rewrite Eab.
    destruct (Z.eqb_spec (compareName (Name b) (Name c)) 0); lia.
  - destruct (Z.eqb_spec (compareName (Name b) (Name c)) 0) as [Ebc|Nbc].
    + apply compareName_eq in Ebc. rewrite <- Ebc.
      destruct (Z.eqb_spec (compareName (Name a) (Name b)) 0); lia.
    + intros Hab Hbc.
      pose proof (compareName_trans _ _ _ Hab Hbc) as Hac.
      destruct (Z.eqb_spec (compareName (Name a) (Name c)) 0) as [Eac|Nac]; [|exact Hac].
      apply compareName_eq in Eac. rewrite Eac in Hab, Nab.
      rewrite (compareName_antisym (Name b) (Name c)) in Hab, Nab. lia.
Qed.

(** The rows of a query on a table with and without one row: the same
    rows in the same order, but for that row. *)
Lemma select_without (compareFn : Row -> Row -> Z) (date : Z) (r : Row)
    (before after : list Row) :
  (forall a b, 0 < compareFn a b -> compareFn b a <= 0) ->
  (forall a b c, compareFn a b <= 0 -> compareFn b c <= 0 -> compareFn a c <= 0) ->
  sort compareFn (filter (onDate date) (before ++ r :: after))
  = sort compareFn (filter (onDate date) (before ++ after))
  \/ exists p q,
       sort compareFn (filter (onDate date) (before ++ r :: after)) = p ++ r :: q
       /\ sort compareFn (filter (onDate date) (before ++ after)) = p ++ q.
Proof.
  intros Htotal Htrans. rewrite !filter_app. cbn [filter].
  destruct (onDate date r); [right|left; reflexivity].
  apply sort_without; assumption.
Qed.

(** A row that does not survive clamping leaves the groups of the daily
    report as they are. *)
Lemma groupByName_dropped (r : Row) (date : Z) (p q : list Row) :
  clampIntervalToDay (rowInterval r) date = None ->
  groupByName (p ++ r :: q) date = groupByName (p ++ q) date.
Proof.
  intros Hnone. unfold groupByName. rewrite !fold_left_app. simpl. f_equal.
  unfold reportStep. rewrite Hnone.
  destruct (includes (toLowerCase (normalizeName (Name r))) "unknown"
            || includes (toLowerCase (normalizeName (Name r))) "anonymous"); reflexivity.
Qed.

(** Such a row leaves the intervals of [getEmployeePresence] as they are;
    it leaves the picked name as it is too when it does not match the
    query. *)
Lemma presenceFold_dropped (target : string) (r : Row) (date : Z) (p q : list Row) :
  clampIntervalToDay (rowInterval r) date = None ->
  snd (fold_left (presenceStep target date) (p ++ r :: q) (None, []))
  = snd (fold_left (presenceStep target date) (p ++ q) (None, []))
  /\ (includes (toLowerCase (normalizeName (Name r))) target = false ->
      fold_left (presenceStep target date) (p ++ r :: q) (None, [])
      = fold_left (presenceStep target date) (p ++ q) (None, [])).
Proof.
  intros Hnone. rewrite !fold_left_app. cbn [fold_left]. split.
  - apply presenceFold_intervals.
    destruct (fold_left (presenceStep target date) p (None, [])) as [c iv].
    unfold presenceStep. rewrite Hnone.
    destruct (negb (includes (toLowerCase (normalizeName (Name r))) target)); reflexivity.
  - intros Hno. f_equal.
    destruct (fold_left (presenceStep target date) p (None, [])) as [c iv].
    unfold presenceStep. rewrite Hno. reflexivity.
Qed.

(** The reply of [getEmployeePresence] is made of the intervals collected,
    but for the name. *)
Lemma presenceReply_sameButEmployee (employeeName : string) (date : Z) (g : Q)
    (state state' : option string * list Interval) :
  snd state = snd state' ->
  sameButEmployee
    (let '(canonicalName, intervals) := state in
     match intervals with
     | [] => NoLogsFound employeeName date
     | _ :: _ =>
         let merged := mergeSessions intervals g in
         let sessions := map sessionView merged in
         let totalMinutes := totalMinutesOf merged in
         PresenceFound
           {| Presence.employee := canonicalName;
              Presence.date := date;
              Presence.sessions := sessions;
              Presence.total_hours := hoursOf totalMinutes;
              Presence.first_in := firstInTime sessions;
              Presence.last_out := lastOutTime sessions |}
     end)
    (let '(canonicalName, intervals) := state' in
     match intervals with
     | [] => NoLogsFound employeeName date
     | _ :: _ =>
         let merged := mergeSessions intervals g in
         let sessions := map sessionView merged in
         let totalMinutes := totalMinutesOf merged in
         PresenceFound
           {| Presence.employee := canonicalName;
              Presence.date := date;
              Presence.sessions := sessions;
              Presence.total_hours := hoursOf totalMinutes;
              Presence.first_in := firstInTime sessions;
              Presence.last_out := lastOutTime sessions |}
     end).
Proof.
  destruct state as [c ivs], state' as [c' ivs']. cbn [snd]. intros <-.
  destruct ivs as [|iv ivs]; cbn [sameButEmployee].
  - split; reflexivity.
  - cbv zeta. cbn [Presence.date Presence.sessions Presence.total_hours
                   Presence.first_in Presence.last_out].
    repeat split.
Qed.

(** C2, as the code has it.  A row whose [LastSeen] precedes its [FirstSeen]
    is dropped by [clampIntervalToDay], whatever the day, so reconstruction
    discards its interval and does not fail.  With the row in the table or
    without it, the daily report is the same, and [getEmployeePresence]
    replies the same sentence or the same date, sessions, hours, first entry
    and last exit.  The [employee] that [getEmployeePresence] names is picked
    before the clamp, so the row can still give its name to the reply; when
    the row does not match the query, the two replies are the same
    throughout. *)
Theorem reversed_row_is_discarded (r : Row) (last : Date) (date : Z)
    (before after : list Row) (employeeName : string) (gapMinutes : Q) :
  LastSeen r = Some last -> last < FirstSeen r ->
  clampIntervalToDay (rowInterval r) date = None
  /\ getDailyReport (before ++ r :: after) date gapMinutes
     = getDailyReport (before ++ after) date gapMinutes
  /\ sameButEmployee
       (getEmployeePresence (before ++ r :: after) employeeName date gapMinutes)
       (getEmployeePresence (before ++ after) employeeName date gapMinutes)
  /\ (includes (toLowerCase (normalizeName (Name r))) (toLowerCase employeeName) = false ->
      getEmployeePresence (before ++ r :: after) employeeName date gapMinutes
      = getEmployeePresence (before ++ after) employeeName date gapMinutes).
Proof.
  intros Hlast Hlt.
  pose proof (rowInterval_reversed r last date Hlast Hlt) as Hnone.
  split; [exact Hnone|]. split; [|split].
  - unfold getDailyReport, dailyEntries, selectReportRows.
    destruct (select_without orderByNameFirstSeen date r before after
                orderByNameFirstSeen_total orderByNameFirstSeen_trans)
      as [->|[p [q [-> ->]]]]; [reflexivity|].
    rewrite (groupByName_dropped r date p q Hnone). reflexivity.
  - unfold getEmployeePresence, selectPresenceRows.
    apply presenceReply_sameButEmployee.
    destruct (select_without orderByFirstSeen date r before after
                orderByFirstSeen_total orderByFirstSeen_trans)
      as [->|[p [q [-> ->]]]]; [reflexivity|].
    apply (presenceFold_dropped (toLowerCase employeeName) r date p q Hnone).
  - intros Hno. unfold getEmployeePresence, selectPresenceRows.
    destruct (select_without orderByFirstSeen date r before after
                orderByFirstSeen_total orderByFirstSeen_trans)
      as [->|[p [q [-> ->]]]]; [reflexivity|].
    rewrite (proj2 (presenceFold_dropped (toLowerCase employeeName) r date p q Hnone) Hno).
    reflexivity.
Qed.

Lemma reversed_row_is_discarded_witness :
  clampIntervalToDay (rowInterval annLeeReversed) 20301 = None
  /\ getDailyReport ([] ++ annLeeReversed :: [annRow]) 20301 30
     = getDailyReport ([] ++ [annRow]) 20301 30
  /\ sameButEmployee
       (getEmployeePresence ([] ++ annLeeReversed :: [annRow]) "ann" 20301 30)
       (getEmployeePresence ([] ++ [annRow]) "ann" 20301 30)
  /\ (includes (toLowerCase (normalizeName (Name annLeeReversed))) (toLowerCase "ann") = false ->
      getEmployeePresence ([] ++ annLeeReversed :: [annRow]) "ann" 20301 30
      = getEmployeePresence ([] ++ [annRow]) "ann" 20301 30).
Proof.
  apply (reversed_row_is_discarded annLeeReversed (at_ 20301 6 0) 20301 [] [annRow] "ann" 30).
  - reflexivity.
  - reflexivity.
Defined.

(** The name that the reversed row still gives: asked for ann, the table
    with the reversed row of Ann Lee at 07:00 before Ann's row at 08:00
    names Ann Lee as the employee of Ann's session; without that row the
    employee is Ann.  Nothing else differs. *)
Example reversed_row_names_employee :
  getEmployeePresence [annLeeReversed; annRow] "ann" 20301 30
  = PresenceFound
      {| Presence.employee := Some "Ann Lee"%string;
         Presence.date := 20301;
         Presence.sessions :=
           [ {| in_time := "2025-08-01 08:00:00"; out_time := "2025-08-01 09:00:00" |} ];
         Presence.total_hours := 100;
         Presence.first_in := Some "2025-08-01 08:00:00"%string;
         Presence.last_out := Some "2025-08-01 09:00:00"%string |}
  /\ getEmployeePresence [annRow] "ann" 20301 30
     = PresenceFound
         {| Presence.employee := Some "Ann"%string;
            Presence.date := 20301;
            Presence.sessions :=
              [ {| in_time := "2025-08-01 08:00:00"; out_time := "2025-08-01 09:00:00" |} ];
            Presence.total_hours := 100;
            Presence.first_in := Some "2025-08-01 08:00:00"%string;
            Presence.last_out := Some "2025-08-01 09:00:00"%string |}.
Proof. split; vm_compute; reflexivity. Qed.

(** Against the specification, at a concrete table: Bea's only row on
    2025-08-01 runs from 09:00 back to 08:00.  A single-point interval at 09:00
    survives clamping and would be a session; the row as it is read is
    dropped, Bea has no logs on the day and is absent from the daily report. *)
Lemma reversed_row_not_kept_as_point :
  clampIntervalToDay (at_ 20301 9 0, at_ 20301 9 0) 20301
  = Some (at_ 20301 9 0, at_ 20301 9 0)
  /\ getEmployeePresence [mkRow (Some "Bea"%string) (at_ 20301 9 0) None] "Bea" 20301 30
     <> NoLogsFound "Bea" 20301
  /\ getEmployeePresence officeLogs "Bea" 20301 30 = NoLogsFound "Bea" 20301
  /\ ~ In "Bea"%string
       (map Daily.name (Daily.employees (getDailyReport officeLogs 20301 30))).
Proof.
  split; [vm_compute; reflexivity|].
  split; [vm_compute; discriminate|].
  split; [vm_compute; reflexivity|].
  vm_compute. intuition discriminate.
Qed.

(* ================================================================= *)
(** ** No qualifying events, and reversed ranges                      *)
(* ================================================================= *)





Lemma daysOfRange_reversed (startDate endDate : Z) :
  endDate < startDate -> daysOfRange startDate endDate = [].
Proof.
  intros H. unfold daysOfRange.
  replace (Z.to_nat (endDate - startDate + 1)) with 0%nat by lia. reflexivity.
Qed.

(** C1, as the code has it.  A call of [presenceAnalytics] with
    [startDate > endDate] does not fail: the loop over the days visits no
    day, and the reply is a result whose list of employees is empty. *)
Theorem presenceAnalytics_reversed_range (logs : list Row) (startDate endDate : Z)
    (gapMinutes : option Q) :
  endDate < startDate ->
  callTool logs (CallPresenceAnalytics startDate endDate gapMinutes)
  = AnalyticsText {| Range.startDate := startDate;
                     Range.endDate := endDate;
                     Range.employees := [] |}.
Proof.
  intros H. unfold callTool, presenceAnalytics, dayReports.
  rewrite (daysOfRange_reversed _ _ H). reflexivity.
Qed.

Lemma presenceAnalytics_reversed_range_witness :
  callTool officeLogs (CallPresenceAnalytics 20305 20301 None)
  = AnalyticsText {| Range.startDate := 20305;
                     Range.endDate := 20301;
                     Range.employees := [] |}.
Proof.
  apply (presenceAnalytics_reversed_range officeLogs 20305 20301 None).
  reflexivity.
Defined.

(** The fourth scenario of the specification: from 2025-08-05 back to
    2025-08-01.  The reply is a result, not an error. *)
Lemma reversed_range_returns_a_result :
  (exists payload,
      callTool officeLogs (CallPresenceAnalytics 20305 20301 None) = AnalyticsText payload)
  /\ forall message,
      callTool officeLogs (CallPresenceAnalytics 20305 20301 None) <> ErrorText message.
Proof.
  split.
  - eexists. vm_compute. reflexivity.
  - intros message H. vm_compute in H. discriminate.
Qed.

(* ================================================================= *)
(** ** Stamps and their order                                         *)
(* ================================================================= *)

Lemma toLocalISOString_nonempty (d : Date) : toLocalISOString d <> EmptyString.
Proof.
  unfold toLocalISOString.
  destruct (stringOfZ (getFullYear d)); simpl; discriminate.
Qed.

Lemma orNull_stamp (d : Date) :
  orNull (Some (toLocalISOString d)) = Some (toLocalISOString d).
Proof.
  pose proof (toLocalISOString_nonempty d) as H.
  destruct (toLocalISOString d); [contradiction|reflexivity].
Qed.

Lemma localeCompare_total (a b : string) :
  0 < localeCompare a b -> localeCompare b a <= 0.
Proof.
  unfold localeCompare. rewrite (String.compare_antisym a b).
  destruct (String.compare b a); simpl; lia.
Qed.

Lemma localeCompare_le (a b : string) :
  localeCompare a b <= 0 <-> String.compare a b <> Gt.
Proof.
  unfold localeCompare. destruct (String.compare a b); simpl; split; intros H;
    try lia; try discriminate; congruence.
Qed.

Lemma localeCompare_trans (a b c : string) :
  localeCompare a b <= 0 -> localeCompare b c <= 0 -> localeCompare a c <= 0.
Proof.
  rewrite !localeCompare_le. apply string_compare_trans.
Qed.

(* ================================================================= *)
(** ** The groups of the daily report                                 *)
(* ================================================================= *)

Lemma mapPush_nonempty {V : Type} (k : string) (v : V) (m : list (string * list V)) :
  Forall (fun entry => snd entry <> []) m ->
  Forall (fun entry => snd entry <> []) (mapPush k v m).
Proof.
  induction 1 as [|[k' vs] m Hvs Hm IH]; simpl.
  - constructor; [discriminate|constructor].
  - destruct (String.eqb k k'); constructor; try assumption.
    simpl. destruct vs; discriminate.
Qed.

(** An identity is entered into the map when one of its rows survives
    clamping, and only then: no group is empty. *)
Lemma groupByName_nonempty (rows : list Row) (date : Z) :
  Forall (fun entry => snd entry <> []) (groupByName rows date).
Proof.
  unfold groupByName.
  assert (Hgen : forall m, Forall (fun entry : string * list Interval => snd entry <> []) m ->
            Forall (fun entry => snd entry <> []) (fold_left (reportStep date) rows m)).
  { induction rows as [|r rows IH]; intros m Hm; simpl; [exact Hm|].
    apply IH. unfold reportStep.
    destruct (includes (toLowerCase (normalizeName (Name r))) "unknown"
              || includes (toLowerCase (normalizeName (Name r))) "anonymous"); [exact Hm|].
    destruct (clampIntervalToDay (rowInterval r) date); [|exact Hm].
    apply mapPush_nonempty, Hm. }
  apply Hgen. constructor.
Qed.

Lemma firstInTime_sessions (merged : list Interval) :
  merged <> [] ->
  exists d, orNull (firstInTime (map sessionView merged)) = Some (toLocalISOString d).
Proof.
  destruct merged as [|[s e] rest]; [congruence|]. intros _.
  exists s. unfold firstInTime. simpl. apply orNull_stamp.
Qed.

Lemma lastOutTime_sessions (merged : list Interval) :
  merged <> [] ->
  exists d, orNull (lastOutTime (map sessionView merged)) = Some (toLocalISOString d).
Proof.
  intros Hne. destruct (exists_last Hne) as [front [[s e] ->]].
  exists e. unfold lastOutTime. rewrite map_app, rev_app_distr. simpl.
  apply orNull_stamp.
Qed.

Lemma employeeOf_present (g : Q) (entry : string * list Interval) :
  snd entry <> [] ->
  Daily.sessions (employeeOf g entry) <> []
  /\ (exists d, Daily.first_in (employeeOf g entry) = Some (toLocalISOString d))
  /\ (exists d, Daily.last_out (employeeOf g entry) = Some (toLocalISOString d)).
Proof.
  destruct entry as [name ivals]. simpl. intros Hne.
  pose proof (mergeSessions_nonempty ivals g Hne) as Hm.
  split; [|split].
  - intros H. apply map_eq_nil in H. contradiction.
  - apply firstInTime_sessions, Hm.
  - apply lastOutTime_sessions, Hm.
Qed.

Lemma dailyEntries_present (logs : list Row) (date : Z) (g : Q) (e : Daily.Employee) :
  In e (dailyEntries logs date g) ->
  Daily.sessions e <> []
  /\ (exists d, Daily.first_in e = Some (toLocalISOString d))
  /\ (exists d, Daily.last_out e = Some (toLocalISOString d)).
Proof.
  unfold dailyEntries. intros Hin. apply in_map_iff in Hin.
  destruct Hin as [entry [<- Hentry]].
  apply employeeOf_present.
  pose proof (groupByName_nonempty (selectReportRows logs date) date) as Hall.
  rewrite Forall_forall in Hall. apply Hall, Hentry.
Qed.

(** C10.  Every entry of the daily report has at least one session, and its
    [first_in] and [last_out] are not [null]: an identity enters the report
    only through a row that survived clamping to the day. *)
Theorem getDailyReport_entries_present (logs : list Row) (date : Z) (gapMinutes : Q)
    (e : Daily.Employee) :
  In e (Daily.employees (getDailyReport logs date gapMinutes)) ->
  Daily.sessions e <> [] /\ Daily.first_in e <> None /\ Daily.last_out e <> None.
Proof.
  simpl. intros Hin. apply sort_In in Hin.
  destruct (dailyEntries_present logs date gapMinutes e Hin) as [Hs [[d1 H1] [d2 H2]]].
  split; [exact Hs|]. rewrite H1, H2. split; discriminate.
Qed.

Lemma getDailyReport_entries_present_witness :
  Daily.sessions (employeeOf 30 ("Zed"%string, [(at_ 20301 7 0, at_ 20301 7 30)])) <> []
  /\ Daily.first_in (employeeOf 30 ("Zed"%string, [(at_ 20301 7 0, at_ 20301 7 30)])) <> None
  /\ Daily.last_out (employeeOf 30 ("Zed"%string, [(at_ 20301 7 0, at_ 20301 7 30)])) <> None.
Proof.
  apply (getDailyReport_entries_present officeLogs 20301 30).
  vm_compute. left. reflexivity.
Defined.

(* ================================================================= *)
(** ** The order of the daily report                                  *)
(* ================================================================= *)

Lemma mapPush_keys {V : Type} (k : string) (v : V) (m : list (string * list V)) :
  map fst (mapPush k v m)
  = if existsb (String.eqb k) (map fst m) then map fst m else map fst m ++ [k].
Proof.
  induction m as [|[k' vs] m IH]; simpl; [reflexivity|].
  destruct (String.eqb k k'); simpl; [reflexivity|].
  rewrite IH. destruct (existsb (String.eqb k) (map fst m)); reflexivity.
Qed.

Lemma filter_unknown_only (known : list string) (k : string) (l : list string) :
  existsb (String.eqb k) known = true ->
  filter (fun x => negb (existsb (String.eqb x) known))
         (filter (fun x => negb (String.eqb x k)) l)
  = filter (fun x => negb (existsb (String.eqb x) known)) l.
Proof.
  intros Hk. induction l as [|x l IH]; simpl; [reflexivity|].
  destruct (String.eqb_spec x k) as [->|Hne]; simpl.
  - rewrite Hk. simpl. exact IH.
  - rewrite IH. reflexivity.
Qed.

Lemma filter_unknown_more (known : list string) (k : string) (l : list string) :
  filter (fun x => negb (existsb (String.eqb x) (known ++ [k]))) l
  = filter (fun x => negb (existsb (String.eqb x) known))
           (filter (fun x => negb (String.eqb x k)) l).
Proof.
  induction l as [|x l IH]; simpl; [reflexivity|].
  rewrite existsb_app. simpl. rewrite orb_false_r.
  destruct (String.eqb x k); simpl.
  - rewrite orb_true_r. simpl. exact IH.
  - rewrite orb_false_r. rewrite IH. reflexivity.
Qed.

Lemma keysAfter_firstOccurrences (keys : list string) :
  forall known,
    keysAfter known keys
    = known ++ filter (fun x => negb (existsb (String.eqb x) known)) (firstOccurrences keys).
Proof.
  unfold keysAfter. induction keys as [|k keys IH]; intros known; simpl.
  - rewrite app_nil_r. reflexivity.
  - destruct (existsb (String.eqb k) known) eqn:E; simpl.
    + rewrite IH. rewrite filter_unknown_only by exact E. reflexivity.
    + rewrite IH, <- app_assoc. simpl. rewrite filter_unknown_more. reflexivity.
Qed.

Lemma keysAfter_empty (keys : list string) : keysAfter [] keys = firstOccurrences keys.
Proof.
  rewrite keysAfter_firstOccurrences. simpl.
  induction (firstOccurrences keys) as [|x l IH]; simpl; [reflexivity|].
  rewrite IH. reflexivity.
Qed.

Lemma reportStep_keys (date : Z) (byName : list (string * list Interval)) (r : Row) :
  map fst (reportStep date byName r)
  = if entersReport date r
    then keysAfter (map fst byName) [normalizeName (Name r)]
    else map fst byName.
Proof.
  unfold reportStep, entersReport.
  destruct (includes (toLowerCase (normalizeName (Name r))) "unknown"
            || includes (toLowerCase (normalizeName (Name r))) "anonymous");
    cbn [negb andb]; [reflexivity|].
  destruct (clampIntervalToDay (rowInterval r) date); [|reflexivity].
  apply mapPush_keys.
Qed.

Lemma groupByName_keys (date : Z) (rows : list Row) :
  forall byName,
    map fst (fold_left (reportStep date) rows byName)
    = keysAfter (map fst byName)
        (map (fun r => normalizeName (Name r)) (filter (entersReport date) rows)).
Proof.
  induction rows as [|r rows IH]; intros byName; cbn [fold_left filter].
  - reflexivity.
  - rewrite IH, reportStep_keys.
    destruct (entersReport date r); reflexivity.
Qed.

(** Before the sort, the entries stand in the order in which their
    identities are first met among the rows of the query. *)
Lemma dailyEntries_names (logs : list Row) (date : Z) (g : Q) :
  map Daily.name (dailyEntries logs date g) = firstOccurrences (identitiesMet logs date).
Proof.
  unfold dailyEntries, identitiesMet, groupByName. rewrite map_map.
  rewrite <- keysAfter_empty.
  change (@nil string) with (map fst (@nil (string * list Interval))).
  rewrite <- groupByName_keys.
  apply map_ext. intros [name ivals]. reflexivity.
Qed.

Lemma byFirstIn_tie (key : option string) (a b : Daily.Employee) :
  withFirstIn key a = true -> withFirstIn key b = true -> byFirstIn a b <= 0.
Proof.
  unfold withFirstIn, byFirstIn. intros Ha Hb.
  apply String.eqb_eq in Ha. apply String.eqb_eq in Hb. rewrite Ha, Hb.
  unfold localeCompare. rewrite string_compare_refl. simpl. lia.
Qed.

(** C5, as the code has it.  The daily report is sorted by [first_in]
    ascending; none of its entries is without sessions, so no entry needs a
    place among the others for that; and entries with the same [first_in]
    stay in the order of [dailyEntries], which is the order in which their
    identities are first met among the rows of the query (ordered by label,
    then [FirstSeen]), with no second sort by name. *)
Theorem getDailyReport_sorted_stable (logs : list Row) (date : Z) (gapMinutes : Q) :
  StronglySorted firstInNoLater (Daily.employees (getDailyReport logs date gapMinutes))
  /\ Forall (fun e => Daily.first_in e <> None)
            (Daily.employees (getDailyReport logs date gapMinutes))
  /\ (forall key,
       filter (withFirstIn key) (Daily.employees (getDailyReport logs date gapMinutes))
       = filter (withFirstIn key) (dailyEntries logs date gapMinutes))
  /\ map Daily.name (dailyEntries logs date gapMinutes)
     = firstOccurrences (identitiesMet logs date).
Proof.
  simpl. split; [|split; [|split; [|apply dailyEntries_names]]].
  - apply (sort_sorted byFirstIn).
    + intros a b. apply localeCompare_total.
    + intros a b c. apply localeCompare_trans.
  - rewrite Forall_forall. intros e He. apply sort_In in He.
    destruct (dailyEntries_present logs date gapMinutes e He) as [_ [[d Hd] _]].
    rewrite Hd. discriminate.
  - intros key. apply sort_stable. apply byFirstIn_tie.
Qed.

(** Against the specification, at a concrete table: on 2025-08-01 a device
    without a label and the labels "Ann Lee" and "Ann(b)" are all first seen
    at 08:00.  The query orders the rows by label, [NULL] first and "Ann Lee"
    before "Ann(b)"; the identities are "Unregistered Device", "Ann Lee" and
    "Ann", and the report keeps them in that order, against the order of their
    names. *)
Lemma report_ties_not_by_name :
  map (fun e => (Daily.name e, Daily.first_in e))
      (Daily.employees (getDailyReport officeLogs 20301 30))
  = [ ("Zed"%string, Some "2025-08-01 07:00:00"%string);
      ("Unregistered Device"%string, Some "2025-08-01 08:00:00"%string);
      ("Ann Lee"%string, Some "2025-08-01 08:00:00"%string);
      ("Ann"%string, Some "2025-08-01 08:00:00"%string) ]
  /\ inSpecReportOrder (Daily.employees (getDailyReport officeLogs 20301 30)) = false.
Proof. split; vm_compute; reflexivity. Qed.

(* ================================================================= *)
(** ** The order of the range summaries                               *)
(* ================================================================= *)

Lemma collectDay_keys (day : Z * list Daily.Employee) :
  forall byName,
    map fst (collectDay byName day) = keysAfter (map fst byName) (map Daily.name (snd day)).
Proof.
  unfold collectDay, keysAfter. induction (snd day) as [|e es IH]; intros byName; simpl.
  - reflexivity.
  - rewrite IH, mapPush_keys. reflexivity.
Qed.

Lemma collectDays_keys (days : list (Z * list Daily.Employee)) :
  forall byName,
    map fst (fold_left collectDay days byName)
    = keysAfter (map fst byName) (List.concat (map (fun day => map Daily.name (snd day)) days)).
Proof.
  induction days as [|day days IH]; intros byName; simpl.
  - reflexivity.
  - rewrite IH, collectDay_keys. unfold keysAfter. rewrite fold_left_app. reflexivity.
Qed.

(** C6, as the code has it.  The summaries of [presenceAnalytics] come one
    per identity, in the order in which the identities first occur when the
    daily reports of the range are read day after day, each in its own
    order; they are not sorted by name. *)
Theorem presenceAnalytics_first_occurrence_order (logs : list Row)
    (startDate endDate : Z) (gapMinutes : Q) :
  map Range.name (Range.employees (presenceAnalytics logs startDate endDate gapMinutes))
  = firstOccurrences
      (List.concat (map (fun dayStr =>
                      map Daily.name (Daily.employees (getDailyReport logs dayStr gapMinutes)))
                   (daysOfRange startDate endDate))).
Proof.
  unfold presenceAnalytics, collectDays. cbn [Range.employees].
  rewrite map_map.
  replace (map (fun entry => Range.name (summaryOf entry))
               (fold_left collectDay (dayReports logs startDate endDate gapMinutes) []))
    with (map fst (fold_left collectDay (dayReports logs startDate endDate gapMinutes)
                     (@nil (string * list RangeDay.Entry)))).
  - rewrite collectDays_keys. simpl map at 1. rewrite keysAfter_empty.
    unfold dayReports. rewrite map_map. reflexivity.
  - apply map_ext. intros [name entries]. reflexivity.
Qed.

(** Against the specification, at a concrete table: over
    2025-08-01..2025-08-02 Zed is met first (07:00 on the first day) and Amy
    last (on the second day). *)
Lemma range_summaries_not_by_name :
  map Range.name (Range.employees (presenceAnalytics officeLogs 20301 20302 30))
  = [ "Zed"%string; "Unregistered Device"%string; "Ann Lee"%string; "Ann"%string;
      "Amy"%string ]
  /\ namesAscending
       (map Range.name (Range.employees (presenceAnalytics officeLogs 20301 20302 30)))
     = false.
Proof. split; vm_compute; reflexivity. Qed.

(** The third scenario of the specification: over 2025-07-01..2025-07-03
    identity "A" is present on the second day only, for two hours. *)
Example presenceAnalytics_july :
  Range.employees (presenceAnalytics julyLogs 20270 20272 30)
  = [ {| Range.name := "A";
         Range.days_present := 1;
         Range.total_hours := 200;
         Range.days :=
           [ {| RangeDay.date := 20271;
                RangeDay.first_in := Some "2025-07-02 10:00:00"%string;
                RangeDay.last_out := Some "2025-07-02 12:00:00"%string;
                RangeDay.total_hours := 200 |} ] |} ].
Proof. vm_compute. reflexivity. Qed.

(* ================================================================= *)
(** ** More on clamping                                               *)
(* ================================================================= *)

(** X1.  What [clampIntervalToDay] returns is the part of the interval that
    falls on the day, all of it and no more: an instant lies in the result
    exactly when it lies in the interval and between 00:00:00 and 23:59:59 of
    the day.  The result starts at the later of the two starts, ends at the
    earlier of the two ends, and does not end before it starts. *)
Theorem clampIntervalToDay_within (interval clamped : Interval) (dayStr : Z) :
  clampIntervalToDay interval dayStr = Some clamped ->
  (forall t : Z,
      fst clamped <= t <= snd clamped
      <-> fst interval <= t <= snd interval /\ dayStartOf dayStr <= t <= dayEndOf dayStr)
  /\ fst clamped = Z.max (fst interval) (dayStartOf dayStr)
  /\ snd clamped = Z.min (snd interval) (dayEndOf dayStr)
  /\ fst clamped <= snd clamped.
Proof.
  intros H. apply clampIntervalToDay_some in H. destruct H as [-> Hwf].
  unfold wellFormed in Hwf. cbn [fst snd] in *.
  split; [|split; [reflexivity|split; [reflexivity|exact Hwf]]].
  intros t. unfold Date in *. lia.
Qed.

Lemma clampIntervalToDay_within_witness :
  (forall t : Z,
      fst (dayStartOf 20301, at_ 20301 0 10) <= t <= snd (dayStartOf 20301, at_ 20301 0 10)
      <-> fst overMidnight <= t <= snd overMidnight
          /\ dayStartOf 20301 <= t <= dayEndOf 20301)
  /\ fst (dayStartOf 20301, at_ 20301 0 10) = Z.max (fst overMidnight) (dayStartOf 20301)
  /\ snd (dayStartOf 20301, at_ 20301 0 10) = Z.min (snd overMidnight) (dayEndOf 20301)
  /\ fst (dayStartOf 20301, at_ 20301 0 10) <= snd (dayStartOf 20301, at_ 20301 0 10).
Proof.
  apply (clampIntervalToDay_within overMidnight _ 20301).
  reflexivity.
Defined.

(** X2.  [clampIntervalToDay] returns [null] exactly when the interval has
    no instant on the day: it ends before it starts, it ends before the day
    begins, or it starts after 23:59:59 of the day. *)
Theorem clampIntervalToDay_none_iff (start end_ dayStr : Z) :
  clampIntervalToDay (start, end_) dayStr = None
  <-> end_ < start \/ end_ < dayStartOf dayStr \/ dayEndOf dayStr < start.
Proof.
  unfold clampIntervalToDay.
  assert (Hday : dayStartOf dayStr <= dayEndOf dayStr)
    by (unfold dayStartOf, dayEndOf; lia).
  destruct (Z.ltb_spec (Z.min end_ (dayEndOf dayStr)) (Z.max start (dayStartOf dayStr)));
    split; intros H'; try discriminate; try reflexivity; lia.
Qed.

(* ================================================================= *)
(** ** More on the session merger                                     *)
(* ================================================================= *)

Lemma specFold_head (g : Q) (rest : list Interval) :
  forall current, exists e tl,
    specFold g current rest = (fst current, e) :: tl /\ snd current <= e.
Proof.
  induction rest as [|i rest IH]; intros current; simpl.
  - exists (snd current), []. destruct current; simpl. split; [reflexivity|lia].
  - destruct (gapExceeds (fst i) (snd current) g).
    + exists (snd current), (specFold g i rest). destruct current; simpl.
      split; [reflexivity|lia].
    + destruct (IH (fst current, Z.max (snd current) (snd i))) as [e [tl [Heq Hle]]].
      exists e, tl. cbn [fst snd] in *. split; [exact Heq|lia].
Qed.

(** Every interval handed to the fold lies inside one of the sessions it
    emits. *)
Lemma specFold_covers (g : Q) (rest : list Interval) :
  forall current,
    Forall (startsNoLater current) rest -> StronglySorted startsNoLater rest ->
    forall iv, In iv (current :: rest) ->
      exists session, In session (specFold g current rest)
                      /\ fst session <= fst iv /\ snd iv <= snd session.
Proof.
  induction rest as [|i rest IH]; intros current Hmin Hs iv Hin.
  - destruct Hin as [<-|[]]. exists current. simpl. split; [left; reflexivity|lia].
  - apply Forall_cons_iff in Hmin. destruct Hmin as [Hi Hmin].
    apply StronglySorted_inv in Hs. destruct Hs as [Hs Hafter].
    assert (Hown : exists session, In session (specFold g current (i :: rest))
                     /\ fst session <= fst current /\ snd current <= snd session).
    { destruct (specFold_head g (i :: rest) current) as [e [tl [Heq Hle]]].
      exists (fst current, e). rewrite Heq. simpl. split; [left; reflexivity|lia]. }
    destruct Hin as [<-|Hin]; [exact Hown|].
    simpl. destruct (gapExceeds (fst i) (snd current) g).
    + destruct (IH i Hafter Hs iv Hin) as [session [Hsess Hc]].
      exists session. split; [right; exact Hsess|exact Hc].
    + assert (Hmin' : Forall (startsNoLater (fst current, Z.max (snd current) (snd i))) rest).
      { eapply Forall_impl; [|exact Hmin]. unfold startsNoLater. simpl. intros x Hx. exact Hx. }
      destruct Hin as [<-|Hin].
      * destruct (IH _ Hmin' Hs (fst current, Z.max (snd current) (snd i)))
          as [session [Hsess Hc]]; [left; reflexivity|].
        exists session. split; [exact Hsess|].
        unfold startsNoLater in Hi. cbn [fst snd] in Hc. lia.
      * apply (IH _ Hmin' Hs iv). right. exact Hin.
Qed.

(** The bounds of the emitted sessions are bounds of the intervals. *)
Lemma specFold_bounds (g : Q) (rest : list Interval) :
  forall current session, In session (specFold g current rest) ->
    (exists iv, In iv (current :: rest) /\ fst session = fst iv)
    /\ (exists iv, In iv (current :: rest) /\ snd session = snd iv).
Proof.
  induction rest as [|i rest IH]; intros current session Hin.
  - destruct Hin as [<-|[]]. split; exists current; split; try (left; reflexivity); reflexivity.
  - simpl in Hin. destruct (gapExceeds (fst i) (snd current) g).
    + destruct Hin as [<-|Hin].
      * split; exists current; split; try (left; reflexivity); reflexivity.
      * destruct (IH i session Hin) as [[a [Ha Hfa]] [b [Hb Hsb]]].
        split; [exists a|exists b]; (split; [right; assumption|assumption]).
    + destruct (IH _ session Hin) as [[a [Ha Hfa]] [b [Hb Hsb]]]. split.
      * destruct Ha as [<-|Ha].
        -- exists current. split; [left; reflexivity|exact Hfa].
        -- exists a. split; [right; right; exact Ha|exact Hfa].
      * destruct Hb as [<-|Hb].
        -- cbn [snd] in Hsb.
           destruct (Z.max_spec (snd current) (snd i)) as [[_ Hm]|[_ Hm]]; rewrite Hm in Hsb.
           ++ exists i. split; [right; left; reflexivity|exact Hsb].
           ++ exists current. split; [left; reflexivity|exact Hsb].
        -- exists b. split; [right; right; exact Hb|exact Hsb].
Qed.

Lemma specFold_wellFormed (g : Q) (rest : list Interval) :
  forall current, wellFormed current -> Forall wellFormed rest ->
    Forall wellFormed (specFold g current rest).
Proof.
  induction rest as [|i rest IH]; intros current Hc Hrest; simpl.
  - constructor; [exact Hc|constructor].
  - apply Forall_cons_iff in Hrest. destruct Hrest as [Hi Hrest].
    destruct (gapExceeds (fst i) (snd current) g).
    + constructor; [exact Hc|]. apply IH; assumption.
    + apply IH; [|exact Hrest]. unfold wellFormed in *. simpl. lia.
Qed.

Lemma mergeSessions_wellFormed (l : list Interval) (g : Q) :
  Forall wellFormed l -> Forall wellFormed (mergeSessions l g).
Proof.
  intros Hwf. rewrite mergeSessions_specRun. unfold specRun.
  assert (Hs : Forall wellFormed (sort byStart l))
    by (eapply Forall_perm_wellFormed; [apply Permutation_sym, sort_perm|exact Hwf]).
  destruct (sort byStart l) as [|first rest]; [constructor|].
  apply Forall_cons_iff in Hs. destruct Hs as [Hf Hr].
  apply specFold_wellFormed; assumption.
Qed.

(** X3.  No presence is lost in the merge: every interval given to
    [mergeSessions] lies inside one of the sessions it returns. *)
Theorem mergeSessions_covers (intervals : list Interval) (gapMinutes : Q) (iv : Interval) :
  In iv intervals ->
  exists session, In session (mergeSessions intervals gapMinutes)
                  /\ fst session <= fst iv /\ snd iv <= snd session.
Proof.
  intros Hin. rewrite mergeSessions_specRun. unfold specRun.
  apply (sort_In byStart) in Hin.
  pose proof (byStart_sorted intervals) as Hs.
  destruct (sort byStart intervals) as [|first rest]; [contradiction|].
  apply StronglySorted_inv in Hs. destruct Hs as [Hs Hmin].
  apply specFold_covers; assumption.
Qed.

Lemma mergeSessions_covers_witness :
  exists session, In session (mergeSessions morningIntervals 30)
                  /\ fst session <= fst (at_ 20301 9 15, at_ 20301 9 15)
                  /\ snd (at_ 20301 9 15, at_ 20301 9 15) <= snd session.
Proof.
  apply (mergeSessions_covers morningIntervals 30 (at_ 20301 9 15, at_ 20301 9 15)).
  simpl. right. right. right. left. reflexivity.
Defined.

(** X4.  No time is invented in the merge: every session returned by
    [mergeSessions] starts where one of the given intervals starts and ends
    where one of them ends. *)
Theorem mergeSessions_bounds (intervals : list Interval) (gapMinutes : Q)
    (session : Interval) :
  In session (mergeSessions intervals gapMinutes) ->
  (exists iv, In iv intervals /\ fst session = fst iv)
  /\ (exists iv, In iv intervals /\ snd session = snd iv).
Proof.
  rewrite mergeSessions_specRun. unfold specRun. intros Hin.
  destruct (sort byStart intervals) as [|first rest] eqn:E; [contradiction|].
  destruct (specFold_bounds gapMinutes rest first session Hin) as [[a [Ha Hfa]] [b [Hb Hsb]]].
  rewrite <- E in Ha, Hb. apply sort_In in Ha. apply sort_In in Hb.
  split; [exists a|exists b]; split; assumption.
Qed.

Lemma mergeSessions_bounds_witness :
  (exists iv, In iv morningIntervals /\ fst (at_ 20301 9 0, at_ 20301 9 40) = fst iv)
  /\ (exists iv, In iv morningIntervals /\ snd (at_ 20301 9 0, at_ 20301 9 40) = snd iv).
Proof.
  apply (mergeSessions_bounds morningIntervals 30 (at_ 20301 9 0, at_ 20301 9 40)).
  vm_compute. left. reflexivity.
Defined.

Lemma sort_sorted_same {A : Type} (compareFn : A -> A -> Z) (l : list A) :
  StronglySorted (fun a b => compareFn a b <= 0) l -> sort compareFn l = l.
Proof.
  induction 1 as [|x l Hs IH Hall]; simpl; [reflexivity|].
  rewrite IH. destruct l as [|y l]; simpl; [reflexivity|].
  apply Forall_inv in Hall. apply Z.leb_le in Hall. rewrite Hall. reflexivity.
Qed.

(** The starts of the emitted sessions ascend and neighbours are apart,
    whatever the tolerance. *)
Lemma specFold_starts_apart (g : Q) (rest : list Interval) :
  forall current,
    Forall (startsNoLater current) rest -> StronglySorted startsNoLater rest ->
    Forall (startsNoLater current) (specFold g current rest)
    /\ StronglySorted startsNoLater (specFold g current rest)
    /\ Sorted (apart g) (specFold g current rest).
Proof.
  induction rest as [|i rest IH]; intros current Hmin Hs.
  - simpl. split; [constructor; [unfold startsNoLater; lia|constructor]|].
    split; repeat constructor.
  - apply Forall_cons_iff in Hmin. destruct Hmin as [Hi Hmin].
    apply StronglySorted_inv in Hs. destruct Hs as [Hs Hafter].
    simpl. destruct (gapExceeds (fst i) (snd current) g) eqn:E.
    + destruct (IH i Hafter Hs) as [Hall [Hst Hap]].
      assert (Hfrom : Forall (startsNoLater current) (specFold g i rest)).
      { eapply Forall_impl; [|exact Hall]. unfold startsNoLater in *. intros x Hx. lia. }
      split; [constructor; [unfold startsNoLater; lia|exact Hfrom]|].
      split; [constructor; assumption|].
      constructor; [exact Hap|].
      destruct (specFold_head g rest i) as [e [tl [Heq _]]]. rewrite Heq. constructor.
      unfold apart. simpl. apply gapExceeds_true. exact E.
    + apply (IH (fst current, Z.max (snd current) (snd i))).
      * eapply Forall_impl; [|exact Hmin]. unfold startsNoLater. simpl. intros x Hx. exact Hx.
      * exact Hs.
Qed.

(** Sessions that are already apart go through the fold untouched. *)
Lemma specFold_apart_same (g : Q) (rest : list Interval) :
  forall current, Sorted (apart g) (current :: rest) ->
    specFold g current rest = current :: rest.
Proof.
  induction rest as [|i rest IH]; intros current Hs; simpl; [reflexivity|].
  apply Sorted_inv in Hs. destruct Hs as [Hs Hhd]. apply HdRel_inv in Hhd.
  unfold apart in Hhd. apply gapExceeds_true in Hhd. rewrite Hhd.
  rewrite IH by exact Hs. reflexivity.
Qed.

(** X5.  Merging is idempotent: merging the sessions that [mergeSessions]
    returned, with the same tolerance, returns them unchanged. *)
Theorem mergeSessions_idempotent (intervals : list Interval) (gapMinutes : Q) :
  mergeSessions (mergeSessions intervals gapMinutes) gapMinutes
  = mergeSessions intervals gapMinutes.
Proof.
  rewrite (mergeSessions_specRun (mergeSessions intervals gapMinutes)).
  assert (Hshape : StronglySorted startsNoLater (mergeSessions intervals gapMinutes)
                   /\ Sorted (apart gapMinutes) (mergeSessions intervals gapMinutes)).
  { rewrite mergeSessions_specRun. unfold specRun.
    pose proof (byStart_sorted intervals) as Hs.
    destruct (sort byStart intervals) as [|first rest]; [split; constructor|].
    apply StronglySorted_inv in Hs. destruct Hs as [Hs Hmin].
    destruct (specFold_starts_apart gapMinutes rest first Hmin Hs) as [_ H]. exact H. }
  destruct Hshape as [Hst Hap].
  rewrite sort_sorted_same.
  - unfold specRun. destruct (mergeSessions intervals gapMinutes) as [|first rest];
      [reflexivity|]. apply specFold_apart_same. exact Hap.
  - eapply StronglySorted_weaken; [|exact Hst].
    unfold startsNoLater, byStart. intros a b H. lia.
Qed.

Lemma specFold_length (g : Q) (rest : list Interval) :
  forall current, (List.length (specFold g current rest) <= S (List.length rest))%nat.
Proof.
  induction rest as [|i rest IH]; intros current; simpl; [lia|].
  destruct (gapExceeds (fst i) (snd current) g).
  - simpl. specialize (IH i). lia.
  - specialize (IH (fst current, Z.max (snd current) (snd i))). lia.
Qed.

(** X6.  [mergeSessions] returns at most as many sessions as it was given
    intervals, and at least one as soon as it was given one. *)
Theorem mergeSessions_count (intervals : list Interval) (gapMinutes : Q) :
  (List.length (mergeSessions intervals gapMinutes) <= List.length intervals)%nat
  /\ (mergeSessions intervals gapMinutes = [] <-> intervals = []).
Proof.
  split.
  - rewrite mergeSessions_specRun. unfold specRun.
    rewrite <- (Permutation_length (sort_perm byStart intervals)).
    destruct (sort byStart intervals) as [|first rest]; simpl; [lia|].
    apply specFold_length.
  - split.
    + intros H. destruct intervals as [|x l]; [reflexivity|].
      exfalso. revert H. apply mergeSessions_nonempty. discriminate.
    + intros ->. reflexivity.
Qed.

Lemma gapExceeds_tolerance (s c s' c' : Date) (g g' : Q) :
  (g <= g')%Q -> s' - c' <= s - c ->
  gapExceeds s' c' g' = true -> gapExceeds s c g = true.
Proof.
  intros Hg Hle H. apply gapExceeds_true in H. apply gapExceeds_true.
  eapply Qle_lt_trans; [exact Hg|].
  eapply Qlt_le_trans; [exact H|]. apply gapBetween_le. exact Hle.
Qed.

(** A wider tolerance and a later current end cannot make the fold emit
    more sessions. *)
Lemma specFold_tolerance (g g' : Q) (rest : list Interval) :
  (g <= g')%Q ->
  forall current current' : Interval, snd current <= snd current' ->
    (List.length (specFold g' current' rest) <= List.length (specFold g current rest))%nat.
Proof.
  intros Hg. induction rest as [|i rest IH]; intros current current' Hle; simpl; [lia|].
  destruct (gapExceeds (fst i) (snd current') g') eqn:E'.
  - assert (E : gapExceeds (fst i) (snd current) g = true)
      by (apply (gapExceeds_tolerance _ _ (fst i) (snd current') g g' Hg); [lia|exact E']).
    rewrite E. simpl. specialize (IH i i). lia.
  - destruct (gapExceeds (fst i) (snd current) g).
    + simpl. specialize (IH i (fst current', Z.max (snd current') (snd i))).
      cbn [snd] in IH. lia.
    + apply IH. cbn [snd]. lia.
Qed.

(** X7.  Raising the tolerance never splits presence into more sessions:
    with [gapMinutes <= wider], [mergeSessions] returns at most as many
    sessions for [wider] as for [gapMinutes]. *)
Theorem mergeSessions_tolerance (intervals : list Interval) (gapMinutes wider : Q) :
  (gapMinutes <= wider)%Q ->
  (List.length (mergeSessions intervals wider)
   <= List.length (mergeSessions intervals gapMinutes))%nat.
Proof.
  intros Hg. rewrite !mergeSessions_specRun. unfold specRun.
  destruct (sort byStart intervals) as [|first rest]; [simpl; lia|].
  apply specFold_tolerance; [exact Hg|lia].
Qed.

Lemma mergeSessions_tolerance_witness :
  (List.length (mergeSessions morningIntervals 240)
   <= List.length (mergeSessions morningIntervals 30))%nat.
Proof.
  apply (mergeSessions_tolerance morningIntervals 30 240).
  discriminate.
Defined.

(* ================================================================= *)
(** ** Normalised names                                               *)
(* ================================================================= *)

Lemma trimStart_idempotent (s : string) : trimStart (trimStart s) = trimStart s.
Proof.
  induction s as [|c s IH]; simpl; [reflexivity|].
  destruct (isSpace c) eqn:E; [exact IH|]. simpl. rewrite E. reflexivity.
Qed.

Lemma trimEnd_idempotent (s : string) : trimEnd (trimEnd s) = trimEnd s.
Proof.
  induction s as [|c s IH]; simpl; [reflexivity|].
  destruct (trimEnd s) as [|x kept] eqn:E.
  - destruct (isSpace c) eqn:Ec; simpl; [reflexivity|]. rewrite Ec. reflexivity.
  - change (trimEnd (String c (String x kept)))
      with (match trimEnd (String x kept) with
            | EmptyString => if isSpace c then EmptyString else String c EmptyString
            | String y k => String c (String y k)
            end).
    rewrite IH. reflexivity.
Qed.

Lemma trimStart_trimEnd (s : string) : trimStart (trimEnd s) = trimEnd (trimStart s).
Proof.
  induction s as [|c s IH]; [reflexivity|].
  cbn [trimStart]. destruct (isSpace c) eqn:Ec.
  - rewrite <- IH. cbn [trimEnd]. rewrite Ec.
    destruct (trimEnd s) as [|x kept]; [reflexivity|].
    cbn [trimStart]. rewrite Ec. reflexivity.
  - cbn [trimEnd]. rewrite Ec.
    destruct (trimEnd s) as [|x kept]; cbn [trimStart]; rewrite Ec; reflexivity.
Qed.

Lemma trim_idempotent (s : string) : trim (trim s) = trim s.
Proof.
  unfold trim. rewrite trimStart_trimEnd, trimStart_idempotent, trimEnd_idempotent.
  reflexivity.
Qed.

(** X8.  A normalised name carries no white space at either end: trimming
    it again changes nothing. *)
Theorem normalizeName_trimmed (name : option string) :
  trim (normalizeName name) = normalizeName name.
Proof.
  destruct name as [[|c n]|]; try reflexivity.
  cbn [normalizeName]. apply trim_idempotent.
Qed.

Lemma matchGroupAt_other (s r : string) (a : ascii) :
  trimStart s = String a r -> Ascii.eqb a "(" = false -> matchGroupAt s = None.
Proof.
  intros Ht Ha. unfold matchGroupAt. rewrite Ht.
  destruct a as [[] [] [] [] [] [] [] []]; try reflexivity; discriminate.
Qed.

Lemma trimStart_hasChar (c : ascii) (s : string) :
  hasChar c s = false -> hasChar c (trimStart s) = false.
Proof.
  induction s as [|x s IH]; simpl; [reflexivity|]. intros H.
  destruct (isSpace x); [|exact H].
  apply orb_false_iff in H. apply IH, H.
Qed.

Lemma matchGroupAt_plain (s : string) : hasChar "(" s = false -> matchGroupAt s = None.
Proof.
  intros H. apply (trimStart_hasChar "(" s) in H.
  destruct (trimStart s) as [|a r] eqn:E.
  - unfold matchGroupAt. rewrite E. reflexivity.
  - simpl in H. apply orb_false_iff in H. eapply matchGroupAt_other; [exact E|apply H].
Qed.

Lemma removeFirstGroup_plain (s : string) :
  hasChar "(" s = false -> removeFirstGroup s = s.
Proof.
  induction s as [|c s IH]; intros H.
  - reflexivity.
  - cbn [removeFirstGroup]. rewrite (matchGroupAt_plain _ H).
    simpl in H. apply orb_false_iff in H. rewrite IH by apply H. reflexivity.
Qed.

(** X9.  A label without an opening parenthesis is only trimmed. *)
Theorem normalizeName_plain (label : string) :
  label <> EmptyString -> hasChar "(" label = false ->
  normalizeName (Some label) = trim label.
Proof.
  intros Hne H. destruct label as [|c n]; [contradiction|].
  cbn [normalizeName]. rewrite removeFirstGroup_plain by exact H. reflexivity.
Qed.

Lemma normalizeName_plain_witness :
  normalizeName (Some "  Ann Lee "%string) = trim "  Ann Lee ".
Proof.
  apply (normalizeName_plain "  Ann Lee ").
  - discriminate.
  - reflexivity.
Defined.

Lemma closeGroup_end (device : string) :
  hasChar ")" device = false -> closeGroup (device ++ ")") = Some EmptyString.
Proof.
  induction device as [|c d IH]; simpl; [reflexivity|]. intros H.
  apply orb_false_iff in H. destruct H as [Hc Hd]. rewrite Hc. apply IH, Hd.
Qed.

Lemma matchGroupAt_space (c : ascii) (s : string) :
  isSpace c = true -> matchGroupAt (String c s) = matchGroupAt s.
Proof. intros H. unfold matchGroupAt. cbn [trimStart]. rewrite H. reflexivity. Qed.

(** In front of [" (device)"], a match starts exactly where only white
    space is left of the name. *)
Lemma matchGroupAt_labelled (name device : string) :
  hasChar "(" name = false -> device <> EmptyString -> hasChar ")" device = false ->
  matchGroupAt (labelled name device)
  = match trimEnd name with EmptyString => Some EmptyString | _ => None end.
Proof.
  intros Hname Hne Hdev. induction name as [|a n IH].
  - destruct device as [|c d]; [contradiction|]. simpl in Hdev.
    apply orb_false_iff in Hdev. destruct Hdev as [Hc Hd].
    unfold labelled, matchGroupAt. simpl. rewrite Hc. apply closeGroup_end, Hd.
  - simpl in Hname. apply orb_false_iff in Hname. destruct Hname as [Ha Hn].
    change (labelled (String a n) device) with (String a (labelled n device)).
    cbn [trimEnd]. destruct (isSpace a) eqn:Ea.
    + rewrite matchGroupAt_space by exact Ea. rewrite (IH Hn).
      destruct (trimEnd n); reflexivity.
    + rewrite (matchGroupAt_other _ (labelled n device) a).
      * destruct (trimEnd n); reflexivity.
      * cbn [trimStart]. rewrite Ea. reflexivity.
      * exact Ha.
Qed.

Lemma removeFirstGroup_labelled (name device : string) :
  hasChar "(" name = false -> device <> EmptyString -> hasChar ")" device = false ->
  removeFirstGroup (labelled name device) = trimEnd name.
Proof.
  intros Hname Hne Hdev. induction name as [|a n IH].
  - pose proof (matchGroupAt_labelled EmptyString device Hname Hne Hdev) as Hm.
    cbn [trimEnd] in Hm.
    destruct (labelled EmptyString device); cbn [removeFirstGroup]; rewrite Hm; reflexivity.
  - pose proof (matchGroupAt_labelled (String a n) device Hname Hne Hdev) as Hm.
    simpl in Hname. apply orb_false_iff in Hname. destruct Hname as [Ha Hn].
    specialize (IH Hn).
    change (labelled (String a n) device) with (String a (labelled n device)) in *.
    cbn [removeFirstGroup]. rewrite Hm. cbn [trimEnd].
    destruct (trimEnd n) as [|x kept] eqn:En.
    + destruct (isSpace a); [reflexivity|]. rewrite IH. reflexivity.
    + rewrite IH. reflexivity.
Qed.

(** X10.  The usual label, a name followed by a device in parentheses,
    normalises to the trimmed name: for a name without an opening
    parenthesis and a non-empty device without a closing one,
    [normalizeName "name (device)"] is [name] trimmed. *)
Theorem normalizeName_labelled (name device : string) :
  hasChar "(" name = false -> device <> EmptyString -> hasChar ")" device = false ->
  normalizeName (Some (labelled name device)) = trim name.
Proof.
  intros Hname Hne Hdev.
  assert (Hlabel : exists c rest, labelled name device = String c rest).
  { unfold labelled. destruct name as [|a n]; simpl; eauto. }
  destruct Hlabel as [c [rest Hlabel]].
  unfold normalizeName. rewrite Hlabel, <- Hlabel.
  rewrite removeFirstGroup_labelled by assumption.
  unfold trim. rewrite trimStart_trimEnd, trimEnd_idempotent. reflexivity.
Qed.

Lemma normalizeName_labelled_witness :
  normalizeName (Some (labelled "John Doe" "iPhone 12")) = trim "John Doe".
Proof.
  apply (normalizeName_labelled "John Doe" "iPhone 12").
  - reflexivity.
  - discriminate.
  - reflexivity.
Defined.

(* ================================================================= *)
(** ** Sessions stay on the day                                       *)
(* ================================================================= *)

Lemma clampIntervalToDay_onDay (interval clamped : Interval) (date : Z) :
  clampIntervalToDay interval date = Some clamped -> onDay date clamped.
Proof.
  intros H. apply clampIntervalToDay_some in H. destruct H as [-> Hwf].
  unfold onDay, wellFormed in *. cbn [fst snd] in *. lia.
Qed.

Lemma mergeSessions_onDay (l : list Interval) (g : Q) (date : Z) :
  Forall (onDay date) l -> Forall (onDay date) (mergeSessions l g).
Proof.
  intros Hl.
  assert (Hwf : Forall wellFormed (mergeSessions l g)).
  { apply mergeSessions_wellFormed. eapply Forall_impl; [|exact Hl].
    unfold onDay, wellFormed. intros iv H. lia. }
  rewrite Forall_forall in *. intros session Hin.
  specialize (Hwf session Hin). unfold wellFormed in Hwf.
  rewrite mergeSessions_specRun in Hin. unfold specRun in Hin.
  destruct (sort byStart l) as [|first rest] eqn:E; [contradiction|].
  destruct (specFold_bounds g rest first session Hin) as [[a [Ha Hfa]] [b [Hb Hsb]]].
  rewrite <- E in Ha, Hb. apply sort_In in Ha. apply sort_In in Hb.
  specialize (Hl a Ha) as Hda. specialize (Hl b Hb) as Hdb.
  unfold onDay in *. lia.
Qed.

Lemma presenceStep_invariant (target : string) (date : Z)
    (state : option string * list Interval) (r : Row) :
  presenceInvariant target date state ->
  presenceInvariant target date (presenceStep target date state r).
Proof.
  destruct state as [c ivs]. intros [Hday [Hnone Hmatch]]. cbn [fst snd] in *.
  unfold presenceStep.
  destruct (includes (toLowerCase (normalizeName (Name r))) target) eqn:E; cbn [negb].
  - assert (Hname : forall c', match c with
                                | None | Some EmptyString => Some (normalizeName (Name r))
                                | kept => kept
                                end = Some c' -> includes (toLowerCase c') target = true).
    { intros c' Hc'. destruct c as [[|x k]|].
      - injection Hc' as <-. exact E.
      - apply Hmatch. exact Hc'.
      - injection Hc' as <-. exact E. }
    assert (Hsome : match c with
                    | None | Some EmptyString => Some (normalizeName (Name r))
                    | kept => kept
                    end = None -> False)
      by (destruct c as [[|x k]|]; discriminate).
    destruct (clampIntervalToDay (rowInterval r) date) as [clamped|] eqn:Ec;
      unfold presenceInvariant; cbn [fst snd].
    + split; [|split; [intros H; contradiction (Hsome H)|exact Hname]].
      apply Forall_app. split; [exact Hday|].
      constructor; [|constructor]. eapply clampIntervalToDay_onDay. exact Ec.
    + split; [exact Hday|]. split; [intros H; contradiction (Hsome H)|exact Hname].
  - unfold presenceInvariant. cbn [fst snd]. split; [exact Hday|]. split; assumption.
Qed.

Lemma presenceFold_invariant (target : string) (date : Z) (rows : list Row) :
  forall state, presenceInvariant target date state ->
    presenceInvariant target date (fold_left (presenceStep target date) rows state).
Proof.
  induction rows as [|r rows IH]; intros state H; simpl; [exact H|].
  apply IH, presenceStep_invariant, H.
Qed.

(** X11.  When [getEmployeePresence] finds logs, the employee it names
    matches the query (the lower-cased name contains the lower-cased query),
    the result is for the day asked, and there is at least one session, so
    that [first_in] and [last_out] are set. *)
Theorem getEmployeePresence_found (logs : list Row) (employeeName : string) (date : Z)
    (gapMinutes : Q) (result : Presence.Result) :
  getEmployeePresence logs employeeName date gapMinutes = PresenceFound result ->
  (exists c, Presence.employee result = Some c
             /\ includes (toLowerCase c) (toLowerCase employeeName) = true)
  /\ Presence.date result = date
  /\ Presence.sessions result <> []
  /\ Presence.first_in result <> None
  /\ Presence.last_out result <> None.
Proof.
  unfold getEmployeePresence.
  assert (Hinit : presenceInvariant (toLowerCase employeeName) date (None, [])).
  { split; [constructor|]. split; [reflexivity|discriminate]. }
  pose proof (presenceFold_invariant (toLowerCase employeeName) date
                (selectPresenceRows logs date) (None, []) Hinit) as Hinv.
  destruct (fold_left (presenceStep (toLowerCase employeeName) date)
              (selectPresenceRows logs date) (None, [])) as [c [|iv ivs]];
    [discriminate|].
  destruct Hinv as [_ [Hnone Hmatch]].
  assert (Hm : mergeSessions (iv :: ivs) gapMinutes <> [])
    by (apply mergeSessions_nonempty; discriminate).
  cbv zeta. set (merged := mergeSessions (iv :: ivs) gapMinutes) in *.
  clearbody merged. cbn [fst snd] in *. intros H. injection H as <-.
  cbn [Presence.employee Presence.date Presence.sessions Presence.first_in
       Presence.last_out].
  split.
  - destruct c as [c|]; [|specialize (Hnone eq_refl); discriminate].
    exists c. split; [reflexivity|apply Hmatch; reflexivity].
  - split; [reflexivity|]. split; [intros H; apply map_eq_nil in H; contradiction|].
    split.
    + destruct merged; [contradiction|].
      unfold firstInTime. simpl. discriminate.
    + destruct (exists_last Hm) as [front [lastOne ->]].
      unfold lastOutTime. rewrite map_app, rev_app_distr. simpl. discriminate.
Qed.

Lemma getEmployeePresence_found_witness :
  (exists c, Presence.employee
               {| Presence.employee := Some "Zed"%string;
                  Presence.date := 20301;
                  Presence.sessions :=
                    [ {| in_time := "2025-08-01 07:00:00";
                         out_time := "2025-08-01 07:30:00" |} ];
                  Presence.total_hours := 50;
                  Presence.first_in := Some "2025-08-01 07:00:00"%string;
                  Presence.last_out := Some "2025-08-01 07:30:00"%string |} = Some c
             /\ includes (toLowerCase c) (toLowerCase "ZED") = true)
  /\ 20301 = 20301
  /\ [ {| in_time := "2025-08-01 07:00:00"; out_time := "2025-08-01 07:30:00" |} ] <> []
  /\ Some "2025-08-01 07:00:00"%string <> None
  /\ Some "2025-08-01 07:30:00"%string <> None.
Proof.
  apply (getEmployeePresence_found officeLogs "ZED" 20301 30
           {| Presence.employee := Some "Zed"%string;
              Presence.date := 20301;
              Presence.sessions :=
                [ {| in_time := "2025-08-01 07:00:00";
                     out_time := "2025-08-01 07:30:00" |} ];
              Presence.total_hours := 50;
              Presence.first_in := Some "2025-08-01 07:00:00"%string;
              Presence.last_out := Some "2025-08-01 07:30:00"%string |}).
  vm_compute. reflexivity.
Defined.

Lemma mapPush_Forall {V : Type} (P : V -> Prop) (k : string) (v : V)
    (m : list (string * list V)) :
  P v -> Forall (fun entry => Forall P (snd entry)) m ->
  Forall (fun entry => Forall P (snd entry)) (mapPush k v m).
Proof.
  intros Hv. induction 1 as [|[k' vs] m Hvs Hm IH]; simpl.
  - repeat constructor. exact Hv.
  - destruct (String.eqb k k'); constructor; try assumption.
    simpl. apply Forall_app. split; [exact Hvs|]. constructor; [exact Hv|constructor].
Qed.

Lemma groupByName_onDay (rows : list Row) (date : Z) :
  Forall (fun entry => Forall (onDay date) (snd entry)) (groupByName rows date).
Proof.
  unfold groupByName.
  assert (Hgen : forall m,
            Forall (fun entry : string * list Interval => Forall (onDay date) (snd entry)) m ->
            Forall (fun entry => Forall (onDay date) (snd entry))
                   (fold_left (reportStep date) rows m)).
  { induction rows as [|r rows IH]; intros m Hm; simpl; [exact Hm|].
    apply IH. unfold reportStep.
    destruct (includes (toLowerCase (normalizeName (Name r))) "unknown"
              || includes (toLowerCase (normalizeName (Name r))) "anonymous"); [exact Hm|].
    destruct (clampIntervalToDay (rowInterval r) date) as [clamped|] eqn:E; [|exact Hm].
    apply mapPush_Forall; [|exact Hm]. eapply clampIntervalToDay_onDay. exact E. }
  apply Hgen. constructor.
Qed.

(** The entries of the daily report come from groups of intervals that lie
    on the day. *)
Lemma dailyEntries_from_groups (logs : list Row) (date : Z) (g : Q) (e : Daily.Employee) :
  In e (Daily.employees (getDailyReport logs date g)) ->
  exists name ivals,
    e = employeeOf g (name, ivals) /\ ivals <> [] /\ Forall (onDay date) ivals.
Proof.
  simpl. intros Hin. apply sort_In in Hin. unfold dailyEntries in Hin.
  apply in_map_iff in Hin. destruct Hin as [[name ivals] [<- Hentry]].
  exists name, ivals. split; [reflexivity|].
  pose proof (groupByName_nonempty (selectReportRows logs date) date) as Hne.
  pose proof (groupByName_onDay (selectReportRows logs date) date) as Hday.
  rewrite Forall_forall in Hne, Hday. split.
  - apply (Hne _ Hentry).
  - apply (Hday _ Hentry).
Qed.

(** X12.  Every session of the daily report lies on the day of the report:
    the sessions of an entry are the stamps of intervals between 00:00:00
    and 23:59:59 of that day, none ending before it starts. *)
Theorem getDailyReport_sessions_onDay (logs : list Row) (date : Z) (gapMinutes : Q)
    (e : Daily.Employee) :
  In e (Daily.employees (getDailyReport logs date gapMinutes)) ->
  exists merged,
    Daily.sessions e = map sessionView merged /\ Forall (onDay date) merged.
Proof.
  intros Hin. destruct (dailyEntries_from_groups logs date gapMinutes e Hin)
    as [name [ivals [-> [_ Hday]]]].
  exists (mergeSessions ivals gapMinutes). split; [reflexivity|].
  apply mergeSessions_onDay, Hday.
Qed.

Lemma getDailyReport_sessions_onDay_witness :
  exists merged,
    Daily.sessions (employeeOf 30 ("Zed"%string, [(at_ 20301 7 0, at_ 20301 7 30)]))
    = map sessionView merged
    /\ Forall (onDay 20301) merged.
Proof.
  apply (getDailyReport_sessions_onDay officeLogs 20301 30).
  vm_compute. left. reflexivity.
Defined.

(* ================================================================= *)
(** ** The time spanned in a day                                      *)
(* ================================================================= *)

(** Sessions that follow one another between [lo] and [hi] span at most
    [hi - lo]. *)
Lemma totalMs_bound (hi : Z) (sessions : list Interval) :
  forall lo, lo <= hi ->
    Forall (fun iv => lo <= fst iv /\ fst iv <= snd iv /\ snd iv <= hi) sessions ->
    StronglySorted endsBefore sessions ->
    0 <= totalMs sessions <= hi - lo.
Proof.
  induction sessions as [|iv rest IH]; intros lo Hlo Hall Hs; cbn [totalMs]; [lia|].
  apply Forall_cons_iff in Hall. destruct Hall as [Hiv Hall].
  apply StronglySorted_inv in Hs. destruct Hs as [Hs Hafter]. cbv beta in Hiv.
  assert (Hrest : 0 <= totalMs rest <= hi - snd iv).
  { apply IH; [unfold Date in *; lia| |exact Hs].
    rewrite Forall_forall in *. intros x Hx.
    specialize (Hall x Hx). specialize (Hafter x Hx). unfold endsBefore in Hafter.
    cbv beta in Hall. unfold Date in *. lia. }
  unfold Date in *. lia.
Qed.

(** Sessions that follow one another within a day span less than the day. *)
Lemma totalMs_of_day (merged : list Interval) (date : Z) :
  Forall (onDay date) merged -> StronglySorted endsBefore merged ->
  0 <= totalMs merged <= 86399000.
Proof.
  intros Hday Hs.
  assert (Hms : 0 <= totalMs merged <= dayEndOf date - dayStartOf date).
  { apply totalMs_bound; [unfold dayStartOf, dayEndOf; lia| |exact Hs].
    eapply Forall_impl; [|exact Hday]. unfold onDay. intros iv H. exact H. }
  replace (dayEndOf date - dayStartOf date) with 86399000 in Hms
    by (unfold dayStartOf, dayEndOf; lia).
  exact Hms.
Qed.

(** X13.  With a tolerance that is not negative, the sessions of an entry
    of the daily report follow one another within the day of the report,
    each ending before the next starts, so that the time they span together
    is at most 23:59:59 (86399000 ms). *)
Theorem getDailyReport_sessions_total (logs : list Row) (date : Z) (gapMinutes : Q)
    (e : Daily.Employee) :
  (0 <= gapMinutes)%Q ->
  In e (Daily.employees (getDailyReport logs date gapMinutes)) ->
  exists merged,
    Daily.sessions e = map sessionView merged
    /\ Forall (onDay date) merged
    /\ StronglySorted endsBefore merged
    /\ 0 <= totalMs merged <= 86399000.
Proof.
  intros Hg Hin. destruct (dailyEntries_from_groups logs date gapMinutes e Hin)
    as [name [ivals [-> [_ Hday]]]].
  exists (mergeSessions ivals gapMinutes).
  assert (Hon : Forall (onDay date) (mergeSessions ivals gapMinutes))
    by (apply mergeSessions_onDay, Hday).
  assert (Hs : StronglySorted endsBefore (mergeSessions ivals gapMinutes)).
  { rewrite mergeSessions_specRun.
    apply (specRun_shape gapMinutes (sort byStart ivals) Hg (byStart_sorted ivals)). }
  split; [reflexivity|]. split; [exact Hon|].
  split; [exact Hs|]. apply (totalMs_of_day _ date); assumption.
Qed.

Lemma getDailyReport_sessions_total_witness :
  exists merged,
    Daily.sessions (employeeOf 30 ("Zed"%string, [(at_ 20301 7 0, at_ 20301 7 30)]))
    = map sessionView merged
    /\ Forall (onDay 20301) merged
    /\ StronglySorted endsBefore merged
    /\ 0 <= totalMs merged <= 86399000.
Proof.
  apply (getDailyReport_sessions_total officeLogs 20301 30).
  - discriminate.
  - vm_compute. left. reflexivity.
Defined.

(** The tolerance must not be negative for that: far enough below zero,
    sessions that overlap are kept apart and their hours add up past the
    day. *)
Example getDailyReport_hours_negative_gap :
  map Daily.total_hours (Daily.employees (getDailyReport allDayTwice 20301 (-2000)))
  = [4800].
Proof. vm_compute. reflexivity. Qed.

(** The hours are those of the double: a session of 1 h 0 min 18 s, that
    is 1.005 hours, prints as 1.00, and one of 4 h 30 min 18 s as 4.50,
    because the doubles of the two quotients lie below the ties; half an hour
    prints as 0.50. *)
Example hoursOf_doubles :
  hoursOf (totalMinutesOf [(at_ 20301 8 0, at_ 20301 9 0 + 18000)]) = 100
  /\ hoursOf (totalMinutesOf [(at_ 20301 8 0, at_ 20301 12 30 + 18000)]) = 450
  /\ hoursOf (totalMinutesOf [(at_ 20301 7 0, at_ 20301 7 30)]) = 50.
Proof. repeat split; vm_compute; reflexivity. Qed.

(* ================================================================= *)
(** ** Who is in the daily report                                     *)
(* ================================================================= *)

Lemma firstOccurrences_In (l : list string) (x : string) :
  In x (firstOccurrences l) <-> In x l.
Proof.
  induction l as [|k l IH]; simpl; [reflexivity|].
  rewrite filter_In, IH. destruct (String.eqb_spec x k) as [->|Hne]; simpl.
  - split; intros _; left; reflexivity.
  - split.
    + intros [H|[H _]]; [left; exact H|right; exact H].
    + intros [H|H]; [left; exact H|right; split; [exact H|reflexivity]].
Qed.

Lemma firstOccurrences_NoDup (l : list string) : NoDup (firstOccurrences l).
Proof.
  induction l as [|k l IH]; simpl; constructor.
  - rewrite filter_In. intros [_ H]. rewrite String.eqb_refl in H. discriminate.
  - apply NoDup_filter, IH.
Qed.

Lemma firstOccurrences_same (l : list string) : NoDup l -> firstOccurrences l = l.
Proof.
  induction 1 as [|k l Hk Hl IH]; simpl; [reflexivity|].
  rewrite IH. f_equal. apply forallb_filter_id. apply forallb_forall.
  intros x Hx. destruct (String.eqb_spec x k) as [->|Hne]; [contradiction|reflexivity].
Qed.

Lemma reportNames_dailyEntries (logs : list Row) (date : Z) (g : Q) :
  Permutation (reportNames logs date g) (firstOccurrences (identitiesMet logs date)).
Proof.
  unfold reportNames. cbn [getDailyReport Daily.employees].
  rewrite <- (dailyEntries_names logs date g). apply Permutation_map, sort_perm.
Qed.

Lemma reportNames_NoDup (logs : list Row) (date : Z) (g : Q) :
  NoDup (reportNames logs date g).
Proof.
  eapply Permutation_NoDup.
  - apply Permutation_sym, reportNames_dailyEntries.
  - apply firstOccurrences_NoDup.
Qed.

Lemma reportNames_In (logs : list Row) (date : Z) (g : Q) (n : string) :
  In n (reportNames logs date g)
  <-> exists r, In r logs /\ onDate date r = true /\ entersReport date r = true
                /\ normalizeName (Name r) = n.
Proof.
  split.
  - intros H. apply (Permutation_in _ (reportNames_dailyEntries logs date g)) in H.
    rewrite firstOccurrences_In in H. unfold identitiesMet in H.
    apply in_map_iff in H. destruct H as [r [Hn Hr]].
    apply filter_In in Hr. destruct Hr as [Hr He].
    unfold selectReportRows in Hr. apply sort_In in Hr.
    apply filter_In in Hr. destruct Hr as [Hr Hd].
    exists r. repeat split; assumption.
  - intros [r [Hr [Hd [He Hn]]]].
    apply (Permutation_in _ (Permutation_sym (reportNames_dailyEntries logs date g))).
    rewrite firstOccurrences_In. unfold identitiesMet.
    apply in_map_iff. exists r. split; [exact Hn|].
    apply filter_In. split; [|exact He].
    unfold selectReportRows. apply sort_In. apply filter_In. split; assumption.
Qed.

(** X14.  The daily report has one entry per identity: no name occurs
    twice, and a name is in the report exactly when some row of the table
    is selected for the day, carries that identity, is not an unknown or
    anonymous one and survives clamping to the day. *)
Theorem getDailyReport_identities (logs : list Row) (date : Z) (gapMinutes : Q) :
  NoDup (map Daily.name (Daily.employees (getDailyReport logs date gapMinutes)))
  /\ forall n,
       In n (map Daily.name (Daily.employees (getDailyReport logs date gapMinutes)))
       <-> exists r, In r logs /\ onDate date r = true /\ entersReport date r = true
                     /\ normalizeName (Name r) = n.
Proof.
  split.
  - apply reportNames_NoDup.
  - intros n. apply reportNames_In.
Qed.

(** X15.  No entry of the daily report is an unknown or anonymous device:
    the lower-cased name of an entry contains neither "unknown" nor
    "anonymous". *)
Theorem getDailyReport_reportable (logs : list Row) (date : Z) (gapMinutes : Q) :
  Forall (fun e => includes (toLowerCase (Daily.name e)) "unknown" = false
                   /\ includes (toLowerCase (Daily.name e)) "anonymous" = false)
         (Daily.employees (getDailyReport logs date gapMinutes)).
Proof.
  rewrite Forall_forall. intros e He.
  assert (Hn : In (Daily.name e) (reportNames logs date gapMinutes))
    by (unfold reportNames; apply in_map; exact He).
  apply reportNames_In in Hn. destruct Hn as [r [_ [_ [Hr <-]]]].
  unfold entersReport in Hr. apply andb_true_iff in Hr. destruct Hr as [Hr _].
  apply negb_true_iff, orb_false_iff in Hr. exact Hr.
Qed.

(* ================================================================= *)
(** ** The summaries of a range                                       *)
(* ================================================================= *)

Lemma daysOfRange_In (startDate endDate d : Z) :
  In d (daysOfRange startDate endDate) <-> startDate <= d <= endDate.
Proof.
  unfold daysOfRange. rewrite in_map_iff. split.
  - intros [k [<- Hk]]. apply in_seq in Hk. lia.
  - intros H. exists (Z.to_nat (d - startDate)). split; [lia|].
    apply in_seq. lia.
Qed.

Lemma daysOfRange_length (startDate endDate : Z) :
  List.length (daysOfRange startDate endDate) = Z.to_nat (endDate - startDate + 1).
Proof. unfold daysOfRange. rewrite length_map, length_seq. reflexivity. Qed.

Lemma collectDays_names (days : list (Z * list Daily.Employee)) :
  map fst (collectDays days)
  = firstOccurrences (List.concat (map (fun day => map Daily.name (snd day)) days)).
Proof.
  unfold collectDays. rewrite collectDays_keys. apply keysAfter_empty.
Qed.

Lemma analytics_names (logs : list Row) (startDate endDate : Z) (g : Q) :
  map Range.name (Range.employees (presenceAnalytics logs startDate endDate g))
  = firstOccurrences
      (List.concat (map (fun d => reportNames logs d g) (daysOfRange startDate endDate))).
Proof.
  unfold presenceAnalytics. cbn [Range.employees]. rewrite map_map.
  rewrite (map_ext (fun entry => Range.name (summaryOf entry)) fst)
    by (intros [name entries]; reflexivity).
  rewrite collectDays_names. unfold dayReports. rewrite map_map. reflexivity.
Qed.

(** X16.  The range analytics have one summary per identity: no name occurs
    twice, and a name has a summary exactly when it is in the daily report
    of some day from [startDate] to [endDate], both included. *)
Theorem presenceAnalytics_identities (logs : list Row) (startDate endDate : Z)
    (gapMinutes : Q) :
  NoDup (map Range.name
           (Range.employees (presenceAnalytics logs startDate endDate gapMinutes)))
  /\ forall n,
       In n (map Range.name
               (Range.employees (presenceAnalytics logs startDate endDate gapMinutes)))
       <-> exists d, startDate <= d <= endDate
                     /\ In n (map Daily.name
                                (Daily.employees (getDailyReport logs d gapMinutes))).
Proof.
  rewrite analytics_names. split; [apply firstOccurrences_NoDup|].
  intros n. rewrite firstOccurrences_In, in_concat. split.
  - intros [names [Hnames Hn]]. apply in_map_iff in Hnames.
    destruct Hnames as [d [<- Hd]]. apply daysOfRange_In in Hd.
    exists d. split; [exact Hd|exact Hn].
  - intros [d [Hd Hn]]. exists (reportNames logs d gapMinutes). split; [|exact Hn].
    apply in_map_iff. exists d. split; [reflexivity|]. apply daysOfRange_In, Hd.
Qed.

Lemma valuesOf_mapPush {V : Type} (k k' : string) (v : V) (m : list (string * list V)) :
  valuesOf k (mapPush k' v m)
  = if String.eqb k k' then valuesOf k m ++ [v] else valuesOf k m.
Proof.
  induction m as [|[k'' vs] m IH]; simpl.
  - destruct (String.eqb k k'); reflexivity.
  - destruct (String.eqb_spec k' k'') as [<-|Hne]; simpl.
    + destruct (String.eqb k k'); reflexivity.
    + rewrite IH. destruct (String.eqb_spec k k'') as [->|Hk]; [|reflexivity].
      destruct (String.eqb_spec k'' k') as [->|_]; [contradiction|reflexivity].
Qed.

Lemma valuesOf_In {V : Type} (k : string) (vs : list V) (m : list (string * list V)) :
  NoDup (map fst m) -> In (k, vs) m -> valuesOf k m = vs.
Proof.
  induction m as [|[k' vs'] m IH]; simpl; intros Hnd Hin; [contradiction|].
  apply NoDup_cons_iff in Hnd. destruct Hnd as [Hk' Hnd].
  destruct Hin as [Heq|Hin].
  - injection Heq as -> ->. rewrite String.eqb_refl. reflexivity.
  - destruct (String.eqb_spec k k') as [->|_]; [|apply IH; assumption].
    exfalso. apply Hk'. apply in_map_iff. exists (k', vs). split; [reflexivity|exact Hin].
Qed.

Lemma collectDay_values (k : string) (day : Z * list Daily.Employee) :
  forall byName,
    valuesOf k (collectDay byName day)
    = valuesOf k byName
      ++ map (entryOf (fst day)) (filter (fun e => String.eqb k (Daily.name e)) (snd day)).
Proof.
  unfold collectDay. induction (snd day) as [|e es IH]; intros byName; simpl.
  - rewrite app_nil_r. reflexivity.
  - rewrite IH, valuesOf_mapPush. destruct (String.eqb k (Daily.name e)); simpl.
    + rewrite <- app_assoc. reflexivity.
    + reflexivity.
Qed.

Lemma collectDays_values (k : string) (days : list (Z * list Daily.Employee)) :
  forall byName,
    valuesOf k (fold_left collectDay days byName)
    = valuesOf k byName
      ++ List.concat
           (map (fun day => map (entryOf (fst day))
                                (filter (fun e => String.eqb k (Daily.name e)) (snd day)))
                days).
Proof.
  induction days as [|day days IH]; intros byName; simpl.
  - rewrite app_nil_r. reflexivity.
  - rewrite IH, collectDay_values, <- app_assoc. reflexivity.
Qed.

(** In a report without repeated names, an identity has at most one
    entry. *)
Lemma entries_of_name (k : string) (d : Z) (employees : list Daily.Employee) :
  NoDup (map Daily.name employees) ->
  map RangeDay.date
      (map (entryOf d) (filter (fun e => String.eqb k (Daily.name e)) employees))
  = if existsb (String.eqb k) (map Daily.name employees) then [d] else [].
Proof.
  induction employees as [|e es IH]; simpl; intros Hnd; [reflexivity|].
  apply NoDup_cons_iff in Hnd. destruct Hnd as [He Hnd].
  destruct (String.eqb_spec k (Daily.name e)) as [->|Hne]; simpl.
  - rewrite (IH Hnd).
    destruct (existsb (String.eqb (Daily.name e)) (map Daily.name es)) eqn:E;
      [|reflexivity].
    exfalso. apply He. apply existsb_exists in E. destruct E as [x [Hx Heq]].
    apply String.eqb_eq in Heq. subst x. exact Hx.
  - apply IH, Hnd.
Qed.

Lemma concat_map_if {A : Type} (keep : A -> bool) (l : list A) :
  List.concat (map (fun x => if keep x then [x] else []) l) = filter keep l.
Proof.
  induction l as [|x l IH]; simpl; [reflexivity|].
  rewrite IH. destruct (keep x); reflexivity.
Qed.

Lemma collectDays_nonempty (days : list (Z * list Daily.Employee)) :
  Forall (fun entry => snd entry <> []) (collectDays days).
Proof.
  unfold collectDays.
  assert (Hgen : forall m : list (string * list RangeDay.Entry),
            Forall (fun entry => snd entry <> []) m ->
            Forall (fun entry => snd entry <> []) (fold_left collectDay days m)).
  { induction days as [|day days IH]; intros m Hm; simpl; [exact Hm|].
    apply IH. unfold collectDay. revert m Hm.
    induction (snd day) as [|e es IHe]; intros m Hm; simpl; [exact Hm|].
    apply IHe, mapPush_nonempty, Hm. }
  apply Hgen. constructor.
Qed.

(** The days of a summary, read off the daily reports of the range. *)
Lemma summary_dates (logs : list Row) (startDate endDate : Z) (g : Q) (s : Range.Summary) :
  In s (Range.employees (presenceAnalytics logs startDate endDate g)) ->
  Range.days s <> []
  /\ Range.days_present s = Z.of_nat (List.length (Range.days s))
  /\ map RangeDay.date (Range.days s)
     = filter (fun d => existsb (String.eqb (Range.name s)) (reportNames logs d g))
              (daysOfRange startDate endDate).
Proof.
  unfold presenceAnalytics. cbn [Range.employees]. intros Hin.
  apply in_map_iff in Hin. destruct Hin as [[k vs] [<- Hin]].
  cbn [summaryOf Range.days Range.days_present Range.name].
  split; [|split; [reflexivity|]].
  - pose proof (collectDays_nonempty (dayReports logs startDate endDate g)) as Hne.
    rewrite Forall_forall in Hne. apply (Hne _ Hin).
  - assert (Hvs : valuesOf k (collectDays (dayReports logs startDate endDate g)) = vs).
    { apply valuesOf_In; [|exact Hin].
      rewrite collectDays_names. apply firstOccurrences_NoDup. }
    rewrite <- Hvs. unfold collectDays. rewrite collectDays_values. simpl valuesOf.
    rewrite app_nil_l. unfold dayReports. rewrite map_map. cbn [fst snd].
    rewrite concat_map, map_map.
    rewrite <- (concat_map_if
                  (fun d => existsb (String.eqb k) (reportNames logs d g))).
    f_equal. apply map_ext. intros d.
    apply (entries_of_name k d). apply reportNames_NoDup.
Qed.

(** X17.  The summary of an identity lists exactly the days of the range
    on which the daily report has that identity, once each and in ascending
    order; [days_present] is their number. *)
Theorem presenceAnalytics_summary_days (logs : list Row) (startDate endDate : Z)
    (gapMinutes : Q) (s : Range.Summary) :
  In s (Range.employees (presenceAnalytics logs startDate endDate gapMinutes)) ->
  map RangeDay.date (Range.days s)
  = filter (fun d => existsb (String.eqb (Range.name s))
                       (map Daily.name (Daily.employees (getDailyReport logs d gapMinutes))))
           (daysOfRange startDate endDate)
  /\ Range.days_present s = Z.of_nat (List.length (Range.days s)).
Proof.
  intros Hin. destruct (summary_dates logs startDate endDate gapMinutes s Hin)
    as [_ [Hcount Hdates]].
  split; [exact Hdates|exact Hcount].
Qed.

Lemma presenceAnalytics_summary_days_witness :
  map RangeDay.date (Range.days zedSummary)
  = filter (fun d => existsb (String.eqb (Range.name zedSummary))
                       (map Daily.name (Daily.employees (getDailyReport officeLogs d 30))))
           (daysOfRange 20301 20302)
  /\ Range.days_present zedSummary = Z.of_nat (List.length (Range.days zedSummary)).
Proof.
  apply (presenceAnalytics_summary_days officeLogs 20301 20302 30 zedSummary).
  vm_compute. left. reflexivity.
Defined.

(** X18.  An identity with a summary was present on at least one day and on
    no more days than the range has: [1 <= days_present <= endDate -
    startDate + 1]. *)
Theorem presenceAnalytics_days_present (logs : list Row) (startDate endDate : Z)
    (gapMinutes : Q) (s : Range.Summary) :
  In s (Range.employees (presenceAnalytics logs startDate endDate gapMinutes)) ->
  1 <= Range.days_present s <= endDate - startDate + 1.
Proof.
  intros Hin. destruct (summary_dates logs startDate endDate gapMinutes s Hin)
    as [Hne [Hcount Hdates]].
  rewrite Hcount.
  assert (Hlen : (List.length (Range.days s)
                  <= List.length (daysOfRange startDate endDate))%nat).
  { rewrite <- (length_map RangeDay.date), Hdates. apply filter_length_le. }
  rewrite daysOfRange_length in Hlen.
  destruct (Range.days s) as [|x l]; [contradiction|]. simpl List.length in *. lia.
Qed.

Lemma presenceAnalytics_days_present_witness :
  1 <= Range.days_present zedSummary <= 20302 - 20301 + 1.
Proof.
  apply (presenceAnalytics_days_present officeLogs 20301 20302 30 zedSummary).
  vm_compute. left. reflexivity.
Defined.

(** X19.  Over a single day the range analytics follow the daily report:
    the summaries name the identities of that day's report, in the report's
    order, each present on one day. *)
Theorem presenceAnalytics_single_day (logs : list Row) (date : Z) (gapMinutes : Q) :
  map Range.name (Range.employees (presenceAnalytics logs date date gapMinutes))
  = map Daily.name (Daily.employees (getDailyReport logs date gapMinutes))
  /\ Forall (fun s => Range.days_present s = 1)
            (Range.employees (presenceAnalytics logs date date gapMinutes)).
Proof.
  split.
  - rewrite analytics_names. unfold daysOfRange.
    replace (Z.to_nat (date - date + 1)) with 1%nat by lia.
    simpl. rewrite app_nil_r, Z.add_0_r.
    apply firstOccurrences_same, reportNames_NoDup.
  - rewrite Forall_forall. intros s Hs.
    destruct (summary_dates logs date date gapMinutes s Hs) as [Hne [Hcount Hdates]].
    rewrite Hcount.
    assert (Hlen : (List.length (Range.days s) <= List.length (daysOfRange date date))%nat).
    { rewrite <- (length_map RangeDay.date), Hdates. apply filter_length_le. }
    rewrite daysOfRange_length in Hlen.
    destruct (Range.days s) as [|x l]; [contradiction|]. simpl List.length in *. lia.
Qed.

(* ================================================================= *)
(** ** The exported table                                             *)
(* ================================================================= *)

Lemma flat_map_pairs_length {A : Type} (f : A -> list string) (l : list A) :
  (forall x, List.length (f x) = 2%nat) ->
  List.length (flat_map f l) = (2 * List.length l)%nat.
Proof.
  intros Hf. induction l as [|x l IH]; simpl; [reflexivity|].
  rewrite length_app, Hf, IH. lia.
Qed.

Lemma exportHeaders_length (m : nat) : List.length (exportHeaders m) = (2 * m + 2)%nat.
Proof.
  unfold exportHeaders. cbn [List.length]. rewrite length_app, flat_map_pairs_length.
  - rewrite length_seq. simpl. lia.
  - intros i. reflexivity.
Qed.

Lemma exportRow_length (m : nat) (emp : Daily.Employee) :
  List.length (exportRow m emp) = (2 * m + 2)%nat.
Proof.
  unfold exportRow. cbn [List.length]. rewrite length_app, flat_map_pairs_length.
  - rewrite length_seq. simpl. lia.
  - intros i. destruct (nth_error (Daily.sessions emp) i); reflexivity.
Qed.

Lemma fold_max_le (l : list nat) :
  forall start, (start <= fold_left Nat.max l start)%nat
                /\ Forall (fun n => (n <= fold_left Nat.max l start)%nat) l.
Proof.
  induction l as [|n l IH]; intros start; simpl; [split; [lia|constructor]|].
  destruct (IH (Nat.max start n)) as [Hs Hall]. split; [lia|].
  constructor; [lia|exact Hall].
Qed.

Lemma maxSessionsOf_le (employees : list Daily.Employee) (emp : Daily.Employee) :
  In emp employees ->
  (List.length (Daily.sessions emp) <= maxSessionsOf employees)%nat.
Proof.
  intros Hin. unfold maxSessionsOf.
  destruct (fold_max_le (map (fun e => List.length (Daily.sessions e)) employees) 0)
    as [_ Hall].
  rewrite Forall_forall in Hall. apply Hall.
  apply in_map_iff. exists emp. split; [reflexivity|exact Hin].
Qed.

Lemma sessionCells_present (sessions : list SessionView) :
  forall start,
    flat_map (fun i => sessionCells (nth_error sessions (i - start)))
             (seq start (List.length sessions))
    = flat_map (fun s => [in_time s; out_time s]) sessions.
Proof.
  induction sessions as [|s rest IH]; intros start; simpl; [reflexivity|].
  rewrite Nat.sub_diag. simpl. f_equal. f_equal.
  rewrite <- (IH (S start)). rewrite !flat_map_concat_map. f_equal.
  apply map_ext_in. intros i Hi. apply in_seq in Hi.
  replace (i - start)%nat with (S (i - S start)) by lia. reflexivity.
Qed.

Lemma sessionCells_absent (sessions : list SessionView) (count : nat) :
  forall start, (List.length sessions <= start)%nat ->
    flat_map (fun i => sessionCells (nth_error sessions i)) (seq start count)
    = repeat EmptyString (2 * count).
Proof.
  induction count as [|count IH]; intros start Hle; simpl; [reflexivity|].
  rewrite (proj2 (nth_error_None sessions start) Hle). simpl.
  rewrite IH by lia. replace (count + S (count + 0))%nat with (S (2 * count)) by lia.
  reflexivity.
Qed.

(** X21.  A row of the export lists the employee's name, then every one of
    its sessions in order, as in-time and out-time, then empty cells up to
    the width of the table, then the hours: no session is cut off. *)
Theorem exportRow_sessions (employees : list Daily.Employee) (emp : Daily.Employee) :
  In emp employees ->
  exportRow (maxSessionsOf employees) emp
  = Daily.name emp
    :: flat_map (fun s => [in_time s; out_time s]) (Daily.sessions emp)
    ++ repeat EmptyString
              (2 * (maxSessionsOf employees - List.length (Daily.sessions emp)))
    ++ [showFixed2 (Daily.total_hours emp)].
Proof.
  intros Hin. pose proof (maxSessionsOf_le employees emp Hin) as Hle.
  unfold exportRow. f_equal. rewrite app_assoc. f_equal.
  replace (maxSessionsOf employees)
    with (List.length (Daily.sessions emp)
          + (maxSessionsOf employees - List.length (Daily.sessions emp)))%nat at 1 by lia.
  rewrite seq_app, flat_map_app. f_equal.
  - rewrite <- (sessionCells_present (Daily.sessions emp) 0).
    apply flat_map_ext. intros i. rewrite Nat.sub_0_r. reflexivity.
  - apply sessionCells_absent. simpl. lia.
Qed.

Lemma exportRow_sessions_witness :
  exportRow
    (maxSessionsOf (Daily.employees (getDailyReport officeLogs 20301 30)))
    (employeeOf 30 ("Zed"%string, [(at_ 20301 7 0, at_ 20301 7 30)]))
  = Daily.name (employeeOf 30 ("Zed"%string, [(at_ 20301 7 0, at_ 20301 7 30)]))
    :: flat_map (fun s => [in_time s; out_time s])
         (Daily.sessions (employeeOf 30 ("Zed"%string, [(at_ 20301 7 0, at_ 20301 7 30)])))
    ++ repeat EmptyString
         (2 * (maxSessionsOf (Daily.employees (getDailyReport officeLogs 20301 30))
               - List.length
                   (Daily.sessions
                      (employeeOf 30 ("Zed"%string, [(at_ 20301 7 0, at_ 20301 7 30)])))))
    ++ [showFixed2
          (Daily.total_hours
             (employeeOf 30 ("Zed"%string, [(at_ 20301 7 0, at_ 20301 7 30)])))].
Proof.
  apply (exportRow_sessions (Daily.employees (getDailyReport officeLogs 20301 30))).
  vm_compute. left. reflexivity.
Defined.

(* ================================================================= *)
(** ** Reading an exported row back                                   *)
(* ================================================================= *)

Lemma needsQuoting_cons (c : ascii) (v : string) :
  needsQuoting (String c v) = false ->
  Ascii.eqb c "," = false /\ Ascii.eqb c doubleQuote = false /\ needsQuoting v = false.
Proof.
  simpl. intros H. apply orb_false_iff in H. destruct H as [H Hv].
  apply orb_false_iff in H. destruct H as [Hc Hq]. repeat split; assumption.
Qed.

Lemma closesField_end : closesField EmptyString (Some []).
Proof. intros mode Hmode. destruct mode; try reflexivity. contradiction. Qed.

Lemma closesField_comma (rest : string) :
  closesField (String "," rest) (readFields FieldStart rest).
Proof.
  intros mode Hmode. destruct mode; cbn [readFields]; try contradiction.
  - change (Ascii.eqb "," doubleQuote) with false. rewrite Ascii.eqb_refl. reflexivity.
  - rewrite Ascii.eqb_refl. reflexivity.
  - change (Ascii.eqb "," doubleQuote) with false. rewrite Ascii.eqb_refl. reflexivity.
Qed.

Lemma pushChar_field (c : ascii) (v : string) (fields : option (list string)) :
  option_map (pushChar c) (option_map (cons v) fields)
  = option_map (cons (String c v)) fields.
Proof. destruct fields; reflexivity. Qed.

(** A field without comma, double quote or line break is read as it is. *)
Lemma readFields_plain (v tail : string) (fields : option (list string)) :
  needsQuoting v = false -> hasLineBreak v = false -> closesField tail fields ->
  readFields InPlain (v ++ tail) = option_map (cons v) fields.
Proof.
  intros Hv Hb Htail. induction v as [|c v IH].
  - apply Htail. discriminate.
  - apply needsQuoting_cons in Hv. destruct Hv as [Hc [Hq Hv]].
    cbn [hasLineBreak] in Hb. apply orb_false_iff in Hb. destruct Hb as [Hl Hb].
    cbn [append readFields]. rewrite Hc, Hq, Hl, (IH Hv Hb). cbn [orb].
    apply pushChar_field.
Qed.

(** A field without comma or double quote that holds a line break ends the
    record before the line does. *)
Lemma readFields_break (v tail : string) (mode : ReadMode) :
  needsQuoting v = false -> hasLineBreak v = true ->
  mode = FieldStart \/ mode = InPlain ->
  readFields mode (v ++ tail) = None.
Proof.
  revert mode. induction v as [|c v IH]; intros mode Hv Hb Hmode; [discriminate|].
  apply needsQuoting_cons in Hv. destruct Hv as [Hc [Hq Hv]].
  cbn [hasLineBreak] in Hb.
  destruct (lineBreak c) eqn:Hl.
  - destruct Hmode as [-> | ->]; cbn [append readFields]; rewrite ?Hq, Hc, Hl;
      try rewrite orb_true_r; reflexivity.
  - cbn [orb] in Hb.
    destruct Hmode as [-> | ->]; cbn [append readFields]; rewrite ?Hq, Hc, Hl; cbn [orb];
      rewrite (IH InPlain Hv Hb (or_intror eq_refl)); reflexivity.
Qed.

Lemma readFields_quoted (v tail : string) (fields : option (list string)) :
  closesField tail fields ->
  readFields InQuoted (doubleQuotes v ++ String doubleQuote tail)
  = option_map (cons v) fields.
Proof.
  intros Htail. induction v as [|c v IH].
  - cbn [doubleQuotes append readFields]. rewrite Ascii.eqb_refl.
    apply Htail. discriminate.
  - cbn [doubleQuotes]. destruct (Ascii.eqb_spec c doubleQuote) as [->|Hc].
    + cbn [append readFields]. rewrite !Ascii.eqb_refl, IH. apply pushChar_field.
    + cbn [append readFields]. apply Ascii.eqb_neq in Hc. rewrite Hc, IH.
      apply pushChar_field.
Qed.

Lemma string_app_assoc (a b c : string) : ((a ++ b) ++ c = a ++ (b ++ c))%string.
Proof. induction a as [|x a IH]; simpl; [reflexivity|]. rewrite IH. reflexivity. Qed.

Lemma string_app_empty (a : string) : (a ++ EmptyString)%string = a.
Proof. induction a as [|x a IH]; simpl; [reflexivity|]. rewrite IH. reflexivity. Qed.

(** A cell as [csvCell] writes it is read back, unless it is written bare
    with a line break. *)
Lemma readFields_csvCell (v tail : string) (fields : option (list string)) :
  closesField tail fields ->
  readFields FieldStart (csvCell v ++ tail)
  = if bareLineBreak v then None else option_map (cons v) fields.
Proof.
  intros Htail. unfold csvCell, bareLineBreak. destruct (needsQuoting v) eqn:Hv; cbn [negb andb].
  - cbn [append readFields]. rewrite Ascii.eqb_refl.
    rewrite string_app_assoc. apply readFields_quoted, Htail.
  - destruct (hasLineBreak v) eqn:Hb.
    + apply readFields_break; [exact Hv|exact Hb|left; reflexivity].
    + destruct v as [|c v].
      * apply Htail. discriminate.
      * pose proof (needsQuoting_cons c v Hv) as [Hc [Hq Hv']].
        cbn [hasLineBreak] in Hb. apply orb_false_iff in Hb. destruct Hb as [Hl Hb].
        cbn [append readFields]. rewrite Hq, Hc, Hl.
        rewrite (readFields_plain v tail fields Hv' Hb Htail). apply pushChar_field.
Qed.

Lemma join_cons (sep x y : string) (rest : list string) :
  join sep (x :: y :: rest) = (x ++ sep ++ join sep (y :: rest))%string.
Proof. reflexivity. Qed.

(** The line that [exportReport] makes of a row, read as one record. *)
Lemma readRow_cells (cells : list string) :
  cells <> [] ->
  readRow (join "," (map csvCell cells))
  = if existsb bareLineBreak cells then None else Some cells.
Proof.
  unfold readRow. induction cells as [|x cells IH]; intros Hne; [contradiction|].
  destruct cells as [|y cells].
  - cbn [map join String.concat existsb].
    rewrite <- (string_app_empty (csvCell x)).
    rewrite (readFields_csvCell x EmptyString (Some []) closesField_end).
    rewrite orb_false_r. reflexivity.
  - cbn [map]. rewrite join_cons. cbn [append].
    rewrite (readFields_csvCell x _ _ (closesField_comma _)).
    change (map csvCell (y :: cells)) with (csvCell y :: map csvCell cells) in IH.
    rewrite IH by discriminate.
    change (existsb bareLineBreak (x :: y :: cells))
      with (bareLineBreak x || existsb bareLineBreak (y :: cells)).
    destruct (bareLineBreak x); [reflexivity|]. cbn [orb].
    destruct (existsb bareLineBreak (y :: cells)); reflexivity.
Qed.

(** X20.  The exported table is rectangular: with [m] the largest number of
    sessions of an employee, the header array and the row array of every
    employee have [2 m + 2] cells, and the line written for an employee
    reads as one record of [2 m + 2] fields, provided that none of its
    cells is written bare with a line break. *)
Theorem exportReport_rectangular (employees : list Daily.Employee) :
  List.length (exportHeaders (maxSessionsOf employees))
  = (2 * maxSessionsOf employees + 2)%nat
  /\ Forall (fun emp => List.length (exportRow (maxSessionsOf employees) emp)
                        = (2 * maxSessionsOf employees + 2)%nat) employees
  /\ Forall (fun emp =>
               existsb bareLineBreak (exportRow (maxSessionsOf employees) emp) = false ->
               exists fields,
                 readRow (join "," (map csvCell (exportRow (maxSessionsOf employees) emp)))
                 = Some fields
                 /\ List.length fields = (2 * maxSessionsOf employees + 2)%nat)
            employees.
Proof.
  split; [apply exportHeaders_length|]. split.
  - rewrite Forall_forall. intros emp _. apply exportRow_length.
  - rewrite Forall_forall. intros emp _ Hbare.
    exists (exportRow (maxSessionsOf employees) emp). split; [|apply exportRow_length].
    rewrite readRow_cells, Hbare; [reflexivity|].
    unfold exportRow. discriminate.
Qed.

(** X22.  An exported row reads back as its cells exactly when none of its
    cells is written bare with a line break: the line that [exportReport]
    makes of the cells (every cell through the quoting function, joined by
    commas) reads, under the usual rules of comma-separated values, as those
    very cells, also when cells hold commas or double quotes; a cell with a
    line break and neither comma nor double quote is left without quotes by
    the code, and the line is then not one record. *)
Theorem exportRow_reads_back (cells : list string) :
  cells <> [] ->
  readRow (join "," (map csvCell cells))
  = if existsb bareLineBreak cells then None else Some cells.
Proof. exact (readRow_cells cells). Qed.

Lemma exportRow_reads_back_witness :
  readRow (join "," (map csvCell ["Doe, John"%string; "2025-08-01 07:00:00"%string;
                                  EmptyString; "0.50"%string]))
  = Some ["Doe, John"%string; "2025-08-01 07:00:00"%string; EmptyString; "0.50"%string].
Proof.
  apply (exportRow_reads_back
           ["Doe, John"%string; "2025-08-01 07:00:00"%string; EmptyString; "0.50"%string]).
  discriminate.
Defined.

(** A name with a line break: when it also holds a comma it is quoted and
    reads back; when it does not, it is written as it is, and the line is
    not one record. *)
Example exportRow_line_break :
  readRow (join "," (map csvCell [String "A" (String (ascii_of_nat 10) "b, c"); "0.50"%string]))
  = Some [String "A" (String (ascii_of_nat 10) "b, c"); "0.50"%string]
  /\ csvCell (String "A" (String (ascii_of_nat 10) "b")) = String "A" (String (ascii_of_nat 10) "b")
  /\ readRow (join "," (map csvCell [String "A" (String (ascii_of_nat 10) "b"); "0.50"%string]))
     = None.
Proof. repeat split. Qed.

(* ================================================================= *)
(** ** The server: connecting, failing, reconfiguring                 *)
(* ================================================================= *)

Section ServerFacts.
Variable openDatabase : string -> Database + string.

(** What the handler replies when the query of a tool has been awaited on
    [database]: the answer computed from the rows, or the message of the
    rejection. *)
Lemma withDb_connected {A : Type} (server : Server) (database : Database)
    (query : list Row -> A) :
  db server = Some database ->
  withDb openDatabase server query = (server, allRows database query).
Proof.
  intros H. unfold withDb, ensureDb. rewrite H. cbn. rewrite H. reflexivity.
Qed.

Lemma dayReportsOn_connected (server : Server) (table : list Row) (g : Q)
    (days : list Z) :
  db server = Some (Logs table) ->
  dayReportsOn openDatabase server days g
  = (server, Returned (map (fun d => (d, Daily.employees (getDailyReport table d g))) days)).
Proof.
  intros H. induction days as [|d days IH]; [reflexivity|].
  cbn [dayReportsOn]. rewrite (withDb_connected server _ _ H), IH. reflexivity.
Qed.

(** The loop of [presenceAnalytics] ends at its first day when the query
    rejects. *)
Lemma dayReportsOn_failing (server : Server) (message : string) (g : Q)
    (d : Z) (days : list Z) :
  db server = Some (Failing message) ->
  dayReportsOn openDatabase server (d :: days) g = (server, Thrown message).
Proof.
  intros H. cbn [dayReportsOn]. rewrite (withDb_connected server _ _ H). reflexivity.
Qed.

Lemma analyticsOf_dayReports (table : list Row) (startDate endDate : Z) (g : Q) :
  analyticsOf startDate endDate
    (map (fun d => (d, Daily.employees (getDailyReport table d g)))
         (daysOfRange startDate endDate))
  = presenceAnalytics table startDate endDate g.
Proof. reflexivity. Qed.

Lemma daysOfRange_first (startDate endDate : Z) :
  startDate <= endDate -> exists d days, daysOfRange startDate endDate = d :: days.
Proof.
  intros Hab. destruct (daysOfRange startDate endDate) as [|d days] eqn:E.
  - exfalso. pose proof (daysOfRange_length startDate endDate) as Hlen.
    rewrite E in Hlen. simpl in Hlen. lia.
  - exists d, days. reflexivity.
Qed.

(** The replies of the three query tools on a server whose connection is
    [database] once the query is awaited, whatever the server was before:
    [connected] is the server that the call leaves. *)
Lemma handleCall_queries (server connected : Server) (database : Database) :
  db connected = Some database ->
  (forall (A : Type) (query : list Row -> A),
      withDb openDatabase server query = (connected, allRows database query)) ->
  (forall employeeName date g,
      handleCall openDatabase server (EmployeePresence employeeName date g)
      = (connected,
         match database with
         | Logs table =>
             PresenceReplyText (getEmployeePresence table employeeName date (gapOrDefault g))
         | Failing message => ErrorReplyText message
         end))
  /\ (forall startDate endDate g, startDate <= endDate ->
         handleCall openDatabase server (PresenceAnalytics startDate endDate g)
         = (connected,
            match database with
            | Logs table =>
                AnalyticsReplyText
                  (presenceAnalytics table startDate endDate (gapOrDefault g))
            | Failing message => ErrorReplyText message
            end)).
Proof.
  intros Hc Hwith. split.
  - intros n d g. cbn [handleCall]. rewrite Hwith. destruct database; reflexivity.
  - intros a b g Hab. cbn [handleCall].
    destruct (daysOfRange_first a b Hab) as [d [days E]].
    destruct database as [table|message].
    + rewrite <- analyticsOf_dayReports. rewrite E. cbn [dayReportsOn].
      rewrite Hwith. cbn [allRows].
      rewrite (dayReportsOn_connected connected table _ _ Hc). reflexivity.
    + rewrite E. cbn [dayReportsOn]. rewrite Hwith. reflexivity.
Qed.

(** X23.  On a connected server the handler leaves the server as it is and
    replies from the connection: when the query resolves, what
    [getEmployeePresence], the range analytics and the CSV export compute on
    its rows (with 30 for a missing [gapMinutes]); when the query rejects (a
    file without a [logs] table), the message of the error, for each of the
    three tools.  A range without days makes no query and is answered with
    no summaries in both cases; [configureDatabase] without a path replies
    the current path in both cases. *)
Theorem handleCall_connected (server : Server) (database : Database) :
  db server = Some database ->
  (forall employeeName date g,
      handleCall openDatabase server (EmployeePresence employeeName date g)
      = (server,
         match database with
         | Logs table =>
             PresenceReplyText (getEmployeePresence table employeeName date (gapOrDefault g))
         | Failing message => ErrorReplyText message
         end))
  /\ (forall startDate endDate g, startDate <= endDate ->
         handleCall openDatabase server (PresenceAnalytics startDate endDate g)
         = (server,
            match database with
            | Logs table =>
                AnalyticsReplyText
                  (presenceAnalytics table startDate endDate (gapOrDefault g))
            | Failing message => ErrorReplyText message
            end))
  /\ (forall startDate endDate g, endDate < startDate ->
         handleCall openDatabase server (PresenceAnalytics startDate endDate g)
         = (server, AnalyticsReplyText
                      {| Range.startDate := startDate;
                         Range.endDate := endDate;
                         Range.employees := [] |}))
  /\ (forall date g,
         handleCall openDatabase server (ExportReport date g)
         = (server,
            match database with
            | Logs table => CsvText (exportReport table date (gapOrDefault g))
            | Failing message => ErrorReplyText message
            end))
  /\ handleCall openDatabase server (ConfigureDatabase None)
     = (server, DbPathText (dbPath server)).
Proof.
  intros H.
  destruct (handleCall_queries server server database H
              (fun A query => withDb_connected server database query H))
    as [Hpresence Hrange].
  split; [exact Hpresence|]. split; [exact Hrange|]. split; [|split].
  - intros a b g Hab. cbn [handleCall].
    rewrite (daysOfRange_reversed a b Hab). reflexivity.
  - intros d g. cbn [handleCall]. unfold exportReportOn, ensureDb. rewrite H.
    rewrite (withDb_connected server database _ H). destruct database; reflexivity.
  - cbn [handleCall configureDatabase]. unfold ensureDb. rewrite H. reflexivity.
Qed.

Lemma initialize_opens (server : Server) (database : Database) :
  openDatabase (dbPath server) = inl database ->
  initialize openDatabase server None
  = ({| db := Some database; dbPath := dbPath server |}, Returned tt).
Proof. intros H. unfold initialize, pathOr. rewrite H. reflexivity. Qed.

(** X24.  The connection is opened at the first use and kept: on a server
    without a connection whose file opens, a query tool connects to
    [dbPath] and leaves the server connected, and it replies from the new
    connection: the answer computed on the rows when the query resolves, the
    message of the error when it rejects (a file that opened without a
    [logs] table stays connected).  A range without days needs no connection
    and opens none. *)
Theorem handleCall_first_use (server : Server) (database : Database) :
  db server = None -> openDatabase (dbPath server) = inl database ->
  (forall employeeName date g,
      handleCall openDatabase server (EmployeePresence employeeName date g)
      = ({| db := Some database; dbPath := dbPath server |},
         match database with
         | Logs table =>
             PresenceReplyText (getEmployeePresence table employeeName date (gapOrDefault g))
         | Failing message => ErrorReplyText message
         end))
  /\ (forall date g,
         handleCall openDatabase server (ExportReport date g)
         = ({| db := Some database; dbPath := dbPath server |},
            match database with
            | Logs table => CsvText (exportReport table date (gapOrDefault g))
            | Failing message => ErrorReplyText message
            end))
  /\ (forall startDate endDate g, startDate <= endDate ->
         handleCall openDatabase server (PresenceAnalytics startDate endDate g)
         = ({| db := Some database; dbPath := dbPath server |},
            match database with
            | Logs table =>
                AnalyticsReplyText
                  (presenceAnalytics table startDate endDate (gapOrDefault g))
            | Failing message => ErrorReplyText message
            end))
  /\ (forall startDate endDate g, endDate < startDate ->
         handleCall openDatabase server (PresenceAnalytics startDate endDate g)
         = (server, AnalyticsReplyText
                      {| Range.startDate := startDate;
                         Range.endDate := endDate;
                         Range.employees := [] |})).
Proof.
  intros Hdb Hopen.
  set (connected := {| db := Some database; dbPath := dbPath server |}).
  assert (Hc : db connected = Some database) by reflexivity.
  assert (Hwith : forall (A : Type) (query : list Row -> A),
            withDb openDatabase server query = (connected, allRows database query)).
  { intros A query. unfold withDb, ensureDb. rewrite Hdb.
    rewrite (initialize_opens server database Hopen). reflexivity. }
  destruct (handleCall_queries server connected database Hc Hwith) as [Hpresence Hrange].
  split; [exact Hpresence|]. split; [|split; [exact Hrange|]].
  - intros d g. cbn [handleCall]. unfold exportReportOn, ensureDb. rewrite Hdb.
    rewrite (initialize_opens server database Hopen).
    rewrite (withDb_connected _ database _ Hc). destruct database; reflexivity.
  - intros a b g Hab. cbn [handleCall].
    rewrite (daysOfRange_reversed a b Hab). reflexivity.
Qed.

(** X25.  A connection that cannot be opened is reported, not thrown, and
    leaves the server as it was, so that the next call tries again: the
    reply of a query tool is the message of the error.  A range without days
    is still answered, with no summaries. *)
Theorem handleCall_cannot_open (server : Server) (message : string) :
  db server = None -> openDatabase (dbPath server) = inr message ->
  (forall employeeName date g,
      handleCall openDatabase server (EmployeePresence employeeName date g)
      = (server, ErrorReplyText message))
  /\ (forall date g,
         handleCall openDatabase server (ExportReport date g)
         = (server, ErrorReplyText message))
  /\ handleCall openDatabase server (ConfigureDatabase None)
     = (server, ErrorReplyText message)
  /\ (forall startDate endDate g, startDate <= endDate ->
         handleCall openDatabase server (PresenceAnalytics startDate endDate g)
         = (server, ErrorReplyText message))
  /\ (forall startDate endDate g, endDate < startDate ->
         handleCall openDatabase server (PresenceAnalytics startDate endDate g)
         = (server, AnalyticsReplyText
                      {| Range.startDate := startDate;
                         Range.endDate := endDate;
                         Range.employees := [] |})).
Proof.
  intros Hdb Hopen.
  assert (Hinit : initialize openDatabase server None = (server, Thrown message)).
  { unfold initialize, pathOr. rewrite Hopen. reflexivity. }
  assert (Hwith : forall (A : Type) (query : list Row -> A),
            withDb openDatabase server query = (server, Thrown message)).
  { intros A query. unfold withDb, ensureDb. rewrite Hdb, Hinit. reflexivity. }
  split; [|split; [|split; [|split]]].
  - intros n d g. cbn [handleCall]. rewrite Hwith. reflexivity.
  - intros d g. cbn [handleCall]. unfold exportReportOn, ensureDb.
    rewrite Hdb, Hinit. reflexivity.
  - cbn [handleCall configureDatabase]. unfold ensureDb. rewrite Hdb, Hinit. reflexivity.
  - intros a b g Hab. cbn [handleCall].
    destruct (daysOfRange a b) as [|d days] eqn:E.
    + exfalso. pose proof (daysOfRange_length a b) as Hlen. rewrite E in Hlen.
      simpl in Hlen. lia.
    + cbn [dayReportsOn]. rewrite Hwith. reflexivity.
  - intros a b g Hab. cbn [handleCall].
    rewrite (daysOfRange_reversed a b Hab). reflexivity.
Qed.

(** [configureDatabase] with a path drops the current connection before it
    opens the new file. *)
Lemma configureDatabase_switch (server : Server) (c : ascii) (rest : string) :
  handleCall openDatabase server (ConfigureDatabase (Some (String c rest)))
  = match openDatabase (String c rest) with
    | inl database =>
        ({| db := Some database; dbPath := String c rest |}, DbPathText (String c rest))
    | inr message =>
        ({| db := None; dbPath := dbPath server |}, ErrorReplyText message)
    end.
Proof.
  cbn [handleCall configureDatabase]. unfold initialize.
  cbn [pathOr dbPath]. destruct (openDatabase (String c rest)); reflexivity.
Qed.

(** X26.  After [configureDatabase] with the path of a file that opens, the
    reply is the new path, whatever the server was connected to before and
    whether or not the file has a [logs] table, and the server is connected
    to the new file: the query that follows is answered from its rows when
    it resolves, and replies the error when it rejects (as on the empty file
    that opening a new path creates). *)
Theorem configureDatabase_then_query (server : Server) (c : ascii)
    (rest employeeName : string) (database : Database) (date : Z) (g : option Q) :
  openDatabase (String c rest) = inl database ->
  handleCall openDatabase server (ConfigureDatabase (Some (String c rest)))
  = ({| db := Some database; dbPath := String c rest |}, DbPathText (String c rest))
  /\ handleCall openDatabase
       (fst (handleCall openDatabase server (ConfigureDatabase (Some (String c rest)))))
       (EmployeePresence employeeName date g)
     = ({| db := Some database; dbPath := String c rest |},
        match database with
        | Logs table =>
            PresenceReplyText (getEmployeePresence table employeeName date (gapOrDefault g))
        | Failing message => ErrorReplyText message
        end).
Proof.
  intros Hopen. rewrite configureDatabase_switch, Hopen. cbn [fst].
  split; [reflexivity|].
  cbn [handleCall]. rewrite (withDb_connected _ database) by reflexivity.
  destruct database; reflexivity.
Qed.

(** X27.  A reconfiguration whose file cannot be opened replies the error
    and leaves the server without a connection but with its old path: the
    old connection is dropped before the new file is opened.  The next
    query opens the old file again, and replies from it: the answer when the
    query resolves, the error when it rejects. *)
Theorem configureDatabase_failed_then_query (server : Server) (c : ascii)
    (rest message employeeName : string) (database : Database) (date : Z)
    (g : option Q) :
  openDatabase (String c rest) = inr message ->
  openDatabase (dbPath server) = inl database ->
  handleCall openDatabase server (ConfigureDatabase (Some (String c rest)))
  = ({| db := None; dbPath := dbPath server |}, ErrorReplyText message)
  /\ handleCall openDatabase
       (fst (handleCall openDatabase server (ConfigureDatabase (Some (String c rest)))))
       (EmployeePresence employeeName date g)
     = ({| db := Some database; dbPath := dbPath server |},
        match database with
        | Logs table =>
            PresenceReplyText (getEmployeePresence table employeeName date (gapOrDefault g))
        | Failing message' => ErrorReplyText message'
        end).
Proof.
  intros Hbad Hold. rewrite configureDatabase_switch, Hbad. cbn [fst].
  split; [reflexivity|].
  cbn [handleCall]. unfold withDb, ensureDb. cbn [db]. unfold initialize.
  cbn [pathOr dbPath]. rewrite Hold. cbn [db]. destruct database; reflexivity.
Qed.
End ServerFacts.

Lemma handleCall_connected_witness :
  (forall employeeName date g,
      handleCall sampleDisk officeServer (EmployeePresence employeeName date g)
      = (officeServer, PresenceReplyText
                         (getEmployeePresence officeLogs employeeName date (gapOrDefault g))))
  /\ (forall startDate endDate g, startDate <= endDate ->
         handleCall sampleDisk officeServer (PresenceAnalytics startDate endDate g)
         = (officeServer, AnalyticsReplyText
                            (presenceAnalytics officeLogs startDate endDate (gapOrDefault g))))
  /\ (forall startDate endDate g, endDate < startDate ->
         handleCall sampleDisk officeServer (PresenceAnalytics startDate endDate g)
         = (officeServer, AnalyticsReplyText
                            {| Range.startDate := startDate;
                               Range.endDate := endDate;
                               Range.employees := [] |}))
  /\ (forall date g,
         handleCall sampleDisk officeServer (ExportReport date g)
         = (officeServer, CsvText (exportReport officeLogs date (gapOrDefault g))))
  /\ handleCall sampleDisk officeServer (ConfigureDatabase None)
     = (officeServer, DbPathText (dbPath officeServer)).
Proof.
  apply (handleCall_connected sampleDisk officeServer (Logs officeLogs)).
  reflexivity.
Defined.

(** A server connected to a file without a [logs] table replies the error
    of the query, and still tells its path. *)
Example handleCall_no_table :
  handleCall sampleDisk emptyFileServer (EmployeePresence "Zed" 20301 None)
  = (emptyFileServer, ErrorReplyText noSuchTable)
  /\ handleCall sampleDisk emptyFileServer (PresenceAnalytics 20301 20302 None)
     = (emptyFileServer, ErrorReplyText noSuchTable)
  /\ handleCall sampleDisk emptyFileServer (ExportReport 20301 None)
     = (emptyFileServer, ErrorReplyText noSuchTable)
  /\ handleCall sampleDisk emptyFileServer (ConfigureDatabase None)
     = (emptyFileServer, DbPathText "new.sqlite").
Proof. repeat split. Qed.

Lemma handleCall_first_use_witness :
  (forall employeeName date g,
      handleCall sampleDisk idleServer (EmployeePresence employeeName date g)
      = (officeServer,
         PresenceReplyText (getEmployeePresence officeLogs employeeName date (gapOrDefault g))))
  /\ (forall date g,
         handleCall sampleDisk idleServer (ExportReport date g)
         = (officeServer, CsvText (exportReport officeLogs date (gapOrDefault g))))
  /\ (forall startDate endDate g, startDate <= endDate ->
         handleCall sampleDisk idleServer (PresenceAnalytics startDate endDate g)
         = (officeServer,
            AnalyticsReplyText
              (presenceAnalytics officeLogs startDate endDate (gapOrDefault g))))
  /\ (forall startDate endDate g, endDate < startDate ->
         handleCall sampleDisk idleServer (PresenceAnalytics startDate endDate g)
         = (idleServer, AnalyticsReplyText
                          {| Range.startDate := startDate;
                             Range.endDate := endDate;
                             Range.employees := [] |})).
Proof.
  apply (handleCall_first_use sampleDisk idleServer (Logs officeLogs)).
  - reflexivity.
  - reflexivity.
Defined.

(** The first use of a path where there was no file: the file is created
    empty, the server connects to it, and the query replies its error. *)
Example handleCall_first_use_new_file :
  handleCall sampleDisk {| db := None; dbPath := "new.sqlite" |}
    (EmployeePresence "Zed" 20301 None)
  = (emptyFileServer, ErrorReplyText noSuchTable).
Proof. reflexivity. Qed.

Lemma handleCall_cannot_open_witness :
  (forall employeeName date g,
      handleCall sampleDisk lostServer (EmployeePresence employeeName date g)
      = (lostServer, ErrorReplyText "SQLITE_CANTOPEN: unable to open database file"))
  /\ (forall date g,
         handleCall sampleDisk lostServer (ExportReport date g)
         = (lostServer, ErrorReplyText "SQLITE_CANTOPEN: unable to open database file"))
  /\ handleCall sampleDisk lostServer (ConfigureDatabase None)
     = (lostServer, ErrorReplyText "SQLITE_CANTOPEN: unable to open database file")
  /\ (forall startDate endDate g, startDate <= endDate ->
         handleCall sampleDisk lostServer (PresenceAnalytics startDate endDate g)
         = (lostServer, ErrorReplyText "SQLITE_CANTOPEN: unable to open database file"))
  /\ (forall startDate endDate g, endDate < startDate ->
         handleCall sampleDisk lostServer (PresenceAnalytics startDate endDate g)
         = (lostServer, AnalyticsReplyText
                          {| Range.startDate := startDate;
                             Range.endDate := endDate;
                             Range.employees := [] |})).
Proof.
  apply (handleCall_cannot_open sampleDisk lostServer
           "SQLITE_CANTOPEN: unable to open database file").
  - reflexivity.
  - reflexivity.
Defined.

Lemma configureDatabase_then_query_witness :
  handleCall sampleDisk officeServer (ConfigureDatabase (Some "new.sqlite"%string))
  = (emptyFileServer, DbPathText "new.sqlite")
  /\ handleCall sampleDisk
       (fst (handleCall sampleDisk officeServer
               (ConfigureDatabase (Some "new.sqlite"%string))))
       (EmployeePresence "Zed" 20301 None)
     = (emptyFileServer, ErrorReplyText noSuchTable).
Proof.
  apply (configureDatabase_then_query sampleDisk officeServer "n" "ew.sqlite" "Zed"
           (Failing noSuchTable) 20301 None).
  reflexivity.
Defined.

(** The same call with the path of the office file, from a server that
    could not connect: the next query is answered from the office table. *)
Example configureDatabase_then_query_office :
  handleCall sampleDisk
    (fst (handleCall sampleDisk lostServer
            (ConfigureDatabase (Some "office.sqlite"%string))))
    (EmployeePresence "Zed" 20301 None)
  = (officeServer,
     PresenceReplyText (getEmployeePresence officeLogs "Zed" 20301 (gapOrDefault None))).
Proof. reflexivity. Qed.

Lemma configureDatabase_failed_then_query_witness :
  handleCall sampleDisk officeServer
    (ConfigureDatabase (Some "/nowhere/office.sqlite"%string))
  = (idleServer, ErrorReplyText "SQLITE_CANTOPEN: unable to open database file")
  /\ handleCall sampleDisk
       (fst (handleCall sampleDisk officeServer
               (ConfigureDatabase (Some "/nowhere/office.sqlite"%string))))
       (EmployeePresence "Zed" 20301 None)
     = (officeServer,
        PresenceReplyText (getEmployeePresence officeLogs "Zed" 20301 (gapOrDefault None))).
Proof.
  apply (configureDatabase_failed_then_query sampleDisk officeServer "/"
           "nowhere/office.sqlite" "SQLITE_CANTOPEN: unable to open database file" "Zed"
           (Logs officeLogs) 20301 None).
  - reflexivity.
  - reflexivity.
Defined.

(* ================================================================= *)
(** ** Stamps                                                         *)
(* ================================================================= *)

(** X28.  A stamp tells the second and no more: two instants within the
    same second have the same stamp. *)
Theorem toLocalISOString_same_second (d d' : Date) :
  d / 1000 = d' / 1000 -> toLocalISOString d = toLocalISOString d'.
Proof.
  intros H. unfold toLocalISOString, getFullYear, getMonth, getDate, getHours,
    getMinutes, getSeconds, msPerDay.
  assert (Hdiv : forall k, 0 < k -> d / (1000 * k) = d' / (1000 * k)).
  { intros k Hk. rewrite <- !Z.div_div by lia. rewrite H. reflexivity. }
  pose proof (Hdiv 86400 ltac:(lia)) as Hday.
  pose proof (Hdiv 3600 ltac:(lia)) as Hhour.
  pose proof (Hdiv 60 ltac:(lia)) as Hmin.
  change (1000 * 86400) with 86400000 in Hday.
  change (1000 * 3600) with 3600000 in Hhour.
  change (1000 * 60) with 60000 in Hmin.
  clear Hdiv.
  assert (Hh : d mod 86400000 / 3600000 = d' mod 86400000 / 3600000)
    by (clear H Hmin; Z.div_mod_to_equations; lia).
  assert (Hm : d mod 3600000 / 60000 = d' mod 3600000 / 60000)
    by (clear H Hday Hh; Z.div_mod_to_equations; lia).
  assert (Hs : d mod 60000 / 1000 = d' mod 60000 / 1000)
    by (clear Hday Hhour Hh Hm; Z.div_mod_to_equations; lia).
  rewrite Hday, Hh, Hm, Hs. reflexivity.
Qed.

Lemma toLocalISOString_same_second_witness :
  toLocalISOString (at_ 20301 9 0 + 15) = toLocalISOString (at_ 20301 9 0 + 980).
Proof.
  apply (toLocalISOString_same_second (at_ 20301 9 0 + 15) (at_ 20301 9 0 + 980)).
  reflexivity.
Defined.

(* ================================================================= *)
(** ** The sessions of a query                                        *)
(* ================================================================= *)

(** X29.  The sessions that [getEmployeePresence] reports lie on the day
    asked: they are the stamps of intervals between 00:00:00 and 23:59:59 of
    that day, none ending before it starts; with a tolerance that is not
    negative they follow one another, each ending before the next starts, so
    that the time they span together is at most 23:59:59 (86399000 ms). *)
Theorem getEmployeePresence_sessions_onDay (logs : list Row) (employeeName : string)
    (date : Z) (gapMinutes : Q) (result : Presence.Result) :
  getEmployeePresence logs employeeName date gapMinutes = PresenceFound result ->
  exists merged,
    Presence.sessions result = map sessionView merged
    /\ Forall (onDay date) merged
    /\ ((0 <= gapMinutes)%Q ->
        StronglySorted endsBefore merged /\ 0 <= totalMs merged <= 86399000).
Proof.
  unfold getEmployeePresence.
  assert (Hinit : presenceInvariant (toLowerCase employeeName) date (None, [])).
  { split; [constructor|]. split; [reflexivity|discriminate]. }
  pose proof (presenceFold_invariant (toLowerCase employeeName) date
                (selectPresenceRows logs date) (None, []) Hinit) as Hinv.
  destruct (fold_left (presenceStep (toLowerCase employeeName) date)
              (selectPresenceRows logs date) (None, [])) as [c [|iv ivs]];
    [discriminate|].
  destruct Hinv as [Hday _]. cbn [snd] in Hday.
  pose proof (mergeSessions_onDay (iv :: ivs) gapMinutes date Hday) as Hmerged.
  assert (Hsorted : (0 <= gapMinutes)%Q ->
                    StronglySorted endsBefore (mergeSessions (iv :: ivs) gapMinutes)).
  { intros Hg. rewrite mergeSessions_specRun.
    apply (specRun_shape gapMinutes (sort byStart (iv :: ivs)) Hg
             (byStart_sorted (iv :: ivs))). }
  cbv zeta. set (merged := mergeSessions (iv :: ivs) gapMinutes) in *.
  clearbody merged. intros H. injection H as <-.
  cbn [Presence.sessions Presence.total_hours].
  exists merged. split; [reflexivity|].
  split; [exact Hmerged|]. intros Hg. split; [exact (Hsorted Hg)|].
  apply (totalMs_of_day merged date); [exact Hmerged|exact (Hsorted Hg)].
Qed.

Lemma getEmployeePresence_sessions_onDay_witness :
  exists merged,
    [ {| in_time := "2025-08-01 07:00:00"; out_time := "2025-08-01 07:30:00" |} ]
    = map sessionView merged
    /\ Forall (onDay 20301) merged
    /\ ((0 <= 30)%Q ->
        StronglySorted endsBefore merged /\ 0 <= totalMs merged <= 86399000).
Proof.
  apply (getEmployeePresence_sessions_onDay officeLogs "zed" 20301 30
           {| Presence.employee := Some "Zed"%string;
              Presence.date := 20301;
              Presence.sessions :=
                [ {| in_time := "2025-08-01 07:00:00";
                     out_time := "2025-08-01 07:30:00" |} ];
              Presence.total_hours := 50;
              Presence.first_in := Some "2025-08-01 07:00:00"%string;
              Presence.last_out := Some "2025-08-01 07:30:00"%string |}).
  vm_compute. reflexivity.
Defined.
